(** * Trip planning, schedule generation and day-log synthesis

    A shallow embedding of [routes/views.py], [routes/models.py] and
    [routes/serializers.py] of the truck logistics planner, and the
    properties of the planning engine proved over it.

    Numbers.  Python [float] values are idealised as exact rationals [Q]
    (no binary rounding error, no NaN or infinity); Python [int] values are
    [Z].  [round(x, 2)] is round-half-to-even at two decimals, [int(x)]
    truncates towards zero, [//] is floor division and raises
    [ZeroDivisionError] on a zero divisor, [min(a, b)] returns [a] unless
    [b < a]. *)

From Stdlib Require Import ZArith QArith Qround Lia Lqa List String Bool.
From Stdlib Require Import DecimalString.
From Stdlib Require Finite.
Import ListNotations.

Open Scope Q_scope.

(* ------------------------------------------------------------------ *)
(** ** Python numeric primitives *)

Module Py.

(** [a < b] on floats. *)
Definition lt (a b : Q) : bool :=
  match a ?= b with Lt => true | _ => false end.

(** [min(a, b)]: the first argument unless the second is smaller. *)
Definition min (a b : Q) : Q := if lt b a then b else a.

(** [int(x)]: truncation towards zero. *)
Definition int (x : Q) : Z := (Qnum x ÷ Z.pos (Qden x))%Z.

(** Nearest integer, ties to the even one. *)
Definition round_half_even (x : Q) : Z :=
  let f := Qfloor x in
  match (x - inject_Z f ?= 1 # 2)%Q with
  | Lt => f
  | Gt => (f + 1)%Z
  | Eq => if Z.even f then f else (f + 1)%Z
  end.

(** [round(x, 2)], on the exact value of [x].  Python rounds the binary
    float: where the decimal value of [x] lies exactly between two
    hundredths the float usually does not, and the stored float of a
    hundredth is itself only the nearest binary one.  What is stated
    below about rounded values is therefore stated as bounds wider than
    that error, or for whole numbers, which floats hold exactly. *)
Definition round2 (x : Q) : Q := round_half_even (x * 100) # 100.

(** Exceptions the views can meet. *)
Inductive exn : Set :=
| ZeroDivisionError
| DoesNotExist
| MultipleObjectsReturned.

(** Outcome of a computation: a value, a raised exception, or a loop
    that was cut by its fuel. *)
Inductive result (A : Type) : Type :=
| Ok (a : A)
| Raise (e : exn)
| OutOfFuel.
Arguments Ok {A} a.
Arguments Raise {A} e.
Arguments OutOfFuel {A}.

Definition bind {A B} (m : result A) (k : A -> result B) : result B :=
  match m with
  | Ok a => k a
  | Raise e => Raise e
  | OutOfFuel => OutOfFuel
  end.

(** [x // n] for a float [x] and an int [n]. *)
Definition floordiv (x : Q) (n : Z) : result Q :=
  if (n =? 0)%Z then Raise ZeroDivisionError
  else Ok (inject_Z (Qfloor (x / inject_Z n))).

(** [range(lo, hi)]. *)
Definition range (lo hi : Z) : list Z :=
  map (fun k => (lo + Z.of_nat k)%Z) (seq 0 (Z.to_nat (hi - lo))).

(** [str(n)] for an int. *)
Definition str (n : Z) : string := NilZero.string_of_int (Z.to_int n).

(** [while cond: body], cut after [fuel] iterations. *)
Fixpoint while {S : Type} (cond : S -> bool) (body : S -> S)
         (fuel : nat) (s : S) : result S :=
  if cond s then
    match fuel with
    | O => OutOfFuel
    | Datatypes.S fuel' => while cond body fuel' (body s)
    end
  else Ok s.

End Py.

Notation "x <- m ;; k" := (Py.bind m (fun x => k))
  (at level 61, m at next level, right associativity).

(* ------------------------------------------------------------------ *)
(** ** Data model ([routes/models.py]) *)

(** [UUIDField]: an opaque identifier. *)
Definition uuid : Set := N.

(** [Trip].  [current_cycle_hours] and [estimated_days] are
    [IntegerField]s, the two totals are [FloatField]s.  The creation
    timestamp is not modelled.  An integer column is not bounded here;
    the database refuses a row whose integer is outside the column's
    range, see [integer_field_range]. *)
Module Trip.
Record t : Set := Build {
  id : uuid;
  current_location : string;
  pickup_location : string;
  dropoff_location : string;
  current_cycle_hours : Z;
  total_distance_miles : Q;
  total_drive_hours : Q;
  estimated_days : Z
}.
End Trip.

(** The [choices] of [Stop.stop_type]. *)
Inductive stop_type : Set := pickup | fuel | rest | dropoff.

Module Stop.
Record t : Set := Build {
  trip : uuid;
  stop_type : stop_type;
  location : string;
  mile_marker : Q;
  duration_hours : Q
}.
End Stop.

Module DailySchedule.
Record t : Set := Build {
  trip : uuid;
  day_number : Z;
  driving_hours : Q;
  on_duty_hours : Q;
  off_duty_hours : Q;
  notes : string
}.
End DailySchedule.

(** The [choices] of [LogEntry.status]. *)
Inductive duty_status : Set :=
| Off_Duty | Sleeper | Driving | On_Duty | Break.

(** One entry of a day log: the dict built by [DailyLogsAPIView.get],
    with the fields of [LogEntry]. *)
Module LogEntry.
Record t : Set := Build {
  start_hour : Q;
  end_hour : Q;
  status : duty_status
}.
End LogEntry.

(* ------------------------------------------------------------------ *)
(** ** Requests, environment and responses *)

(** [RouteRequestSerializer.validated_data]: [current_cycle_hours] is a
    [FloatField] with [min_value=0]. *)
Module Request.
Record t : Set := Build {
  current_location : string;
  pickup_location : string;
  dropoff_location : string;
  current_cycle_hours : Q
}.
End Request.

(** The route returned by the directions service: metres and seconds. *)
Module Route.
Record t : Set := Build {
  distance : Q;
  duration : Q
}.
End Route.

(** The process environment, restricted to variables holding integers. *)
Definition environ : Type := string -> option Z.

(** [int(os.getenv(name, default))]. *)
Definition getenv_int (env : environ) (name : string) (default : Z) : Z :=
  match env name with
  | Some v => v
  | None => default
  end.

(** No variable set: every default applies. *)
Definition empty_env : environ := fun _ => None.

Module Http.
Inductive status : Set :=
| HTTP_200_OK
| HTTP_201_CREATED
| HTTP_404_NOT_FOUND
| HTTP_500_INTERNAL_SERVER_ERROR.

(** Body of an error response: a fixed message or [str(e)]. *)
Inductive error : Set :=
| Message (m : string)
| Str (e : Py.exn).

Inductive Response (A : Type) : Type :=
| Data (st : status) (data : A)
| Error (st : status) (err : error).
Arguments Data {A} st data.
Arguments Error {A} st err.
End Http.

(** [try: m except Exception as e: handler(e)]. *)
Definition try_except {A} (m : Py.result A) (handler : Py.exn -> A)
  : Py.result A :=
  match m with
  | Py.Raise e => Py.Ok (handler e)
  | r => r
  end.

(** [for i in l: body], threading the loop's variables. *)
Definition for_in {S : Type} (l : list Z) (body : Z -> S -> S) (s : S) : S :=
  fold_left (fun s i => body i s) l s.

(* ------------------------------------------------------------------ *)
(** ** [TripAPIView.create] *)

(** The serialised trip: the [Trip] with its stops and daily schedules. *)
Record TripData : Set := {
  trip : Trip.t;
  stops : list Stop.t;
  daily_schedules : list DailySchedule.t
}.

(** Variables of the schedule loop. *)
Record ScheduleLoop : Set := {
  loop_daily_schedules : list DailySchedule.t;
  current_day : Z;
  remaining_hours : Q
}.

(** [remaining_hours > 0 and current_day < 30]. *)
Definition schedule_cond (s : ScheduleLoop) : bool :=
  Py.lt 0 (remaining_hours s) && (current_day s <? 30)%Z.

Definition schedule_body (trip_id : uuid) (s : ScheduleLoop) : ScheduleLoop :=
  let day_hours := Py.min 11 (remaining_hours s) in
  let schedule :=
    DailySchedule.Build trip_id (current_day s)
      (Py.round2 day_hours)
      (Py.round2 (day_hours + 1))
      13
      ("Day " ++ Py.str (current_day s) ++ " schedule") in
  {| loop_daily_schedules := loop_daily_schedules s ++ [schedule];
     current_day := (current_day s + 1)%Z;
     remaining_hours := remaining_hours s - day_hours |}.

(** Iterations granted to the schedule loop; [schedule_loop_total] shows
    that they are never used up. *)
Definition schedule_fuel : nat := 30.

Definition fuel_stop (trip_id : uuid) (fuel_stop_miles : Z)
           (distance_miles : Q) (i : Z) : Stop.t :=
  let mile_marker := Py.min (inject_Z (i * fuel_stop_miles)) distance_miles in
  Stop.Build trip_id fuel ("Fuel Stop " ++ Py.str i)
    (Py.round2 mile_marker) 0.5.

Definition rest_stop (trip_id : uuid) (driving_hours_limit off_duty_hours : Z)
           (distance_miles : Q) (i : Z) : Stop.t :=
  let mile_marker :=
    Py.min (inject_Z (i * driving_hours_limit * 50)) distance_miles in
  Stop.Build trip_id rest ("Rest Stop " ++ Py.str i)
    (Py.round2 mile_marker) (inject_Z off_duty_hours).

Module TripAPIView.

(** The [try] block of [create], from the route data on: the request is
    valid, the access token is configured and the directions service
    succeeded.  [trip_id] is the identifier the new [Trip] receives.
    [Trip.objects.create] stores [current_cycle_hours] in an
    [IntegerField], which keeps [int(value)]. *)
Definition create_try (env : environ) (trip_id : uuid)
           (validated_data : Request.t) (route_data : Route.t)
  : Py.result (Http.Response TripData) :=
  let distance_meters := Route.distance route_data in
  let distance_miles := distance_meters * 0.000621371 in
  let duration_seconds := Route.duration route_data in
  let driving_hours := duration_seconds / 3600 in
  let current_location := Request.current_location validated_data in
  let pickup_location := Request.pickup_location validated_data in
  let dropoff_location := Request.dropoff_location validated_data in
  let current_cycle_hours := Request.current_cycle_hours validated_data in
  let driving_hours_limit := getenv_int env "DRIVING_HOURS_LIMIT" 11 in
  let off_duty_hours := getenv_int env "OFF_DUTY_HOURS" 10 in
  let fuel_stop_miles := getenv_int env "FUEL_STOP_MILES" 1000 in
  let trip :=
    Trip.Build trip_id current_location pickup_location dropoff_location
      (Py.int current_cycle_hours)
      (Py.round2 distance_miles)
      (Py.round2 driving_hours)
      (Z.max 1 (Py.int (driving_hours / 11))) in
  let stops := [Stop.Build trip_id pickup pickup_location 0 0] in
  q <- Py.floordiv distance_miles fuel_stop_miles ;;
  let fuel_stop_count := Py.int q in
  let stops :=
    for_in (Py.range 1 (fuel_stop_count + 1))
      (fun i stops =>
         stops ++ [fuel_stop trip_id fuel_stop_miles distance_miles i])
      stops in
  q <- Py.floordiv driving_hours driving_hours_limit ;;
  let rest_stop_count := Py.int q in
  let stops :=
    for_in (Py.range 1 (rest_stop_count + 1))
      (fun i stops =>
         stops ++ [rest_stop trip_id driving_hours_limit off_duty_hours
                     distance_miles i])
      stops in
  let stops :=
    stops ++ [Stop.Build trip_id dropoff dropoff_location
                (Py.round2 distance_miles) 0] in
  s <- Py.while schedule_cond (schedule_body trip_id) schedule_fuel
         {| loop_daily_schedules := [];
            current_day := 1;
            remaining_hours := driving_hours |} ;;
  Py.Ok (Http.Data Http.HTTP_201_CREATED
           {| trip := trip;
              stops := stops;
              daily_schedules := loop_daily_schedules s |}).

Definition create (env : environ) (trip_id : uuid)
           (validated_data : Request.t) (route_data : Route.t)
  : Py.result (Http.Response TripData) :=
  try_except (create_try env trip_id validated_data route_data)
    (fun e => Http.Error Http.HTTP_500_INTERNAL_SERVER_ERROR (Http.Str e)).

End TripAPIView.

(* ------------------------------------------------------------------ *)
(** ** [DailyLogsAPIView.get] *)

(** The lookup [trip_id=..., day_number=...]. *)
Definition schedule_matches (trip_id : uuid) (day_number : Z)
           (s : DailySchedule.t) : bool :=
  (DailySchedule.trip s =? trip_id)%N
  && (DailySchedule.day_number s =? day_number)%Z.

(** [DailySchedule.objects.get(trip_id=..., day_number=...)] over the
    stored schedules. *)
Definition objects_get (db : list DailySchedule.t)
           (trip_id : uuid) (day_number : Z) : Py.result DailySchedule.t :=
  match filter (schedule_matches trip_id day_number) db with
  | [] => Py.Raise Py.DoesNotExist
  | [s] => Py.Ok s
  | _ :: _ :: _ => Py.Raise Py.MultipleObjectsReturned
  end.

(** The log after the driving and break steps, with the cursor
    [current_hour] they leave. *)
Definition driving_and_break (schedule : DailySchedule.t)
  : list LogEntry.t * Q :=
  let log_entries := [] in
  let current_hour := 8.0 in
  let '(log_entries, current_hour) :=
    if Py.lt 0 (DailySchedule.driving_hours schedule) then
      (log_entries ++
         [LogEntry.Build current_hour
            (current_hour + DailySchedule.driving_hours schedule) Driving],
       current_hour + DailySchedule.driving_hours schedule)
    else (log_entries, current_hour) in
  if Py.lt 0 (DailySchedule.on_duty_hours schedule
              - DailySchedule.driving_hours schedule) then
    (log_entries ++
       [LogEntry.Build current_hour (current_hour + 0.5) Break],
     current_hour + 0.5)
  else (log_entries, current_hour).

(** The log entries of one day, from the schedule's summary fields. *)
Definition log_entries_of (schedule : DailySchedule.t) : list LogEntry.t :=
  let '(log_entries, current_hour) := driving_and_break schedule in
  if Py.lt current_hour 24 then
    log_entries ++ [LogEntry.Build current_hour 24.0 Off_Duty]
  else log_entries.

(** The [data] object of a successful day-log response. *)
Record DayLog : Set := {
  log_trip_id : uuid;
  log_day_number : Z;
  log_entries : list LogEntry.t;
  total_driving_hours : Q;
  total_on_duty_hours : Q;
  total_off_duty_hours : Q;
  log_notes : string
}.

Module DailyLogsAPIView.

Definition get (db : list DailySchedule.t)
           (trip_id : uuid) (day_number : Z)
  : Py.result (Http.Response DayLog) :=
  try_except
    (schedule <- objects_get db trip_id day_number ;;
     let log_entries := log_entries_of schedule in
     Py.Ok (Http.Data Http.HTTP_200_OK
              {| log_trip_id := trip_id;
                 log_day_number := day_number;
                 log_entries := log_entries;
                 total_driving_hours := DailySchedule.driving_hours schedule;
                 total_on_duty_hours := DailySchedule.on_duty_hours schedule;
                 total_off_duty_hours :=
                   DailySchedule.off_duty_hours schedule;
                 log_notes := DailySchedule.notes schedule |}))
    (fun e =>
       match e with
       | Py.DoesNotExist =>
           Http.Error Http.HTTP_404_NOT_FOUND
             (Http.Message
                "Schedule not found for the specified trip and day")
       | _ => Http.Error Http.HTTP_500_INTERNAL_SERVER_ERROR (Http.Str e)
       end).

End DailyLogsAPIView.

(* ------------------------------------------------------------------ *)
(** ** Local variables of [create] as functions of its inputs *)

Definition distance_miles (route_data : Route.t) : Q :=
  Route.distance route_data * 0.000621371.

Definition driving_hours (route_data : Route.t) : Q :=
  Route.duration route_data / 3600.

Definition driving_hours_limit (env : environ) : Z :=
  getenv_int env "DRIVING_HOURS_LIMIT" 11.

Definition off_duty_hours (env : environ) : Z :=
  getenv_int env "OFF_DUTY_HOURS" 10.

Definition fuel_stop_miles (env : environ) : Z :=
  getenv_int env "FUEL_STOP_MILES" 1000.

Definition fuel_stop_count (env : environ) (route_data : Route.t) : Z :=
  Qfloor (distance_miles route_data / inject_Z (fuel_stop_miles env)).

Definition rest_stop_count (env : environ) (route_data : Route.t) : Z :=
  Qfloor (driving_hours route_data / inject_Z (driving_hours_limit env)).

(** State of the schedule loop on entry. *)
Definition schedule_init (route_data : Route.t) : ScheduleLoop :=
  {| loop_daily_schedules := [];
     current_day := 1;
     remaining_hours := driving_hours route_data |}.

(* ------------------------------------------------------------------ *)
(** ** Observations on the output *)

Definition stop_type_eqb (a b : stop_type) : bool :=
  match a, b with
  | pickup, pickup | fuel, fuel | rest, rest | dropoff, dropoff => true
  | _, _ => false
  end.

(** The stops of one type, in output order. *)
Definition stops_of_type (ty : stop_type) (l : list Stop.t) : list Stop.t :=
  filter (fun s => stop_type_eqb (Stop.stop_type s) ty) l.

(** Sum of [driving_hours] over a list of schedules. *)
Definition sum_driving_hours (l : list DailySchedule.t) : Q :=
  fold_right (fun s acc => DailySchedule.driving_hours s + acc) 0 l.

(** Day numbers 1, 2, ..., n. *)
Definition sequential_days (l : list DailySchedule.t) : Prop :=
  map DailySchedule.day_number l = map Z.of_nat (seq 1 (List.length l)).

(** Log entries equal up to the representation of their hours. *)
Definition entry_eq (a b : LogEntry.t) : Prop :=
  LogEntry.start_hour a == LogEntry.start_hour b
  /\ LogEntry.end_hour a == LogEntry.end_hour b
  /\ LogEntry.status a = LogEntry.status b.

(** Each entry ends where the next one starts. *)
Fixpoint contiguous (l : list LogEntry.t) : Prop :=
  match l with
  | a :: (b :: _) as r =>
      LogEntry.end_hour a == LogEntry.start_hour b /\ contiguous r
  | _ => True
  end.

(** No two stored schedules share trip and day number. *)
Fixpoint unique_days (db : list DailySchedule.t) : bool :=
  match db with
  | [] => true
  | s :: r =>
      negb (existsb
              (fun s' =>
                 (DailySchedule.trip s' =? DailySchedule.trip s)%N
                 && (DailySchedule.day_number s'
                     =? DailySchedule.day_number s)%Z) r)
      && unique_days r
  end.

(* ------------------------------------------------------------------ *)
(** ** Invariants of the schedule loop *)

(** Shape of the emitted days: numbered from 1, one per iteration, none
    driving longer than 11 hours, all 13 hours off duty. *)
Definition days_shape (trip_id : uuid) (s : ScheduleLoop) : Prop :=
  (current_day s <= 30)%Z
  /\ current_day s = (Z.of_nat (List.length (loop_daily_schedules s)) + 1)%Z
  /\ sequential_days (loop_daily_schedules s)
  /\ Forall (fun d => DailySchedule.trip d = trip_id
                      /\ DailySchedule.driving_hours d <= 11
                      /\ DailySchedule.off_duty_hours d == 13)
       (loop_daily_schedules s).

(** Accounting of the driving hours: what has been emitted plus what
    remains is the total, up to the two-decimal rounding of the stored
    values; [h] is the drive time on entry. *)
Definition hours_account (h : Q) (s : ScheduleLoop) : Prop :=
  0 <= remaining_hours s
  /\ sum_driving_hours (loop_daily_schedules s)
     + Py.round2 (remaining_hours s) == Py.round2 h
  /\ (remaining_hours s == 0
      \/ (remaining_hours s == h - 11 * inject_Z (current_day s - 1)
          /\ sum_driving_hours (loop_daily_schedules s)
             == 11 * inject_Z (current_day s - 1))).

(** Where the day counter stands against the drive time [h]: a day is
    emitted only while hours remain, and the hours run out only once the
    emitted days cover them. *)
Definition days_count (h : Q) (s : ScheduleLoop) : Prop :=
  (current_day s = 1%Z \/ 11 * inject_Z (current_day s - 2) < h)
  /\ (remaining_hours s == 0 -> h <= 11 * inject_Z (current_day s - 1)).

(* ------------------------------------------------------------------ *)
(** ** Further observations and sample data *)

(** The cursor the driving and break steps leave. *)
Definition cursor (schedule : DailySchedule.t) : Q :=
  snd (driving_and_break schedule).

(** An environment that sets the daily driving cap to 8 hours and the
    off-duty block to 10 hours. *)
Definition env_cap8 : environ :=
  fun name =>
    if (name =? "DRIVING_HOURS_LIMIT")%string then Some 8%Z
    else if (name =? "OFF_DUTY_HOURS")%string then Some 10%Z
    else None.

(** A planning request with fractional cycle hours. *)
Definition sample_request : Request.t :=
  Request.Build "Dallas" "Austin" "Denver" 5.7.

(** Two stored days of trip 1. *)
Definition two_days : list DailySchedule.t :=
  [DailySchedule.Build 1%N 1 11 12 13 "Day 1 schedule";
   DailySchedule.Build 1%N 2 3 4 13 "Day 2 schedule"].

(** Runs [create] on closed inputs and names the trip data it returns. *)
Ltac run_create :=
  match goal with
  | |- exists td, ?c = _ /\ _ =>
      let r := eval vm_compute in c in
      match r with
      | Py.Ok (Http.Data _ ?td) =>
          exists td; split; [vm_compute; reflexivity|]
      end
  end.

(* ------------------------------------------------------------------ *)
(** ** What each emitted day holds *)

(** Day [k + 1] of a plan for [h] driving hours: its stored hours, its
    number and its note. *)
Definition day_of_plan (h : Q) (k : nat) (d : DailySchedule.t) : Prop :=
  DailySchedule.day_number d = (Z.of_nat k + 1)%Z
  /\ DailySchedule.driving_hours d
     == Py.round2 (Py.min 11 (h - 11 * inject_Z (Z.of_nat k)))
  /\ DailySchedule.on_duty_hours d == DailySchedule.driving_hours d + 1
  /\ 0 <= DailySchedule.driving_hours d
  /\ DailySchedule.notes d
     = ("Day " ++ Py.str (Z.of_nat k + 1) ++ " schedule")%string.

(** Every day the loop has emitted so far is a day of the plan. *)
Definition days_hours (h : Q) (s : ScheduleLoop) : Prop :=
  forall k d,
    nth_error (loop_daily_schedules s) k = Some d -> day_of_plan h k d.

(* ------------------------------------------------------------------ *)
(** ** The stored rows and the views that read them *)

(** The tables of [Trip], [Stop] and [DailySchedule], each in insertion
    order.  No [LogEntry] row is ever written. *)
Module Database.
Record t : Set := Build {
  trips : list Trip.t;
  stops : list Stop.t;
  daily_schedules : list DailySchedule.t
}.
End Database.

(** [Trip.objects.create(...)]: the row is saved at once. *)
Definition trip_objects_create (db : Database.t) (trip : Trip.t)
  : Database.t :=
  Database.Build (Database.trips db ++ [trip]) (Database.stops db)
    (Database.daily_schedules db).

(** [Stop.objects.bulk_create(stops)]. *)
Definition stop_bulk_create (db : Database.t) (stops : list Stop.t)
  : Database.t :=
  Database.Build (Database.trips db) (Database.stops db ++ stops)
    (Database.daily_schedules db).

(** [DailySchedule.objects.bulk_create(daily_schedules)]. *)
Definition schedule_bulk_create (db : Database.t)
           (daily_schedules : list DailySchedule.t) : Database.t :=
  Database.Build (Database.trips db) (Database.stops db)
    (Database.daily_schedules db ++ daily_schedules).

(** [TripSerializer(trip).data]: the trip with the rows of its [stops]
    and [daily_schedules] relations, read in row order. *)
Definition TripSerializer (db : Database.t) (trip : Trip.t) : TripData :=
  {| trip := trip;
     stops :=
       filter (fun s => (Stop.trip s =? Trip.id trip)%N) (Database.stops db);
     daily_schedules :=
       filter (fun d => (DailySchedule.trip d =? Trip.id trip)%N)
         (Database.daily_schedules db) |}.

(** [Trip.objects.get(id=id)]. *)
Definition trip_objects_get (db : Database.t) (id : uuid)
  : Py.result Trip.t :=
  match filter (fun t => (Trip.id t =? id)%N) (Database.trips db) with
  | [] => Py.Raise Py.DoesNotExist
  | [t] => Py.Ok t
  | _ :: _ :: _ => Py.Raise Py.MultipleObjectsReturned
  end.

Module TripDetailAPIView.

Definition get (db : Database.t) (id : uuid)
  : Py.result (Http.Response TripData) :=
  try_except
    (trip <- trip_objects_get db id ;;
     Py.Ok (Http.Data Http.HTTP_200_OK (TripSerializer db trip)))
    (fun e =>
       match e with
       | Py.DoesNotExist =>
           Http.Error Http.HTTP_404_NOT_FOUND (Http.Message "Trip not found")
       | _ => Http.Error Http.HTTP_500_INTERNAL_SERVER_ERROR (Http.Str e)
       end).

End TripDetailAPIView.

(** [TripAPIView.create] once more, from the route data on, this time
    with the rows it writes: the trip is saved before the stops are
    computed, the stops and the days are saved in bulk, and the response
    serialises the trip from the stored rows.  An exception leaves the
    rows written so far. *)
Module Stored.

Definition create (db : Database.t) (env : environ) (trip_id : uuid)
           (validated_data : Request.t) (route_data : Route.t)
  : Database.t * Py.result (Http.Response TripData) :=
  let handler :=
    fun e => Http.Error Http.HTTP_500_INTERNAL_SERVER_ERROR (Http.Str e) in
  let distance_meters := Route.distance route_data in
  let distance_miles := distance_meters * 0.000621371 in
  let duration_seconds := Route.duration route_data in
  let driving_hours := duration_seconds / 3600 in
  let current_location := Request.current_location validated_data in
  let pickup_location := Request.pickup_location validated_data in
  let dropoff_location := Request.dropoff_location validated_data in
  let current_cycle_hours := Request.current_cycle_hours validated_data in
  let driving_hours_limit := getenv_int env "DRIVING_HOURS_LIMIT" 11 in
  let off_duty_hours := getenv_int env "OFF_DUTY_HOURS" 10 in
  let fuel_stop_miles := getenv_int env "FUEL_STOP_MILES" 1000 in
  let trip :=
    Trip.Build trip_id current_location pickup_location dropoff_location
      (Py.int current_cycle_hours)
      (Py.round2 distance_miles)
      (Py.round2 driving_hours)
      (Z.max 1 (Py.int (driving_hours / 11))) in
  let db := trip_objects_create db trip in
  let stops := [Stop.Build trip_id pickup pickup_location 0 0] in
  match Py.floordiv distance_miles fuel_stop_miles with
  | Py.Raise e => (db, Py.Ok (handler e))
  | Py.OutOfFuel => (db, Py.OutOfFuel)
  | Py.Ok q =>
      let fuel_stop_count := Py.int q in
      let stops :=
        for_in (Py.range 1 (fuel_stop_count + 1))
          (fun i stops =>
             stops ++ [fuel_stop trip_id fuel_stop_miles distance_miles i])
          stops in
      match Py.floordiv driving_hours driving_hours_limit with
      | Py.Raise e => (db, Py.Ok (handler e))
      | Py.OutOfFuel => (db, Py.OutOfFuel)
      | Py.Ok q =>
          let rest_stop_count := Py.int q in
          let stops :=
            for_in (Py.range 1 (rest_stop_count + 1))
              (fun i stops =>
                 stops ++ [rest_stop trip_id driving_hours_limit
                             off_duty_hours distance_miles i])
              stops in
          let stops :=
            stops ++ [Stop.Build trip_id dropoff dropoff_location
                        (Py.round2 distance_miles) 0] in
          let db := stop_bulk_create db stops in
          match
            Py.while schedule_cond (schedule_body trip_id) schedule_fuel
              {| loop_daily_schedules := [];
                 current_day := 1;
                 remaining_hours := driving_hours |}
          with
          | Py.Raise e => (db, Py.Ok (handler e))
          | Py.OutOfFuel => (db, Py.OutOfFuel)
          | Py.Ok s =>
              let db := schedule_bulk_create db (loop_daily_schedules s) in
              (db, Py.Ok (Http.Data Http.HTTP_201_CREATED
                            (TripSerializer db trip)))
          end
      end
  end.

End Stored.

(** No stored row belongs to [trip_id] yet. *)
Definition fresh_id (db : Database.t) (trip_id : uuid) : Prop :=
  Forall (fun t => Trip.id t <> trip_id) (Database.trips db)
  /\ Forall (fun s => Stop.trip s <> trip_id) (Database.stops db)
  /\ Forall (fun d => DailySchedule.trip d <> trip_id)
       (Database.daily_schedules db).

(** A store holding another trip, with one stop and one day. *)
Definition sample_db : Database.t :=
  Database.Build
    [Trip.Build 9%N "Reno" "Boise" "Provo" 3 400 8 1]
    [Stop.Build 9%N pickup "Boise" 0 0]
    [DailySchedule.Build 9%N 1 8 9 13 "Day 1 schedule"].

(* ------------------------------------------------------------------ *)
(** ** JSON values and the Python operations the service applies *)

Module Json.

(** What [response.json()] returns and what the dicts of the service
    hold.  [Null] is [None]; a tuple is kept as the list of its items. *)
#[warnings="-register-all"]
Inductive value : Set :=
| Null
| Bool (b : bool)
| Num (q : Q)
| Str (s : string)
| Arr (l : list value)
| Obj (kv : list (string * value)).

(** A [str] the code builds: a literal, or the f-string
    [f"{prefix}{arg}"]. *)
Inductive text : Set :=
| Lit (s : string)
| Fmt (prefix : string) (arg : value).

(** The exceptions of subscripting, iterating and validating. *)
Inductive exn : Set :=
| KeyError (key : string)
| KeyErrorInt (key : Z)
| IndexError
| TypeError
| ValueError (msg : text).

Inductive res (A : Type) : Type :=
| Ret (a : A)
| Exc (e : exn).
Arguments Ret {A} a.
Arguments Exc {A} e.

Definition bind {A B} (m : res A) (k : A -> res B) : res B :=
  match m with
  | Ret a => k a
  | Exc e => Exc e
  end.

(** A dict with [str] keys, in insertion order. *)
Definition dict (A : Type) : Type := list (string * A).

Fixpoint lookup {A} (d : dict A) (k : string) : option A :=
  match d with
  | [] => None
  | (k', v) :: r => if (k' =? k)%string then Some v else lookup r k
  end.

(** [k in d]. *)
Definition has_key {A} (d : dict A) (k : string) : bool :=
  match lookup d k with Some _ => true | None => false end.

(** [d[k]]. *)
Definition dict_getitem {A} (d : dict A) (k : string) : res A :=
  match lookup d k with
  | Some v => Ret v
  | None => Exc (KeyError k)
  end.

(** [d.get(k, default)]. *)
Definition dict_get {A} (d : dict A) (k : string) (default : A) : A :=
  match lookup d k with
  | Some v => v
  | None => default
  end.

(** [d[k] = v]. *)
Fixpoint dict_set {A} (d : dict A) (k : string) (v : A) : dict A :=
  match d with
  | [] => [(k, v)]
  | (k', v') :: r =>
      if (k' =? k)%string then (k', v) :: r else (k', v') :: dict_set r k v
  end.

(** Truth value of an object. *)
Definition truthy (v : value) : bool :=
  match v with
  | Null => false
  | Bool b => b
  | Num q => negb (Qeq_bool q 0)
  | Str s => negb (s =? "")%string
  | Arr l => match l with [] => false | _ :: _ => true end
  | Obj kv => match kv with [] => false | _ :: _ => true end
  end.

(** [v[k]] for a [str] key. *)
Definition getitem (v : value) (k : string) : res value :=
  match v with
  | Obj kv => dict_getitem kv k
  | _ => Exc TypeError
  end.

(** [v[0]]. *)
Definition getitem0 (v : value) : res value :=
  match v with
  | Arr (x :: _) => Ret x
  | Arr [] => Exc IndexError
  | Str (String c _) => Ret (Str (String c ""))
  | Str EmptyString => Exc IndexError
  | Obj _ => Exc (KeyErrorInt 0)
  | _ => Exc TypeError
  end.

(** The one-character strings of a [str]. *)
Definition chars (s : string) : list value :=
  map (fun c => Str (String c "")) (list_ascii_of_string s).

(** The items [for x in v] visits. *)
Definition iter (v : value) : res (list value) :=
  match v with
  | Arr l => Ret l
  | Str s => Ret (chars s)
  | Obj kv => Ret (map (fun p => Str (fst p)) kv)
  | _ => Exc TypeError
  end.

(** [k in v] for a [str] [k]. *)
Definition contains (k : string) (v : value) : res bool :=
  match v with
  | Obj kv => Ret (has_key kv k)
  | Arr l =>
      Ret (existsb (fun x => match x with
                             | Str s => (s =? k)%string
                             | _ => false
                             end) l)
  | Str s => Ret (match index 0 k s with Some _ => true | None => false end)
  | _ => Exc TypeError
  end.

(** The number a value multiplies or divides as. *)
Definition as_number (v : value) : res Q :=
  match v with
  | Num q => Ret q
  | Bool b => Ret (if b then 1 else 0)
  | _ => Exc TypeError
  end.

End Json.

Notation "x <~ m ;; k" := (Json.bind m (fun x => k))
  (at level 61, m at next level, right associativity).

(* ------------------------------------------------------------------ *)
(** ** [MapboxDirectionsService] ([routes/services/local_geocoding.py]) *)

(** What a call to the Mapbox client gives: an exception, or a response
    with its status code and, unless [response.json()] raises, its JSON
    body. *)
Inductive mapbox_response : Set :=
| Raises
| Response (status_code : Z) (json : option Json.value).

(** The Mapbox client.  [forward n address] is the geocoder's answer to
    the [n]-th geocoding call of a request; [directions waypoints
    profile] is the answer of the directions API. *)
Record Mapbox : Type := {
  forward : nat -> Json.value -> mapbox_response;
  directions : list (list Json.value) -> Json.value -> mapbox_response
}.

Module MapboxDirectionsService.

(** Every exception inside the [try] gives [None]. *)
Definition geocode_address (mb : Mapbox) (n : nat) (address : Json.value)
  : option (list Json.value) :=
  match forward mb n address with
  | Raises => None
  | Response status_code json =>
      if (status_code =? 200)%Z then
        match json with
        | None => None
        | Some data =>
            match
              (features <~ Json.getitem data "features" ;;
               if Json.truthy features then
                 first <~ Json.getitem0 features ;;
                 geometry <~ Json.getitem first "geometry" ;;
                 coordinates <~ Json.getitem geometry "coordinates" ;;
                 items <~ Json.iter coordinates ;;
                 Json.Ret (Some items)
               else Json.Ret None)
            with
            | Json.Ret r => r
            | Json.Exc _ => None
            end
        end
      else None
  end.

(** Truth value of an [Optional[Tuple]]. *)
Definition coords_truthy (c : option (list Json.value)) : bool :=
  match c with
  | Some (_ :: _) => true
  | _ => false
  end.

(** The coordinates found so far and the number of geocoding calls
    made. *)
Definition geocoding : Type := Json.dict (list Json.value) * nat.

(** One required address: geocoded when its key is present, a
    [ValueError] when it cannot be geocoded. *)
Definition geocode_required (mb : Mapbox) (request_data : Json.dict Json.value)
           (key : string) (prefix : string) (st : geocoding)
  : Json.res geocoding :=
  let '(coordinates, n) := st in
  if Json.has_key request_data key then
    address <~ Json.dict_getitem request_data key ;;
    let coords := geocode_address mb n address in
    match coords with
    | Some (c :: cs) => Json.Ret (Json.dict_set coordinates key (c :: cs), S n)
    | _ => Json.Exc (Json.ValueError (Json.Fmt prefix address))
    end
  else Json.Ret st.

(** One optional address: geocoded when its key is present with a true
    value, only a warning when it cannot be geocoded. *)
Definition geocode_optional (mb : Mapbox) (request_data : Json.dict Json.value)
           (key : string) (st : geocoding) : Json.res geocoding :=
  let '(coordinates, n) := st in
  if Json.has_key request_data key then
    address <~ Json.dict_getitem request_data key ;;
    if Json.truthy address then
      let coords := geocode_address mb n address in
      match coords with
      | Some (c :: cs) =>
          Json.Ret (Json.dict_set coordinates key (c :: cs), S n)
      | _ => Json.Ret (coordinates, S n)
      end
    else Json.Ret st
  else Json.Ret st.

Definition get_coordinates_from_request (mb : Mapbox)
           (request_data : Json.dict Json.value)
  : Json.res (Json.dict (list Json.value)) :=
  let st := ([], O) in
  st <~ geocode_required mb request_data "origin"
          "Could not geocode origin: " st ;;
  st <~ geocode_required mb request_data "destination"
          "Could not geocode destination: " st ;;
  st <~ geocode_optional mb request_data "pickup_location" st ;;
  st <~ geocode_optional mb request_data "dropoff_location" st ;;
  Json.Ret (fst st).

(** [if key in coordinates: waypoints.append(coordinates[key])]. *)
Definition add_waypoint (coordinates : Json.dict (list Json.value))
           (key : string) (waypoints : list (list Json.value))
  : list (list Json.value) :=
  match Json.lookup coordinates key with
  | Some c => waypoints ++ [c]
  | None => waypoints
  end.

(** The [ValueError] for fewer than two waypoints, like every exception
    of the call, is caught and gives [None]. *)
Definition get_directions_with_waypoints (mb : Mapbox)
           (coordinates : Json.dict (list Json.value))
           (profile : Json.value) : Json.value :=
  let waypoints := [] in
  let waypoints := add_waypoint coordinates "origin" waypoints in
  let waypoints := add_waypoint coordinates "pickup_location" waypoints in
  let waypoints := add_waypoint coordinates "dropoff_location" waypoints in
  let waypoints := add_waypoint coordinates "destination" waypoints in
  if (List.length waypoints <? 2)%nat then Json.Null
  else
    match directions mb waypoints profile with
    | Raises => Json.Null
    | Response status_code json =>
        if (status_code =? 200)%Z then
          match json with
          | Some data => data
          | None => Json.Null
          end
        else Json.Null
    end.

(** The dict built for one step of the leg. *)
Definition parse_step (step : Json.value) : Json.res Json.value :=
  maneuver <~ Json.getitem step "maneuver" ;;
  instruction <~ Json.getitem maneuver "instruction" ;;
  distance <~ Json.getitem step "distance" ;;
  duration <~ Json.getitem step "duration" ;;
  maneuver <~ Json.getitem step "maneuver" ;;
  maneuver_type <~ Json.getitem maneuver "type" ;;
  geometry <~ Json.getitem step "geometry" ;;
  waypoints <~ Json.getitem geometry "coordinates" ;;
  Json.Ret (Json.Obj [("instruction"%string, instruction);
                      ("distance"%string, distance);
                      ("duration"%string, duration);
                      ("maneuver_type"%string, maneuver_type);
                      ("waypoints"%string, waypoints)]).

(** [for step in steps: result['steps'].append(...)]. *)
Fixpoint parse_steps (steps : list Json.value) (acc : list Json.value)
  : Json.res (list Json.value) :=
  match steps with
  | [] => Json.Ret acc
  | step :: steps =>
      parsed <~ parse_step step ;;
      parse_steps steps (acc ++ [parsed])
  end.

Definition parse_directions_response (directions_data : Json.value)
  : Json.res (Json.dict Json.value) :=
  no_routes <~ (if negb (Json.truthy directions_data) then Json.Ret true
               else has <~ Json.contains "routes" directions_data ;;
                    Json.Ret (negb has)) ;;
  if (no_routes : bool) then Json.Ret []
  else
    routes <~ Json.getitem directions_data "routes" ;;
    route <~ Json.getitem0 routes ;;
    legs <~ Json.getitem route "legs" ;;
    leg <~ Json.getitem0 legs ;;
    distance <~ Json.getitem route "distance" ;;
    duration <~ Json.getitem route "duration" ;;
    geometry <~ Json.getitem route "geometry" ;;
    waypoints <~ Json.getitem directions_data "waypoints" ;;
    steps <~ Json.getitem leg "steps" ;;
    steps <~ Json.iter steps ;;
    steps <~ parse_steps steps [] ;;
    Json.Ret [("distance"%string, distance);
              ("duration"%string, duration);
              ("geometry"%string, geometry);
              ("waypoints"%string, waypoints);
              ("steps"%string, Json.Arr steps)].

(** A value of the dict the service returns: JSON data or a built
    string. *)
Inductive result_value : Set :=
| Data (v : Json.value)
| Text (t : Json.text).

(** [request_data.get(key)]. *)
Definition get_or_none (request_data : Json.dict Json.value) (key : string)
  : Json.value :=
  Json.dict_get request_data key Json.Null.

Definition process_directions_request (mb : Mapbox)
           (request_data : Json.dict Json.value)
  : Json.dict result_value :=
  match
    (coordinates <~ get_coordinates_from_request mb request_data ;;
     let directions_data :=
       get_directions_with_waypoints mb coordinates
         (Json.dict_get request_data "profile" (Json.Str "mapbox/driving")) in
     if negb (Json.truthy directions_data) then
       Json.Ret [("error"%string, Text (Json.Lit "Failed to get directions"))]
     else
       parsed_data <~ parse_directions_response directions_data ;;
       let parsed_data :=
         Json.dict_set parsed_data "coordinates"
           (Json.Obj (map (fun p => (fst p, Json.Arr (snd p))) coordinates)) in
       Json.Ret
         [("success"%string, Data (Json.Bool true));
          ("data"%string, Data (Json.Obj parsed_data));
          ("metadata"%string,
           Data (Json.Obj
                   [("origin"%string, get_or_none request_data "origin");
                    ("destination"%string, get_or_none request_data "destination");
                    ("pickup_location"%string,
                     get_or_none request_data "pickup_location");
                    ("dropoff_location"%string,
                     get_or_none request_data "dropoff_location")]))])
  with
  | Json.Ret result => result
  | Json.Exc (Json.ValueError msg) =>
      [("error"%string, Text msg); ("success"%string, Data (Json.Bool false))]
  | Json.Exc _ =>
      [("error"%string, Text (Json.Lit "Internal server error"));
       ("success"%string, Data (Json.Bool false))]
  end.

End MapboxDirectionsService.

(* ------------------------------------------------------------------ *)
(** ** [TripAPIView.create], from the request on *)

(** [serializer.validated_data], the dict handed to the service. *)
Definition validated_dict (validated_data : Request.t)
  : Json.dict Json.value :=
  [("current_location"%string,
    Json.Str (Request.current_location validated_data));
   ("pickup_location"%string, Json.Str (Request.pickup_location validated_data));
   ("dropoff_location"%string, Json.Str (Request.dropoff_location validated_data));
   ("current_cycle_hours"%string,
    Json.Num (Request.current_cycle_hours validated_data))].

Module CreateRequest.

(** What the view answers.  [Planned] carries the answer of the
    planning part, [TripAPIView.create]. *)
Inductive Response : Type :=
| Invalid
  (** 400 with [serializer.errors] *)
| TokenMissing
  (** 500, "Mapbox access token not configured" *)
| DirectionsFailed (error : MapboxDirectionsService.result_value)
  (** 400 with the service's error *)
| Failed (e : Json.exn)
  (** 500 with [str(e)] *)
| Planned (response : Py.result (Http.Response TripData)).

(** Truth value of a value of the service's dict. *)
Definition result_truthy (v : MapboxDirectionsService.result_value) : bool :=
  match v with
  | MapboxDirectionsService.Data d => Json.truthy d
  | MapboxDirectionsService.Text (Json.Lit s) => negb (s =? "")%string
  | MapboxDirectionsService.Text (Json.Fmt prefix _) =>
      negb (prefix =? "")%string
  end.

(** [v[k]] on a value of the service's dict. *)
Definition result_getitem (v : MapboxDirectionsService.result_value)
           (k : string) : Json.res Json.value :=
  match v with
  | MapboxDirectionsService.Data d => Json.getitem d k
  | MapboxDirectionsService.Text _ => Json.Exc Json.TypeError
  end.

(** [serializer] is the validated data when the request is valid,
    [access_token] the value of [MAPBOX_ACCESS_TOKEN]. *)
Definition create (serializer : option Request.t)
           (access_token : option string) (mb : Mapbox) (env : environ)
           (trip_id : uuid) : Response :=
  match serializer with
  | None => Invalid
  | Some validated_data =>
      match access_token with
      | None | Some EmptyString => TokenMissing
      | Some (String _ _) =>
          let result :=
            MapboxDirectionsService.process_directions_request mb
              (validated_dict validated_data) in
          match
            (success <~ Json.dict_getitem result "success" ;;
             if negb (result_truthy success) then
               Json.Ret
                 (DirectionsFailed
                    (Json.dict_get result "error"
                       (MapboxDirectionsService.Text
                          (Json.Lit "Failed to process directions"))))
             else
               route_data <~ Json.dict_getitem result "data" ;;
               distance_meters <~ result_getitem route_data "distance" ;;
               distance_meters <~ Json.as_number distance_meters ;;
               duration_seconds <~ result_getitem route_data "duration" ;;
               duration_seconds <~ Json.as_number duration_seconds ;;
               Json.Ret
                 (Planned
                    (TripAPIView.create env trip_id validated_data
                       (Route.Build distance_meters duration_seconds))))
          with
          | Json.Ret response => response
          | Json.Exc e => Failed e
          end
      end
  end.

End CreateRequest.

(** The body of a directions answer: one route of 4023360 m and
    90000 s, whose only leg has a single step. *)
Definition sample_directions : Json.value :=
  Json.Obj
    [("routes"%string,
      Json.Arr
        [Json.Obj
           [("distance"%string, Json.Num 4023360);
            ("duration"%string, Json.Num 90000);
            ("geometry"%string, Json.Null);
            ("legs"%string,
             Json.Arr
               [Json.Obj
                  [("steps"%string,
                    Json.Arr
                      [Json.Obj
                         [("maneuver"%string,
                           Json.Obj
                             [("instruction"%string, Json.Str "Head north");
                              ("type"%string, Json.Str "depart")]);
                          ("distance"%string, Json.Num 4023360);
                          ("duration"%string, Json.Num 90000);
                          ("geometry"%string,
                           Json.Obj
                             [("coordinates"%string, Json.Arr [])])]])]])]]);
     ("waypoints"%string, Json.Arr [])].

(** A Mapbox client that geocodes every address and always returns
    [sample_directions]. *)
Definition sample_mapbox : Mapbox :=
  {| forward := fun n _ =>
       Response 200
         (Some (Json.Obj
            [("features"%string,
              Json.Arr
                [Json.Obj
                   [("geometry"%string,
                     Json.Obj
                       [("coordinates"%string,
                         Json.Arr [Json.Num (inject_Z (Z.of_nat n));
                                   Json.Num 40])])]])]));
     directions := fun _ _ => Response 200 (Some sample_directions) |}.

(** A Mapbox client whose geocoder finds nothing. *)
Definition mapbox_no_results : Mapbox :=
  {| forward := fun _ _ =>
       Response 200 (Some (Json.Obj [("features"%string, Json.Arr [])]));
     directions := directions sample_mapbox |}.

(** A Mapbox client whose directions API finds no route. *)
Definition mapbox_no_route : Mapbox :=
  {| forward := forward sample_mapbox;
     directions := fun _ _ =>
       Response 200
         (Some (Json.Obj [("code"%string, Json.Str "NoRoute");
                          ("routes"%string, Json.Arr [])])) |}.

(** A Mapbox client whose directions API answers 200 with a body that
    has no routes. *)
Definition mapbox_no_body : Mapbox :=
  {| forward := forward sample_mapbox;
     directions := fun _ _ =>
       Response 200
         (Some (Json.Obj [("message"%string, Json.Str "Not Found")])) |}.

(** A Mapbox client whose directions API is out of service. *)
Definition mapbox_down : Mapbox :=
  {| forward := forward sample_mapbox;
     directions := fun _ _ => Response 503 None |}.

(** The computation ends without a [ValueError]. *)
Definition no_value_error {A} (m : Json.res A) : Prop :=
  match m with
  | Json.Exc (Json.ValueError _) => False
  | _ => True
  end.

(** [step] is parsed into [out]. *)
Definition step_parsed (step out : Json.value) : Prop :=
  MapboxDirectionsService.parse_step step = Json.Ret out.


(* ------------------------------------------------------------------ *)
(** ** Facts about the primitives *)

Section PyFacts.

Lemma lt_true_iff (a b : Q) : Py.lt a b = true <-> a < b.
Proof.
  unfold Py.lt. rewrite Qlt_alt.
  destruct (a ?= b); split; intro H; congruence.
Qed.

Lemma lt_false_iff (a b : Q) : Py.lt a b = false <-> b <= a.
Proof.
  rewrite <- Bool.not_true_iff_false, lt_true_iff.
  split; [apply Qnot_lt_le | apply Qle_not_lt].
Qed.

Lemma min_le_first (a b : Q) : a <= b -> Py.min a b = a.
Proof.
  intro H. unfold Py.min.
  destruct (Py.lt b a) eqn:E; [|reflexivity].
  apply lt_true_iff in E. lra.
Qed.

Lemma min_gt_second (a b : Q) : b < a -> Py.min a b = b.
Proof.
  intro H. unfold Py.min.
  apply lt_true_iff in H. now rewrite H.
Qed.

Lemma min_le_l (a b : Q) : Py.min a b <= a.
Proof.
  unfold Py.min. destruct (Py.lt b a) eqn:E.
  - apply lt_true_iff in E. lra.
  - lra.
Qed.

Lemma min_le_r (a b : Q) : Py.min a b <= b.
Proof.
  unfold Py.min. destruct (Py.lt b a) eqn:E.
  - lra.
  - now apply lt_false_iff in E.
Qed.

#[global] Instance round_half_even_comp :
  Proper (Qeq ==> eq) Py.round_half_even.
Proof.
  intros x y E. unfold Py.round_half_even.
  rewrite (Qfloor_comp _ _ E).
  assert (C : (x - inject_Z (Qfloor y) ?= 1 # 2)
              = (y - inject_Z (Qfloor y) ?= 1 # 2))
    by (apply Qcompare_comp; [rewrite E|]; reflexivity).
  now rewrite C.
Qed.

#[global] Instance round2_comp : Proper (Qeq ==> Qeq) Py.round2.
Proof.
  intros x y E. unfold Py.round2.
  assert (E' : x * 100 == y * 100) by (rewrite E; reflexivity).
  now rewrite (round_half_even_comp _ _ E').
Qed.

(** Rounding never crosses an integer. *)
Lemma round_half_even_ge_int (x : Q) (k : Z) :
  inject_Z k <= x -> (k <= Py.round_half_even x)%Z.
Proof.
  intro H. apply Qfloor_resp_le in H. rewrite Qfloor_Z in H.
  unfold Py.round_half_even.
  destruct (_ ?= _); [destruct (Z.even _)| |]; lia.
Qed.

Lemma round_half_even_le_int (x : Q) (k : Z) :
  x <= inject_Z k -> (Py.round_half_even x <= k)%Z.
Proof.
  intro H. unfold Py.round_half_even.
  pose proof (Qfloor_le x) as Hf.
  assert (Hfk : (Qfloor x <= k)%Z).
  { rewrite Zle_Qle. lra. }
  destruct (Z.eq_dec (Qfloor x) k) as [E|N].
  - (* x is the integer k itself *)
    assert (Hx : x - inject_Z (Qfloor x) == 0) by (rewrite E in *; lra).
    assert (C : (x - inject_Z (Qfloor x) ?= 1 # 2) = Lt).
    { rewrite <- Qlt_alt. lra. }
    rewrite C. lia.
  - destruct (_ ?= _); [destruct (Z.even _)| |]; lia.
Qed.

Lemma round_half_even_int (k : Z) : Py.round_half_even (inject_Z k) = k.
Proof.
  apply Z.le_antisymm.
  - apply round_half_even_le_int. lra.
  - apply round_half_even_ge_int. lra.
Qed.

(** Adding an even integer commutes with rounding to even. *)
Lemma round_half_even_add_even (x : Q) (m : Z) :
  Py.round_half_even (x + inject_Z (2 * m))
  = (Py.round_half_even x + 2 * m)%Z.
Proof.
  assert (F : Qfloor (x + inject_Z (2 * m)) = (Qfloor x + 2 * m)%Z).
  { pose proof (Qfloor_le x) as L1. pose proof (Qlt_floor x) as L2.
    pose proof (Qfloor_le (x + inject_Z (2 * m))) as L3.
    pose proof (Qlt_floor (x + inject_Z (2 * m))) as L4.
    rewrite inject_Z_plus in L2, L4.
    assert (A : (Qfloor x + 2 * m < Qfloor (x + inject_Z (2 * m)) + 1)%Z).
    { rewrite Zlt_Qlt, !inject_Z_plus. lra. }
    assert (B : (Qfloor (x + inject_Z (2 * m)) < Qfloor x + 2 * m + 1)%Z).
    { rewrite Zlt_Qlt, !inject_Z_plus. lra. }
    lia. }
  unfold Py.round_half_even. rewrite F.
  assert (C : (x + inject_Z (2 * m) - inject_Z (Qfloor x + 2 * m) ?= 1 # 2)
              = (x - inject_Z (Qfloor x) ?= 1 # 2)).
  { apply Qcompare_comp; [|reflexivity]. rewrite inject_Z_plus. ring. }
  rewrite C.
  replace (Z.even (Qfloor x + 2 * m)) with (Z.even (Qfloor x))
    by (now rewrite Z.even_add_mul_2).
  clear C F.
  destruct (x - inject_Z (Qfloor x) ?= 1 # 2);
    [destruct (Z.even (Qfloor x))| |]; lia.
Qed.

End PyFacts.

(* ------------------------------------------------------------------ *)
(** ** Rounding to two decimals and whole numbers *)

Section Round2Facts.

Lemma round2_le_int (x : Q) (k : Z) :
  x <= inject_Z k -> Py.round2 x <= inject_Z k.
Proof.
  intro H. unfold Py.round2.
  assert (B : (Py.round_half_even (x * 100) <= k * 100)%Z).
  { apply round_half_even_le_int. rewrite inject_Z_mult.
    change (inject_Z 100) with 100. lra. }
  unfold Qle, inject_Z; simpl. lia.
Qed.

Lemma round2_ge_int (x : Q) (k : Z) :
  inject_Z k <= x -> inject_Z k <= Py.round2 x.
Proof.
  intro H. unfold Py.round2.
  assert (B : (k * 100 <= Py.round_half_even (x * 100))%Z).
  { apply round_half_even_ge_int. rewrite inject_Z_mult.
    change (inject_Z 100) with 100. lra. }
  unfold Qle, inject_Z; simpl. lia.
Qed.

Lemma round2_int (k : Z) : Py.round2 (inject_Z k) == inject_Z k.
Proof.
  apply Qle_antisym.
  - apply round2_le_int. lra.
  - apply round2_ge_int. lra.
Qed.

Lemma round2_add_int (x : Q) (k : Z) :
  Py.round2 (x + inject_Z k) == Py.round2 x + inject_Z k.
Proof.
  unfold Py.round2.
  assert (E : (x + inject_Z k) * 100 == x * 100 + inject_Z (2 * (50 * k))).
  { rewrite !inject_Z_mult. change (inject_Z 2) with 2.
    change (inject_Z 50) with 50. ring. }
  rewrite (round_half_even_comp _ _ E), round_half_even_add_even.
  generalize (Py.round_half_even (x * 100)). intro r.
  unfold Qeq, Qplus, inject_Z.
  cbn [Qnum Qden]. lia.
Qed.

(** Rounding moves a value by at most half a unit. *)
Lemma round_half_even_close (x : Q) :
  x - (1 # 2) <= inject_Z (Py.round_half_even x)
  /\ inject_Z (Py.round_half_even x) <= x + (1 # 2).
Proof.
  pose proof (Qfloor_le x) as L1. pose proof (Qlt_floor x) as L2.
  rewrite inject_Z_plus in L2. change (inject_Z 1) with 1 in L2.
  unfold Py.round_half_even.
  destruct (Qcompare_spec (x - inject_Z (Qfloor x)) (1 # 2)) as [E|E|E];
    [destruct (Z.even (Qfloor x))| |];
    rewrite ?inject_Z_plus; change (inject_Z 1) with 1; lra.
Qed.

(** Rounding to two decimals moves a value by at most half a
    hundredth. *)
Lemma round2_close (x : Q) :
  x - (1 # 200) <= Py.round2 x /\ Py.round2 x <= x + (1 # 200).
Proof.
  destruct (round_half_even_close (x * 100)) as [L U].
  unfold Py.round2.
  assert (E : Py.round_half_even (x * 100) # 100
              == inject_Z (Py.round_half_even (x * 100)) * (1 # 100)).
  { generalize (Py.round_half_even (x * 100)). intro r.
    unfold Qeq, Qmult, inject_Z. cbn [Qnum Qden]. lia. }
  rewrite E. split; lra.
Qed.

Lemma round2_nonneg (x : Q) : 0 <= x -> 0 <= Py.round2 x.
Proof. exact (round2_ge_int x 0). Qed.

Lemma round2_zero (x : Q) : x == 0 -> Py.round2 x == 0.
Proof. intro E. rewrite E. exact (round2_int 0). Qed.

(** Rounding commutes with [min] against a whole number. *)
Lemma round2_min_int (k : Z) (x : Q) :
  Py.round2 (Py.min (inject_Z k) x) == Py.min (inject_Z k) (Py.round2 x).
Proof.
  destruct (Qlt_le_dec x (inject_Z k)) as [Hlt|Hle].
  - rewrite (min_gt_second _ _ Hlt).
    assert (B : Py.round2 x <= inject_Z k)
      by (apply round2_le_int; lra).
    unfold Py.min at 1.
    destruct (Py.lt (Py.round2 x) (inject_Z k)) eqn:E.
    + reflexivity.
    + apply lt_false_iff in E. lra.
  - rewrite (min_le_first _ _ Hle).
    rewrite (min_le_first _ _ (round2_ge_int _ _ Hle)).
    apply round2_int.
Qed.

End Round2Facts.

(* ------------------------------------------------------------------ *)
(** ** Loops *)

Section WhileFacts.

Context {S : Type} (cond : S -> bool) (body : S -> S).

(** Invariant rule: what the body preserves holds on exit, where the
    condition is false. *)
Lemma while_invariant (P : S -> Prop) :
  (forall s, P s -> cond s = true -> P (body s)) ->
  forall fuel s s',
    P s -> Py.while cond body fuel s = Py.Ok s' ->
    P s' /\ cond s' = false.
Proof.
  intros Hstep fuel. induction fuel as [|fuel IH]; intros s s' HP Hrun;
    simpl in Hrun; destruct (cond s) eqn:C; try discriminate.
  - injection Hrun as <-. now split.
  - apply (IH (body s)); auto.
  - injection Hrun as <-. now split.
Qed.

(** Variant rule: a measure that decreases bounds the iterations. *)
Lemma while_terminates (m : S -> nat) :
  (forall s, cond s = true -> (m (body s) < m s)%nat) ->
  forall fuel s,
    (m s <= fuel)%nat -> exists s', Py.while cond body fuel s = Py.Ok s'.
Proof.
  intros Hdec fuel. induction fuel as [|fuel IH]; intros s Hm; simpl;
    destruct (cond s) eqn:C; eauto.
  - specialize (Hdec s C). lia.
  - apply IH. specialize (Hdec s C). lia.
Qed.

End WhileFacts.

Lemma for_in_append {A : Type} (f : Z -> A) (l : list Z) (acc : list A) :
  for_in l (fun i acc => acc ++ [f i]) acc = acc ++ map f l.
Proof.
  unfold for_in. revert acc.
  induction l as [|i l IH]; intro acc; simpl.
  - now rewrite app_nil_r.
  - rewrite IH, <- app_assoc. reflexivity.
Qed.

Lemma int_of_whole (z : Z) : Py.int (inject_Z z) = z.
Proof. unfold Py.int; simpl. apply Z.quot_1_r. Qed.

Lemma range_length (lo hi : Z) :
  List.length (Py.range lo hi) = Z.to_nat (hi - lo).
Proof. unfold Py.range. now rewrite length_map, length_seq. Qed.

Lemma range_nth (lo hi : Z) (k : nat) :
  (k < Z.to_nat (hi - lo))%nat ->
  nth_error (Py.range lo hi) k = Some (lo + Z.of_nat k)%Z.
Proof.
  intro H. unfold Py.range.
  rewrite nth_error_map, nth_error_seq.
  destruct (Nat.ltb_spec k (Z.to_nat (hi - lo))); [reflexivity | lia].
Qed.

(* ------------------------------------------------------------------ *)
(** ** The schedule loop *)

Section ScheduleLoop.

Variable trip_id : uuid.

(** The loop leaves the variant [30 - current_day] smaller. *)
Lemma schedule_loop_total (s : ScheduleLoop) :
  (1 <= current_day s)%Z ->
  exists s',
    Py.while schedule_cond (schedule_body trip_id) schedule_fuel s
    = Py.Ok s'.
Proof.
  intro H.
  apply (while_terminates schedule_cond (schedule_body trip_id)
           (fun s => Z.to_nat (30 - current_day s))).
  - intros s0 C. unfold schedule_cond in C.
    apply andb_prop in C as [_ C]. apply Z.ltb_lt in C.
    unfold schedule_body; cbn [current_day]. lia.
  - unfold schedule_fuel. lia.
Qed.

Lemma days_shape_step (s : ScheduleLoop) :
  days_shape trip_id s -> schedule_cond s = true ->
  days_shape trip_id (schedule_body trip_id s).
Proof.
  intros (Hle & Hday & Hseq & Hall) C.
  unfold schedule_cond in C. apply andb_prop in C as [_ C].
  apply Z.ltb_lt in C.
  unfold days_shape, schedule_body; cbn [loop_daily_schedules current_day].
  repeat split.
  - lia.
  - rewrite length_app; simpl. lia.
  - unfold sequential_days in *.
    rewrite map_app, length_app, Nat.add_comm; simpl List.length.
    rewrite seq_S, map_app, Hseq; simpl. f_equal. f_equal. lia.
  - apply Forall_app; split; [assumption|].
    constructor; [|constructor].
    cbn [DailySchedule.trip DailySchedule.driving_hours
         DailySchedule.off_duty_hours].
    split; [reflexivity|split; [|reflexivity]].
    change 11 with (inject_Z 11). apply round2_le_int.
    apply min_le_l.
Qed.

Lemma days_shape_final (s s' : ScheduleLoop) (fuel : nat) :
  days_shape trip_id s ->
  Py.while schedule_cond (schedule_body trip_id) fuel s = Py.Ok s' ->
  days_shape trip_id s'.
Proof.
  intros H R.
  exact (proj1 (while_invariant schedule_cond (schedule_body trip_id)
                  (days_shape trip_id) days_shape_step fuel s s' H R)).
Qed.

Lemma sum_driving_hours_app (l : list DailySchedule.t)
      (d : DailySchedule.t) :
  sum_driving_hours (l ++ [d])
  == sum_driving_hours l + DailySchedule.driving_hours d.
Proof.
  induction l as [|a l IH]; simpl.
  - ring.
  - rewrite IH. ring.
Qed.

Lemma hours_account_step (h : Q) (s : ScheduleLoop) :
  hours_account h s -> schedule_cond s = true ->
  hours_account h (schedule_body trip_id s).
Proof.
  intros (Hpos & Hsum & Hrem) C.
  unfold schedule_cond in C. apply andb_prop in C as [C _].
  apply lt_true_iff in C.
  unfold hours_account, schedule_body;
    cbn [loop_daily_schedules current_day remaining_hours].
  rewrite sum_driving_hours_app; cbn [DailySchedule.driving_hours].
  destruct (Qlt_le_dec (remaining_hours s) 11) as [Hlt|Hge].
  - (* last day: everything that remains *)
    rewrite (min_gt_second _ _ Hlt).
    assert (Z0 : remaining_hours s - remaining_hours s == 0) by ring.
    repeat split.
    + lra.
    + rewrite (round2_zero _ Z0). lra.
    + now left.
  - (* a full day of 11 hours *)
    rewrite (min_le_first _ _ Hge).
    assert (E11 : Py.round2 11 == 11) by exact (round2_int 11).
    assert (Esub : Py.round2 (remaining_hours s - 11)
                   == Py.round2 (remaining_hours s) - 11).
    { assert (E : remaining_hours s - 11
                  == remaining_hours s + inject_Z (-11))
        by (change (inject_Z (-11)) with (-(11)); ring).
      rewrite (round2_comp _ _ E), round2_add_int.
      change (inject_Z (-11)) with (-(11)). ring. }
    repeat split.
    + lra.
    + rewrite Esub, E11. lra.
    + destruct Hrem as [Hz|[Hr Hs]]; [lra|].
      right.
      replace (current_day s + 1 - 1)%Z with (current_day s - 1 + 1)%Z
        by lia.
      rewrite inject_Z_plus. change (inject_Z 1) with 1.
      split; [rewrite Hr | rewrite Hs, E11]; ring.
Qed.

Lemma hours_account_final (h : Q) (s s' : ScheduleLoop) (fuel : nat) :
  hours_account h s ->
  Py.while schedule_cond (schedule_body trip_id) fuel s = Py.Ok s' ->
  hours_account h s' /\ schedule_cond s' = false.
Proof.
  intros H R.
  exact (while_invariant schedule_cond (schedule_body trip_id)
           (hours_account h) (hours_account_step h) fuel s s' H R).
Qed.

End ScheduleLoop.

(* ------------------------------------------------------------------ *)
(** ** What [create] returns *)

Section CreateFacts.

Variables (env : environ) (trip_id : uuid)
          (validated_data : Request.t) (route_data : Route.t).

(** With non-zero intervals no division fails, the schedule loop ends,
    and the response carries the trip, the stops in insertion order and
    the days the loop emitted. *)
Lemma create_ok :
  fuel_stop_miles env <> 0%Z ->
  driving_hours_limit env <> 0%Z ->
  exists s,
    Py.while schedule_cond (schedule_body trip_id) schedule_fuel
      (schedule_init route_data) = Py.Ok s
    /\ TripAPIView.create env trip_id validated_data route_data
       = Py.Ok (Http.Data Http.HTTP_201_CREATED
           {| trip :=
                Trip.Build trip_id
                  (Request.current_location validated_data)
                  (Request.pickup_location validated_data)
                  (Request.dropoff_location validated_data)
                  (Py.int (Request.current_cycle_hours validated_data))
                  (Py.round2 (distance_miles route_data))
                  (Py.round2 (driving_hours route_data))
                  (Z.max 1 (Py.int (driving_hours route_data / 11)));
              stops :=
                [Stop.Build trip_id pickup
                   (Request.pickup_location validated_data) 0 0]
                ++ map (fuel_stop trip_id (fuel_stop_miles env)
                          (distance_miles route_data))
                     (Py.range 1 (fuel_stop_count env route_data + 1))
                ++ map (rest_stop trip_id (driving_hours_limit env)
                          (off_duty_hours env) (distance_miles route_data))
                     (Py.range 1 (rest_stop_count env route_data + 1))
                ++ [Stop.Build trip_id dropoff
                      (Request.dropoff_location validated_data)
                      (Py.round2 (distance_miles route_data)) 0];
              daily_schedules := loop_daily_schedules s |}).
Proof.
  intros Hf Hl.
  destruct (schedule_loop_total trip_id (schedule_init route_data))
    as [s Hs]; [simpl; lia|].
  exists s. split; [exact Hs|].
  unfold TripAPIView.create, TripAPIView.create_try. cbv zeta.
  fold (distance_miles route_data) (driving_hours route_data).
  fold (fuel_stop_miles env) (driving_hours_limit env) (off_duty_hours env).
  fold (schedule_init route_data).
  unfold Py.floordiv.
  destruct (Z.eqb_spec (fuel_stop_miles env) 0) as [|_]; [contradiction|].
  destruct (Z.eqb_spec (driving_hours_limit env) 0) as [|_];
    [contradiction|].
  cbn [Py.bind]. rewrite !int_of_whole, !for_in_append, Hs.
  cbn [Py.bind try_except].
  fold (fuel_stop_count env route_data) (rest_stop_count env route_data).
  rewrite <- !app_assoc. reflexivity.
Qed.

End CreateFacts.

(* ------------------------------------------------------------------ *)
(** ** Helper facts on stops, days and truncation *)

Lemma stops_of_type_same (ty : stop_type) (l : list Stop.t) :
  Forall (fun s => Stop.stop_type s = ty) l -> stops_of_type ty l = l.
Proof.
  induction 1 as [|s l Hs _ IH]; simpl; [reflexivity|].
  rewrite Hs, IH. now destruct ty.
Qed.

Lemma stops_of_type_other (ty ty' : stop_type) (l : list Stop.t) :
  ty' <> ty ->
  Forall (fun s => Stop.stop_type s = ty') l -> stops_of_type ty l = [].
Proof.
  intro N. induction 1 as [|s l Hs _ IH]; simpl; [reflexivity|].
  rewrite Hs, IH. destruct ty, ty'; simpl; congruence.
Qed.

Lemma stops_of_type_app (ty : stop_type) (l1 l2 : list Stop.t) :
  stops_of_type ty (l1 ++ l2) = stops_of_type ty l1 ++ stops_of_type ty l2.
Proof. apply filter_app. Qed.

Lemma fuel_stops_are_fuel (trip_id : uuid) (m : Z) (d : Q) (l : list Z) :
  Forall (fun s => Stop.stop_type s = fuel) (map (fuel_stop trip_id m d) l).
Proof. apply Forall_map, Forall_forall. reflexivity. Qed.

Lemma rest_stops_are_rest (trip_id : uuid) (m o : Z) (d : Q) (l : list Z) :
  Forall (fun s => Stop.stop_type s = rest) (map (rest_stop trip_id m o d) l).
Proof. apply Forall_map, Forall_forall. reflexivity. Qed.

(** More fuel never changes the result of a loop that ended. *)
Lemma while_more_fuel {S : Type} (cond : S -> bool) (body : S -> S)
      (fuel extra : nat) (s s' : S) :
  Py.while cond body fuel s = Py.Ok s' ->
  Py.while cond body (fuel + extra) s = Py.Ok s'.
Proof.
  revert s. induction fuel as [|fuel IH]; intros s H; simpl in *;
    destruct (cond s) eqn:C; try discriminate.
  - destruct extra; simpl; now rewrite C.
  - now apply IH.
  - exact H.
Qed.

(** On non-negative values [int] is the floor. *)
Lemma int_floor_nonneg (x : Q) : 0 <= x -> Py.int x = Qfloor x.
Proof.
  destruct x as [n d]. unfold Qle, Py.int, Qfloor; simpl. intro H.
  apply Z.quot_div_nonneg; lia.
Qed.

Lemma driving_hours_nonneg (route_data : Route.t) :
  0 <= Route.duration route_data -> 0 <= driving_hours route_data.
Proof.
  intro H. unfold driving_hours.
  apply Qle_shift_div_l; [reflexivity | lra].
Qed.

Lemma distance_miles_nonneg (route_data : Route.t) :
  0 <= Route.distance route_data -> 0 <= distance_miles route_data.
Proof.
  intro H. unfold distance_miles.
  apply Qmult_le_0_compat; [assumption | discriminate].
Qed.

Lemma hours_account_init (route_data : Route.t) :
  0 <= Route.duration route_data ->
  hours_account (driving_hours route_data) (schedule_init route_data).
Proof.
  intro H. apply driving_hours_nonneg in H.
  unfold hours_account, schedule_init;
    cbn [loop_daily_schedules current_day remaining_hours sum_driving_hours
         fold_right].
  repeat split; [assumption | ring |].
  right. change (inject_Z (1 - 1)) with 0. split; ring.
Qed.

Lemma days_shape_init (trip_id : uuid) (route_data : Route.t) :
  days_shape trip_id (schedule_init route_data).
Proof.
  unfold days_shape, schedule_init, sequential_days; simpl.
  repeat split; try lia. constructor.
Qed.

(* ------------------------------------------------------------------ *)
(** ** Stop planning *)



Lemma floor_div_nonneg (x : Q) (n : Z) :
  0 <= x -> (0 < n)%Z -> (0 <= Qfloor (x / inject_Z n))%Z.
Proof.
  intros Hx Hn.
  rewrite <- (Qfloor_Z 0). apply Qfloor_resp_le.
  apply Qle_shift_div_l.
  - change 0 with (inject_Z 0). rewrite <- Zlt_Qlt. exact Hn.
  - change (inject_Z 0) with 0. lra.
Qed.

Lemma map_range_nth {A : Type} (f : Z -> A) (n i : Z) :
  (1 <= i <= n)%Z ->
  nth_error (map f (Py.range 1 (n + 1))) (Z.to_nat (i - 1)) = Some (f i).
Proof.
  intro H. rewrite nth_error_map, range_nth by lia.
  cbn [option_map]. do 2 f_equal. lia.
Qed.

(** C2, as the code has it: the counts are floors of the distance and of
    the drive time before these are rounded for storage; fuel stop [i]
    sits at mile [min(i * fuel interval, total_distance_miles)] and rest
    stop [i] at mile [min(i * rest interval * 50, total_distance_miles)],
    where [total_distance_miles] is the trip's stored, rounded distance. *)
Theorem stop_counts_and_miles (env : environ) (trip_id : uuid)
        (validated_data : Request.t) (route_data : Route.t) :
  0 <= Route.distance route_data ->
  0 <= Route.duration route_data ->
  (0 < fuel_stop_miles env)%Z ->
  (0 < driving_hours_limit env)%Z ->
  exists td,
    TripAPIView.create env trip_id validated_data route_data
    = Py.Ok (Http.Data Http.HTTP_201_CREATED td)
    /\ Z.of_nat (List.length (stops_of_type fuel (stops td)))
       = Qfloor (distance_miles route_data / inject_Z (fuel_stop_miles env))
    /\ Z.of_nat (List.length (stops_of_type rest (stops td)))
       = Qfloor (driving_hours route_data
                 / inject_Z (driving_hours_limit env))
    /\ (forall i : Z,
          (1 <= i
           <= Z.of_nat (List.length (stops_of_type fuel (stops td))))%Z ->
          exists s,
            nth_error (stops_of_type fuel (stops td)) (Z.to_nat (i - 1))
            = Some s
            /\ Stop.mile_marker s
               == Py.min (inject_Z (i * fuel_stop_miles env))
                     (Trip.total_distance_miles (trip td)))
    /\ (forall i : Z,
          (1 <= i
           <= Z.of_nat (List.length (stops_of_type rest (stops td))))%Z ->
          exists s,
            nth_error (stops_of_type rest (stops td)) (Z.to_nat (i - 1))
            = Some s
            /\ Stop.mile_marker s
               == Py.min (inject_Z (i * driving_hours_limit env * 50))
                     (Trip.total_distance_miles (trip td))).
Proof.
  intros Hd Hh Hf Hl.
  destruct (create_ok env trip_id validated_data route_data) as (s & _ & E);
    [lia | lia |].
  eexists. split; [exact E|].
  cbn [stops trip Trip.total_distance_miles].
  pose proof (floor_div_nonneg _ _ (distance_miles_nonneg _ Hd) Hf) as Nf.
  pose proof (floor_div_nonneg _ _ (driving_hours_nonneg _ Hh) Hl) as Nr.
  fold (fuel_stop_count env route_data) in Nf |- *.
  fold (rest_stop_count env route_data) in Nr |- *.
  rewrite !stops_of_type_app.
  rewrite (stops_of_type_same fuel (map (fuel_stop _ _ _) _))
    by apply fuel_stops_are_fuel.
  rewrite (stops_of_type_same rest (map (rest_stop _ _ _ _) _))
    by apply rest_stops_are_rest.
  rewrite (stops_of_type_other fuel rest (map (rest_stop _ _ _ _) _))
    by (discriminate || apply rest_stops_are_rest).
  rewrite (stops_of_type_other rest fuel (map (fuel_stop _ _ _) _))
    by (discriminate || apply fuel_stops_are_fuel).
  cbn [stops_of_type filter Stop.stop_type stop_type_eqb app].
  rewrite !app_nil_r, !length_map, !range_length.
  repeat split; try lia.
  - intros i Hi. exists (fuel_stop trip_id (fuel_stop_miles env)
                           (distance_miles route_data) i).
    split; [apply map_range_nth; lia|].
    apply round2_min_int.
  - intros i Hi. exists (rest_stop trip_id (driving_hours_limit env)
                           (off_duty_hours env)
                           (distance_miles route_data) i).
    split; [apply map_range_nth; lia|].
    apply round2_min_int.
Qed.

Lemma stop_counts_and_miles_witness :
  exists td,
    TripAPIView.create empty_env 1%N sample_request
      (Route.Build 4023360 90000)
    = Py.Ok (Http.Data Http.HTTP_201_CREATED td)
    /\ Z.of_nat (List.length (stops_of_type fuel (stops td)))
       = Qfloor (distance_miles (Route.Build 4023360 90000)
                 / inject_Z (fuel_stop_miles empty_env))
    /\ Z.of_nat (List.length (stops_of_type rest (stops td)))
       = Qfloor (driving_hours (Route.Build 4023360 90000)
                 / inject_Z (driving_hours_limit empty_env))
    /\ (forall i : Z,
          (1 <= i
           <= Z.of_nat (List.length (stops_of_type fuel (stops td))))%Z ->
          exists s,
            nth_error (stops_of_type fuel (stops td)) (Z.to_nat (i - 1))
            = Some s
            /\ Stop.mile_marker s
               == Py.min (inject_Z (i * fuel_stop_miles empty_env))
                     (Trip.total_distance_miles (trip td)))
    /\ (forall i : Z,
          (1 <= i
           <= Z.of_nat (List.length (stops_of_type rest (stops td))))%Z ->
          exists s,
            nth_error (stops_of_type rest (stops td)) (Z.to_nat (i - 1))
            = Some s
            /\ Stop.mile_marker s
               == Py.min (inject_Z (i * driving_hours_limit empty_env * 50))
                     (Trip.total_distance_miles (trip td))).
Proof.
  apply (stop_counts_and_miles empty_env 1%N
           sample_request
           (Route.Build 4023360 90000)).
  - vm_compute; discriminate.
  - vm_compute; discriminate.
  - vm_compute; reflexivity.
  - vm_compute; reflexivity.
Defined.

(** C2 fails on the stored totals: a route of 1609340 m and 79185.6 s is
    stored as 1000.0 miles and 22.0 hours, yet no fuel stop and a single
    rest stop are emitted, where the floors of the stored values are 1
    and 2.  And the mile markers follow the stored distance, not the
    distance before rounding: with 79200 s the second rest stop sits at
    mile 1000.0, while the minimum of 1100 and the unrounded 999.9972...
    miles is not 1000. *)
Lemma stop_counts_stored_totals_counterexample :
  (exists td,
     TripAPIView.create empty_env 1%N sample_request
       (Route.Build 1609340 79185.6)
     = Py.Ok (Http.Data Http.HTTP_201_CREATED td)
     /\ Trip.total_distance_miles (trip td) == 1000
     /\ List.length (stops_of_type fuel (stops td)) = 0%nat
     /\ Qfloor (Trip.total_distance_miles (trip td)
                / inject_Z (fuel_stop_miles empty_env)) = 1%Z
     /\ Trip.total_drive_hours (trip td) == 22
     /\ List.length (stops_of_type rest (stops td)) = 1%nat
     /\ Qfloor (Trip.total_drive_hours (trip td)
                / inject_Z (driving_hours_limit empty_env)) = 2%Z)
  /\ (exists td,
        TripAPIView.create empty_env 1%N sample_request
          (Route.Build 1609340 79200)
        = Py.Ok (Http.Data Http.HTTP_201_CREATED td)
        /\ Forall2 Qeq
             (map Stop.mile_marker (stops_of_type rest (stops td)))
             [550; 1000]
        /\ ~ Py.min (inject_Z (2 * driving_hours_limit empty_env * 50))
               (distance_miles (Route.Build 1609340 79200)) == 1000).
Proof.
  split; run_create; vm_compute;
    repeat split; try reflexivity; try discriminate.
  repeat (constructor; try reflexivity).
Qed.

(* ------------------------------------------------------------------ *)
(** ** Schedule generation *)

(** C3, as the code has it: every day stores its hours rounded to two
    decimals, so for a route with drive time [h >= 0] the
    [driving_hours] of the emitted days sum to less than [h + 0.01], and
    to more than [h - 0.01] whenever [h <= 29 * 11]. *)
Theorem driving_hours_sum (env : environ) (trip_id : uuid)
        (validated_data : Request.t) (route_data : Route.t) :
  0 <= Route.duration route_data ->
  fuel_stop_miles env <> 0%Z ->
  driving_hours_limit env <> 0%Z ->
  exists td,
    TripAPIView.create env trip_id validated_data route_data
    = Py.Ok (Http.Data Http.HTTP_201_CREATED td)
    /\ sum_driving_hours (daily_schedules td)
       < driving_hours route_data + (1 # 100)
    /\ (driving_hours route_data <= 29 * 11 ->
        driving_hours route_data - (1 # 100)
        < sum_driving_hours (daily_schedules td)).
Proof.
  intros Hh Hf Hl.
  destruct (create_ok env trip_id validated_data route_data Hf Hl)
    as (s & R & E).
  eexists. split; [exact E|].
  cbn [daily_schedules].
  destruct (hours_account_final trip_id _ _ _ _
              (hours_account_init _ Hh) R)
    as ((Hpos & Hsum & Hrem) & C).
  pose proof (days_shape_final trip_id _ _ _
                (days_shape_init trip_id route_data) R)
    as (Hday & _).
  set (h := driving_hours route_data) in *.
  destruct (round2_close h) as [Lo Up].
  assert (Zero : remaining_hours s == 0 ->
                 sum_driving_hours (loop_daily_schedules s) < h + (1 # 100)
                 /\ (h <= 29 * 11 ->
                     h - (1 # 100)
                     < sum_driving_hours (loop_daily_schedules s))).
  { intro Hz. rewrite (round2_zero _ Hz) in Hsum. split; [|intros _]; lra. }
  destruct Hrem as [Hz|[Hrest Hfull]]; [exact (Zero Hz)|].
  unfold schedule_cond in C. apply andb_false_iff in C as [C|C].
  - apply lt_false_iff in C. apply Zero. lra.
  - apply Z.ltb_ge in C.
    assert (D : current_day s = 30%Z) by lia.
    rewrite D in Hfull, Hrest.
    change (inject_Z (30 - 1)) with 29 in Hfull, Hrest.
    split; [|intro Hcap]; lra.
Qed.

Lemma driving_hours_sum_witness :
  exists td,
    TripAPIView.create empty_env 1%N sample_request
      (Route.Build 4023360 90000)
    = Py.Ok (Http.Data Http.HTTP_201_CREATED td)
    /\ sum_driving_hours (daily_schedules td)
       < driving_hours (Route.Build 4023360 90000) + (1 # 100)
    /\ (driving_hours (Route.Build 4023360 90000) <= 29 * 11 ->
        driving_hours (Route.Build 4023360 90000) - (1 # 100)
        < sum_driving_hours (daily_schedules td)).
Proof.
  apply (driving_hours_sum empty_env 1%N
           sample_request
           (Route.Build 4023360 90000)).
  - vm_compute; discriminate.
  - vm_compute; lia.
  - vm_compute; lia.
Defined.

(** C3 fails on the drive time the loop receives.  A route of 79185.6 s
    has a drive time of 21.996 h; the loop emits a day of 11.0 h and a
    day of [round(10.996, 2)] = 11.0 h, 22.0 h in all, more than the
    drive time and not equal to it. *)
Lemma driving_hours_sum_counterexample :
  exists td,
    TripAPIView.create empty_env 1%N sample_request
      (Route.Build 1609340 79185.6)
    = Py.Ok (Http.Data Http.HTTP_201_CREATED td)
    /\ driving_hours (Route.Build 1609340 79185.6) == 21.996
    /\ driving_hours (Route.Build 1609340 79185.6) <= 29 * 11
    /\ List.length (daily_schedules td) = 2%nat
    /\ Forall (fun d => DailySchedule.driving_hours d == 11)
         (daily_schedules td)
    /\ sum_driving_hours (daily_schedules td) == 22
    /\ ~ sum_driving_hours (daily_schedules td)
         <= driving_hours (Route.Build 1609340 79185.6).
Proof.
  run_create. vm_compute.
  split; [reflexivity|]. split; [discriminate|].
  split; [reflexivity|].
  split; [repeat (constructor; try reflexivity)|].
  split; [reflexivity|]. intro H. apply H. reflexivity.
Qed.

(** C4: whatever the drive time, the schedule loop ends within 29
    iterations; the days it emits are at most 29, numbered 1, 2, ... in
    order, and none has more than 11 driving hours. *)
Theorem schedule_bounded (env : environ) (trip_id : uuid)
        (validated_data : Request.t) (route_data : Route.t) :
  fuel_stop_miles env <> 0%Z ->
  driving_hours_limit env <> 0%Z ->
  exists td s,
    TripAPIView.create env trip_id validated_data route_data
    = Py.Ok (Http.Data Http.HTTP_201_CREATED td)
    /\ Py.while schedule_cond (schedule_body trip_id) 29
         (schedule_init route_data) = Py.Ok s
    /\ daily_schedules td = loop_daily_schedules s
    /\ (List.length (daily_schedules td) <= 29)%nat
    /\ sequential_days (daily_schedules td)
    /\ Forall (fun d => DailySchedule.driving_hours d <= 11)
         (daily_schedules td).
Proof.
  intros Hf Hl.
  destruct (create_ok env trip_id validated_data route_data Hf Hl)
    as (s & R & E).
  destruct (while_terminates schedule_cond (schedule_body trip_id)
              (fun s => Z.to_nat (30 - current_day s))) with
    (fuel := 29%nat) (s := schedule_init route_data) as [s29 R29].
  { intros s0 C. unfold schedule_cond in C.
    apply andb_prop in C as [_ C]. apply Z.ltb_lt in C.
    unfold schedule_body; cbn [current_day]. lia. }
  { simpl. lia. }
  pose proof (while_more_fuel _ _ 29 1 _ _ R29) as R30.
  change (29 + 1)%nat with schedule_fuel in R30.
  rewrite R in R30. injection R30 as <-.
  pose proof (days_shape_final trip_id _ _ _
                (days_shape_init trip_id route_data) R)
    as (Hday & Hlen & Hseq & Hall).
  eexists; exists s. split; [exact E|].
  cbn [daily_schedules].
  repeat split; try assumption.
  - lia.
  - eapply Forall_impl; [|exact Hall]. intros d (_ & H & _). exact H.
Qed.

Lemma schedule_bounded_witness :
  exists td s,
    TripAPIView.create empty_env 1%N sample_request
      (Route.Build 4023360 3960000)
    = Py.Ok (Http.Data Http.HTTP_201_CREATED td)
    /\ Py.while schedule_cond (schedule_body 1%N) 29
         (schedule_init (Route.Build 4023360 3960000)) = Py.Ok s
    /\ daily_schedules td = loop_daily_schedules s
    /\ (List.length (daily_schedules td) <= 29)%nat
    /\ sequential_days (daily_schedules td)
    /\ Forall (fun d => DailySchedule.driving_hours d <= 11)
         (daily_schedules td).
Proof.
  apply (schedule_bounded empty_env 1%N
           sample_request
           (Route.Build 4023360 3960000)).
  - vm_compute; lia.
  - vm_compute; lia.
Defined.

Lemma days_count_step (trip_id : uuid) (h : Q) (s : ScheduleLoop) :
  hours_account h s /\ days_count h s ->
  schedule_cond s = true ->
  hours_account h (schedule_body trip_id s)
  /\ days_count h (schedule_body trip_id s).
Proof.
  intros [Ha Hc] C.
  split; [now apply hours_account_step|].
  destruct Ha as (Hpos & _ & Hrem). destruct Hc as (_ & _).
  unfold schedule_cond in C. apply andb_prop in C as [C _].
  apply lt_true_iff in C.
  destruct Hrem as [Hz|[Hr _]]; [lra|].
  unfold days_count, schedule_body; cbn [current_day remaining_hours].
  replace (current_day s + 1 - 2)%Z with (current_day s - 1)%Z by lia.
  replace (current_day s + 1 - 1)%Z with (current_day s - 1 + 1)%Z by lia.
  rewrite inject_Z_plus. change (inject_Z 1) with 1.
  split.
  - right. lra.
  - destruct (Qlt_le_dec (remaining_hours s) 11) as [Hlt|Hge].
    + rewrite (min_gt_second _ _ Hlt). intros _. lra.
    + rewrite (min_le_first _ _ Hge). intro Hz. lra.
Qed.

Lemma days_count_init (route_data : Route.t) :
  0 <= Route.duration route_data ->
  hours_account (driving_hours route_data) (schedule_init route_data)
  /\ days_count (driving_hours route_data) (schedule_init route_data).
Proof.
  intro H. split; [now apply hours_account_init|].
  unfold days_count, schedule_init; cbn [current_day remaining_hours].
  split; [now left|].
  change (inject_Z (1 - 1)) with 0. intro Hz. lra.
Qed.

(** C5, as the code has it, for a daily driving cap of 11 hours (the
    default): [estimated_days] is [max(1, floor(h / cap))] for the drive
    time [h] of the route, before it is rounded into the stored
    [total_drive_hours]; it is within one of the number of emitted days
    whenever [h < 31 * 11]. *)
Theorem estimated_days_value (env : environ) (trip_id : uuid)
        (validated_data : Request.t) (route_data : Route.t) :
  0 <= Route.duration route_data ->
  fuel_stop_miles env <> 0%Z ->
  driving_hours_limit env = 11%Z ->
  exists td,
    TripAPIView.create env trip_id validated_data route_data
    = Py.Ok (Http.Data Http.HTTP_201_CREATED td)
    /\ Trip.estimated_days (trip td)
       = Z.max 1 (Qfloor (driving_hours route_data
                          / inject_Z (driving_hours_limit env)))
    /\ (driving_hours route_data < 31 * 11 ->
        (Z.abs (Trip.estimated_days (trip td)
                - Z.of_nat (List.length (daily_schedules td))) <= 1)%Z).
Proof.
  intros Hh Hf Hcap11.
  assert (Hl : driving_hours_limit env <> 0%Z) by (rewrite Hcap11; lia).
  destruct (create_ok env trip_id validated_data route_data Hf Hl)
    as (s & R & E).
  eexists. split; [exact E|].
  cbn [daily_schedules trip Trip.total_drive_hours Trip.estimated_days].
  rewrite Hcap11. change (inject_Z 11) with 11.
  pose proof (driving_hours_nonneg _ Hh) as Hpos.
  set (h := driving_hours route_data) in *.
  assert (Hint : Py.int (h / 11) = Qfloor (h / 11)).
  { apply int_floor_nonneg. apply Qle_shift_div_l; [reflexivity | lra]. }
  rewrite Hint.
  split; [reflexivity|].
  intro Hcap.
  destruct (while_invariant schedule_cond (schedule_body trip_id)
              (fun s => hours_account h s /\ days_count h s)
              (days_count_step trip_id h) _ _ _
              (days_count_init _ Hh) R)
    as (((Hrpos & _ & Hrem) & (Hlow & Hup)) & C).
  pose proof (days_shape_final trip_id _ _ _
                (days_shape_init trip_id route_data) R)
    as (Hday & Hlen & _).
  pose proof (Qfloor_le (h / 11)) as F1.
  pose proof (Qlt_floor (h / 11)) as F2.
  assert (Hdiv : h == 11 * (h / 11)) by field.
  set (f := Qfloor (h / 11)) in *.
  rewrite inject_Z_plus in F2. change (inject_Z 1) with 1 in F2.
  assert (G1 : 11 * inject_Z f <= h)
    by (revert F1 Hdiv; generalize (h / 11); intros; lra).
  assert (G2 : h < 11 * (inject_Z f + 1))
    by (revert F2 Hdiv; generalize (h / 11); intros; lra).
  clear F1 F2 Hdiv.
  set (n := Z.of_nat (List.length (loop_daily_schedules s))) in *.
  assert (A1 : (n = 0 \/ n - 1 < f + 1)%Z).
  { destruct Hlow as [D|D]; [left; lia|right].
    rewrite Zlt_Qlt, Hlen in *.
    replace (n + 1 - 2)%Z with (n - 1)%Z in D by lia.
    rewrite inject_Z_plus. change (inject_Z 1) with 1. lra. }
  unfold schedule_cond in C. apply andb_false_iff in C as [C|C].
  - apply lt_false_iff in C.
    assert (Hz : remaining_hours s == 0) by lra.
    specialize (Hup Hz).
    assert (A2 : (f <= n)%Z).
    { rewrite Hlen in Hup. replace (n + 1 - 1)%Z with n in Hup by lia.
      assert (B : (f < n + 1)%Z); [|lia].
      rewrite Zlt_Qlt, inject_Z_plus. change (inject_Z 1) with 1. lra. }
    assert (A3 : (n = 0 -> f = 0)%Z).
    { intro N0. rewrite Hlen, N0 in Hup.
      change (inject_Z (0 + 1 - 1)) with 0 in Hup.
      assert (B : (f < 1)%Z); [|assert (B' : (-1 < f)%Z); [|lia]].
      - rewrite Zlt_Qlt. change (inject_Z 1) with 1. lra.
      - rewrite Zlt_Qlt. change (inject_Z (-1)) with (-(1)). lra. }
    lia.
  - apply Z.ltb_ge in C.
    assert (N29 : n = 29%Z) by lia.
    assert (A2 : (f < 31)%Z).
    { rewrite Zlt_Qlt. change (inject_Z 31) with 31. lra. }
    lia.
Qed.

Lemma estimated_days_value_witness :
  exists td,
    TripAPIView.create empty_env 1%N sample_request
      (Route.Build 4023360 90000)
    = Py.Ok (Http.Data Http.HTTP_201_CREATED td)
    /\ Trip.estimated_days (trip td)
       = Z.max 1 (Qfloor (driving_hours (Route.Build 4023360 90000)
                          / inject_Z (driving_hours_limit empty_env)))
    /\ (driving_hours (Route.Build 4023360 90000) < 31 * 11 ->
        (Z.abs (Trip.estimated_days (trip td)
                - Z.of_nat (List.length (daily_schedules td))) <= 1)%Z).
Proof.
  apply (estimated_days_value empty_env 1%N
           sample_request
           (Route.Build 4023360 90000)).
  - vm_compute; discriminate.
  - vm_compute; lia.
  - reflexivity.
Defined.

(** C5 fails twice.  A drive time of 79185.6 s (21.996 h) is stored as
    22.0 hours, whose floor by 11 is 2, while [estimated_days] is 1.  A
    drive time of 3960000 s (1100 h) gives [estimated_days] 100 against
    the 29 days the loop emits. *)
Lemma estimated_days_counterexample :
  (exists td,
     TripAPIView.create empty_env 1%N sample_request
       (Route.Build 1609340 79185.6)
     = Py.Ok (Http.Data Http.HTTP_201_CREATED td)
     /\ Trip.total_drive_hours (trip td) == 22
     /\ Trip.estimated_days (trip td) = 1%Z
     /\ Z.max 1 (Qfloor (Trip.total_drive_hours (trip td) / 11)) = 2%Z)
  /\ (exists td,
        TripAPIView.create empty_env 1%N sample_request
          (Route.Build 1609340 3960000)
        = Py.Ok (Http.Data Http.HTTP_201_CREATED td)
        /\ Trip.estimated_days (trip td) = 100%Z
        /\ List.length (daily_schedules td) = 29%nat).
Proof.
  split; run_create; vm_compute; repeat split; reflexivity.
Qed.

(* ------------------------------------------------------------------ *)
(** ** Day-log synthesis *)

(** C6: the two reference cases.  Eight driving hours with nine on-duty
    hours give Driving 8.0-16.0, Break 16.0-16.5, Off Duty 16.5-24.0; no
    driving and no duty give the single entry Off Duty 8.0-24.0. *)
Theorem day_log_reference_cases (trip_id : uuid) (day_number : Z)
        (off_duty : Q) (notes : string) :
  Forall2 entry_eq
    (log_entries_of (DailySchedule.Build trip_id day_number 8 9
                       off_duty notes))
    [LogEntry.Build 8.0 16.0 Driving;
     LogEntry.Build 16.0 16.5 Break;
     LogEntry.Build 16.5 24.0 Off_Duty]
  /\ Forall2 entry_eq
       (log_entries_of (DailySchedule.Build trip_id day_number 0 0
                          off_duty notes))
       [LogEntry.Build 8.0 24.0 Off_Duty].
Proof.
  split; vm_compute; repeat (constructor; try reflexivity).
Qed.

(** C7, as the code has it: the entries are contiguous and the first one
    starts at 8.0; when the cursor after driving and break is below 24
    the last entry is Off Duty and ends at 24.0; when the cursor is 24
    or beyond there is no Off Duty entry and the last entry ends at the
    cursor, that is at 24.0 or later. *)
Theorem day_log_contiguous (schedule : DailySchedule.t) :
  contiguous (log_entries_of schedule)
  /\ (exists first rest,
        log_entries_of schedule = first :: rest
        /\ LogEntry.start_hour first == 8.0)
  /\ (cursor schedule < 24 ->
      exists front last,
        log_entries_of schedule = front ++ [last]
        /\ LogEntry.status last = Off_Duty
        /\ LogEntry.end_hour last == 24.0)
  /\ (24 <= cursor schedule ->
      Forall (fun e => LogEntry.status e <> Off_Duty)
        (log_entries_of schedule)
      /\ exists front last,
           log_entries_of schedule = front ++ [last]
           /\ LogEntry.end_hour last == cursor schedule).
Proof.
  unfold cursor, log_entries_of, driving_and_break.
  destruct (Py.lt 0 (DailySchedule.driving_hours schedule)) eqn:D;
    destruct (Py.lt 0 (DailySchedule.on_duty_hours schedule
                       - DailySchedule.driving_hours schedule)) eqn:B;
    cbn [app snd];
    match goal with
    | |- context [Py.lt ?c 24] => destruct (Py.lt c 24) eqn:L
    end;
    cbn [app contiguous LogEntry.start_hour LogEntry.end_hour];
    try apply lt_true_iff in L; try apply lt_false_iff in L;
    try (exfalso; lra);
    (split; [repeat split; reflexivity|]);
    (split; [eexists; eexists; split; reflexivity|]);
    (split; intro H; try lra).
  all:
    match goal with
    | |- exists _ _, _ /\ _ /\ _ =>
        (* below 24: the Off Duty entry closes the day *)
        (eexists [_; _], _ + eexists [_], _ + eexists [], _);
        (split; [reflexivity|split; reflexivity])
    | |- Forall _ _ /\ _ =>
        (* at 24 or beyond: the last entry ends at the cursor *)
        split;
        [repeat constructor; discriminate
        |(eexists [_], _ + eexists [], _); split; reflexivity]
    end.
Qed.

(** C7 fails when the cursor lands on 24: sixteen driving hours with no
    break leave the cursor at 24, the Off Duty entry is omitted, and the
    only entry, Driving 8.0-24.0, does reach 24. *)
Lemma day_log_cursor_at_24_counterexample :
  24 <= cursor (DailySchedule.Build 1%N 1 16 16 13 "Day 1 schedule")
  /\ Forall2 entry_eq
       (log_entries_of (DailySchedule.Build 1%N 1 16 16 13 "Day 1 schedule"))
       [LogEntry.Build 8.0 24.0 Driving].
Proof.
  split.
  - vm_compute. discriminate.
  - vm_compute. repeat (constructor; try reflexivity).
Qed.

(* ------------------------------------------------------------------ *)
(** ** Configuration *)

(** C8 on the code: with the cap set to 8 hours and the off-duty block
    to 10, a 10-hour drive is planned as one day of 10 driving hours and
    13 off-duty hours, while the rest stop of the same plan does use the
    8-hour cap (mile 400) and the 10-hour block. *)
Theorem schedule_ignores_configuration :
  exists td,
    TripAPIView.create env_cap8 1%N sample_request
      (Route.Build 804672 36000)
    = Py.Ok (Http.Data Http.HTTP_201_CREATED td)
    /\ driving_hours_limit env_cap8 = 8%Z
    /\ off_duty_hours env_cap8 = 10%Z
    /\ Forall2 Qeq (map DailySchedule.driving_hours (daily_schedules td))
         [10]
    /\ Forall2 Qeq (map DailySchedule.off_duty_hours (daily_schedules td))
         [13]
    /\ Forall2 Qeq (map Stop.mile_marker (stops_of_type rest (stops td)))
         [400]
    /\ Forall2 Qeq (map Stop.duration_hours (stops_of_type rest (stops td)))
         [10].
Proof.
  run_create. vm_compute. repeat split; repeat (constructor; try reflexivity).
Qed.

(* ------------------------------------------------------------------ *)
(** ** Day-log query *)

Section DayLogQuery.

Variables (trip_id : uuid) (day_number : Z).

Lemma matches_iff (s : DailySchedule.t) :
  schedule_matches trip_id day_number s = true
  <-> DailySchedule.trip s = trip_id
      /\ DailySchedule.day_number s = day_number.
Proof.
  unfold schedule_matches. rewrite andb_true_iff, N.eqb_eq, Z.eqb_eq. tauto.
Qed.

Lemma filter_no_match (db : list DailySchedule.t) :
  (forall s, In s db -> schedule_matches trip_id day_number s = false) ->
  filter (schedule_matches trip_id day_number) db = [].
Proof.
  induction db as [|a r IH]; intro H; simpl; [reflexivity|].
  rewrite (H a) by now left.
  apply IH. intros s Hs. apply H. now right.
Qed.

(** Under [unique_days] a matching schedule is the only one. *)
Lemma filter_unique (db : list DailySchedule.t) (s : DailySchedule.t) :
  unique_days db = true -> In s db ->
  schedule_matches trip_id day_number s = true ->
  filter (schedule_matches trip_id day_number) db = [s].
Proof.
  induction db as [|a r IH]; intros U Hin Hm; [contradiction|].
  simpl in U. apply andb_prop in U as [Ua Ur].
  apply negb_true_iff in Ua.
  assert (Hex : forall s', In s' r ->
                           schedule_matches trip_id day_number a = true ->
                           schedule_matches trip_id day_number s' = false).
  { intros s' Hs' Ha. apply matches_iff in Ha as [Ha1 Ha2].
    destruct (schedule_matches trip_id day_number s') eqn:M; [|reflexivity].
    apply matches_iff in M as [M1 M2].
    assert (X : existsb
                  (fun s' =>
                     (DailySchedule.trip s' =? DailySchedule.trip a)%N
                     && (DailySchedule.day_number s'
                         =? DailySchedule.day_number a)%Z) r = true).
    { apply existsb_exists. exists s'. split; [assumption|].
      rewrite andb_true_iff, N.eqb_eq, Z.eqb_eq. split; congruence. }
    congruence. }
  simpl. destruct Hin as [->|Hin].
  - rewrite Hm. f_equal. apply filter_no_match.
    intros s' Hs'. now apply Hex.
  - destruct (schedule_matches trip_id day_number a) eqn:Ma.
    + rewrite (Hex s Hin eq_refl) in Hm. discriminate.
    + now apply IH.
Qed.

(** C9: over stored schedules with distinct (trip, day) pairs, the
    query answers 200 with the synthesized log and the day's summary
    fields when a schedule of that trip and day exists, answers the 404
    not-found error when none does, and never answers 500 nor fails
    otherwise. *)
Theorem get_logs_found_or_not_found (db : list DailySchedule.t) :
  unique_days db = true ->
  (forall schedule,
      In schedule db ->
      DailySchedule.trip schedule = trip_id ->
      DailySchedule.day_number schedule = day_number ->
      DailyLogsAPIView.get db trip_id day_number
      = Py.Ok (Http.Data Http.HTTP_200_OK
          {| log_trip_id := trip_id;
             log_day_number := day_number;
             log_entries := log_entries_of schedule;
             total_driving_hours := DailySchedule.driving_hours schedule;
             total_on_duty_hours := DailySchedule.on_duty_hours schedule;
             total_off_duty_hours := DailySchedule.off_duty_hours schedule;
             log_notes := DailySchedule.notes schedule |}))
  /\ ((forall schedule,
          In schedule db ->
          ~ (DailySchedule.trip schedule = trip_id
             /\ DailySchedule.day_number schedule = day_number)) ->
      DailyLogsAPIView.get db trip_id day_number
      = Py.Ok (Http.Error Http.HTTP_404_NOT_FOUND
          (Http.Message
             "Schedule not found for the specified trip and day")))
  /\ (exists response,
        DailyLogsAPIView.get db trip_id day_number = Py.Ok response
        /\ forall err,
             response
             <> Http.Error Http.HTTP_500_INTERNAL_SERVER_ERROR err).
Proof.
  intro U.
  assert (Found : forall schedule,
             In schedule db ->
             schedule_matches trip_id day_number schedule = true ->
             DailyLogsAPIView.get db trip_id day_number
             = Py.Ok (Http.Data Http.HTTP_200_OK
                 {| log_trip_id := trip_id;
                    log_day_number := day_number;
                    log_entries := log_entries_of schedule;
                    total_driving_hours :=
                      DailySchedule.driving_hours schedule;
                    total_on_duty_hours :=
                      DailySchedule.on_duty_hours schedule;
                    total_off_duty_hours :=
                      DailySchedule.off_duty_hours schedule;
                    log_notes := DailySchedule.notes schedule |})).
  { intros schedule Hin Hm. unfold DailyLogsAPIView.get, objects_get.
    now rewrite (filter_unique db schedule U Hin Hm). }
  assert (Missing :
            (forall s, In s db ->
                       schedule_matches trip_id day_number s = false) ->
             DailyLogsAPIView.get db trip_id day_number
             = Py.Ok (Http.Error Http.HTTP_404_NOT_FOUND
                 (Http.Message
                    "Schedule not found for the specified trip and day"))).
  { intro H. unfold DailyLogsAPIView.get, objects_get.
    now rewrite (filter_no_match db H). }
  split; [|split].
  - intros schedule Hin Ht Hd. apply Found; [assumption|].
    now apply matches_iff.
  - intro H. apply Missing. intros s Hs.
    destruct (schedule_matches trip_id day_number s) eqn:M; [|reflexivity].
    apply matches_iff in M. now destruct (H s Hs).
  - destruct (existsb (schedule_matches trip_id day_number) db) eqn:Ex.
    + apply existsb_exists in Ex as (schedule & Hin & Hm).
      rewrite (Found schedule Hin Hm).
      eexists. split; [reflexivity|]. discriminate.
    + rewrite Missing.
      * eexists. split; [reflexivity|]. discriminate.
      * intros s Hs.
        destruct (schedule_matches trip_id day_number s) eqn:M; [|reflexivity].
        assert (X : existsb (schedule_matches trip_id day_number) db = true)
          by (apply existsb_exists; eauto).
        congruence.
Qed.

End DayLogQuery.

Lemma get_logs_found_or_not_found_witness :
  unique_days two_days = true
  /\ DailyLogsAPIView.get two_days 1%N 2
     = Py.Ok (Http.Data Http.HTTP_200_OK
         {| log_trip_id := 1%N;
            log_day_number := 2;
            log_entries :=
              log_entries_of
                (DailySchedule.Build 1%N 2 3 4 13 "Day 2 schedule");
            total_driving_hours := 3;
            total_on_duty_hours := 4;
            total_off_duty_hours := 13;
            log_notes := "Day 2 schedule" |})
  /\ DailyLogsAPIView.get two_days 1%N 5
     = Py.Ok (Http.Error Http.HTTP_404_NOT_FOUND
         (Http.Message "Schedule not found for the specified trip and day")).
Proof.
  split; [reflexivity|]. split.
  - apply (proj1 (get_logs_found_or_not_found 1%N 2 two_days eq_refl)
             (DailySchedule.Build 1%N 2 3 4 13 "Day 2 schedule")).
    + simpl. right. left. reflexivity.
    + reflexivity.
    + reflexivity.
  - apply (proj1 (proj2 (get_logs_found_or_not_found 1%N 5 two_days
                           eq_refl))).
    intros schedule Hin [_ Hday].
    simpl in Hin. destruct Hin as [<-|[<-|[]]]; simpl in Hday; lia.
Defined.

(** The days of one planned trip never clash. *)
Lemma sequential_days_unique (l : list DailySchedule.t) :
  sequential_days l -> unique_days l = true.
Proof.
  unfold sequential_days. intro H.
  assert (N : NoDup (map DailySchedule.day_number l)).
  { rewrite H. apply Finite.Injective_map_NoDup; [|apply seq_NoDup].
    intros a b. apply Nat2Z.inj. }
  clear H. induction l as [|a r IH]; [reflexivity|].
  simpl in N. inversion N as [|? ? Hnot Hr]; subst.
  simpl. rewrite (IH Hr), andb_true_r. apply negb_true_iff.
  destruct (existsb _ r) eqn:Ex; [|reflexivity].
  apply existsb_exists in Ex as (s & Hs & Hk).
  apply andb_prop in Hk as [_ Hk]. apply Z.eqb_eq in Hk.
  exfalso. apply Hnot. rewrite <- Hk. now apply in_map.
Qed.

(* ------------------------------------------------------------------ *)
(** ** Cycle hours *)



(* ------------------------------------------------------------------ *)
(** ** The stored schedules stay unique *)

(** The days of one planning invocation carry its trip identifier and
    distinct day numbers, so they satisfy [unique_days]. *)
Lemma create_days_unique (env : environ) (trip_id : uuid)
      (validated_data : Request.t) (route_data : Route.t) :
  fuel_stop_miles env <> 0%Z ->
  driving_hours_limit env <> 0%Z ->
  exists td,
    TripAPIView.create env trip_id validated_data route_data
    = Py.Ok (Http.Data Http.HTTP_201_CREATED td)
    /\ unique_days (daily_schedules td) = true
    /\ Forall (fun d => DailySchedule.trip d = trip_id) (daily_schedules td).
Proof.
  intros Hf Hl.
  destruct (create_ok env trip_id validated_data route_data Hf Hl)
    as (s & R & E).
  pose proof (days_shape_final trip_id _ _ _
                (days_shape_init trip_id route_data) R)
    as (_ & _ & Hseq & Hall).
  eexists. split; [exact E|]. cbn [daily_schedules]. split.
  - now apply sequential_days_unique.
  - eapply Forall_impl; [|exact Hall]. intros d (H & _). exact H.
Qed.

(** Schedules of different trips can be stored side by side. *)
Lemma unique_days_app (l1 l2 : list DailySchedule.t) :
  unique_days l1 = true -> unique_days l2 = true ->
  (forall a b, In a l1 -> In b l2 ->
               DailySchedule.trip a <> DailySchedule.trip b) ->
  unique_days (l1 ++ l2) = true.
Proof.
  intros U1 U2 D. induction l1 as [|a r IH]; simpl; [exact U2|].
  simpl in U1. apply andb_prop in U1 as [Ua Ur].
  rewrite IH; [|exact Ur|intros x y Hx Hy; apply D; [now right|exact Hy]].
  rewrite andb_true_r. rewrite existsb_app, negb_orb, Ua. simpl.
  apply negb_true_iff. destruct (existsb _ l2) eqn:Ex; [|reflexivity].
  apply existsb_exists in Ex as (b & Hb & Hk).
  apply andb_prop in Hk as [Hk _]. apply N.eqb_eq in Hk.
  exfalso. apply (D a b); [now left | exact Hb | now symmetry].
Qed.

(* ------------------------------------------------------------------ *)
(** ** The plan day by day *)

Lemma min_comp (a b b' : Q) : b == b' -> Py.min a b == Py.min a b'.
Proof.
  intro E. unfold Py.min, Py.lt.
  rewrite (Qcompare_comp b b' E a a (Qeq_refl a)).
  destruct (b' ?= a); [reflexivity | exact E | reflexivity].
Qed.

Lemma inject_Z_pred (z : Z) : inject_Z (z - 1) == inject_Z z - 1.
Proof.
  unfold Z.sub. rewrite inject_Z_plus, inject_Z_opp. reflexivity.
Qed.

(** The three invariants of the schedule loop, kept together. *)
Lemma plan_invariant_step (trip_id : uuid) (h : Q) (s : ScheduleLoop) :
  (hours_account h s /\ days_count h s)
  /\ days_shape trip_id s /\ days_hours h s ->
  schedule_cond s = true ->
  (hours_account h (schedule_body trip_id s)
   /\ days_count h (schedule_body trip_id s))
  /\ days_shape trip_id (schedule_body trip_id s)
  /\ days_hours h (schedule_body trip_id s).
Proof.
  intros (Hac & Hsh & Hdh) C.
  split; [now apply days_count_step|].
  split; [now apply days_shape_step|].
  destruct Hac as ((Hpos & _ & Hrem) & _).
  destruct Hsh as (_ & Hlen & _).
  unfold schedule_cond in C. apply andb_prop in C as [C _].
  apply lt_true_iff in C.
  destruct Hrem as [Hz|[Hr _]]; [lra|].
  intros k d. unfold schedule_body; cbn [loop_daily_schedules].
  destruct (Nat.lt_ge_cases k (List.length (loop_daily_schedules s)))
    as [Hk|Hk].
  - rewrite nth_error_app1 by exact Hk. apply Hdh.
  - rewrite nth_error_app2 by exact Hk.
    destruct (k - List.length (loop_daily_schedules s))%nat as [|m] eqn:Ek;
      [|destruct m; discriminate].
    assert (Kd : (Z.of_nat k + 1)%Z = current_day s) by lia.
    cbn [nth_error]. intro E. injection E as <-.
    unfold day_of_plan;
      cbn [DailySchedule.day_number DailySchedule.driving_hours
           DailySchedule.on_duty_hours DailySchedule.notes].
    rewrite Kd.
    assert (Er : remaining_hours s == h - 11 * inject_Z (Z.of_nat k)).
    { rewrite Hr. replace (current_day s - 1)%Z with (Z.of_nat k) by lia.
      reflexivity. }
    repeat split.
    + apply round2_comp, min_comp, Er.
    + change 1 with (inject_Z 1). apply round2_add_int.
    + apply round2_nonneg.
      unfold Py.min. destruct (Py.lt (remaining_hours s) 11); lra.
Qed.

Lemma plan_invariant_init (trip_id : uuid) (route_data : Route.t) :
  0 <= Route.duration route_data ->
  (hours_account (driving_hours route_data) (schedule_init route_data)
   /\ days_count (driving_hours route_data) (schedule_init route_data))
  /\ days_shape trip_id (schedule_init route_data)
  /\ days_hours (driving_hours route_data) (schedule_init route_data).
Proof.
  intro H. split; [now apply days_count_init|].
  split; [apply days_shape_init|].
  intros k d. unfold schedule_init; cbn [loop_daily_schedules].
  destruct k; discriminate.
Qed.

(** What holds of the loop's final state for a drive time [h >= 0]. *)
Lemma plan_invariant_final (trip_id : uuid) (route_data : Route.t)
      (s : ScheduleLoop) (fuel : nat) :
  0 <= Route.duration route_data ->
  Py.while schedule_cond (schedule_body trip_id) fuel
    (schedule_init route_data) = Py.Ok s ->
  ((hours_account (driving_hours route_data) s
    /\ days_count (driving_hours route_data) s)
   /\ days_shape trip_id s /\ days_hours (driving_hours route_data) s)
  /\ schedule_cond s = false.
Proof.
  intros H R.
  exact (while_invariant schedule_cond (schedule_body trip_id) _
           (plan_invariant_step trip_id (driving_hours route_data))
           fuel _ _ (plan_invariant_init trip_id route_data H) R).
Qed.

(** X1: for a drive time of [h >= 0] hours the plan has
    [min(29, ceil(h / 11))] days. *)
Theorem days_emitted_count (env : environ) (trip_id : uuid)
        (validated_data : Request.t) (route_data : Route.t) :
  0 <= Route.duration route_data ->
  fuel_stop_miles env <> 0%Z ->
  driving_hours_limit env <> 0%Z ->
  exists td,
    TripAPIView.create env trip_id validated_data route_data
    = Py.Ok (Http.Data Http.HTTP_201_CREATED td)
    /\ Z.of_nat (List.length (daily_schedules td))
       = Z.min 29 (Qceiling (driving_hours route_data / 11)).
Proof.
  intros Hh Hf Hl.
  destruct (create_ok env trip_id validated_data route_data Hf Hl)
    as (s & R & E).
  eexists. split; [exact E|]. cbn [daily_schedules].
  destruct (plan_invariant_final trip_id route_data s _ Hh R)
    as ((((Hrpos & _ & Hrem) & (Hlow & Hup)) & (Hday & Hlen & _) & _) & C).
  set (h := driving_hours route_data) in *.
  pose proof (Qle_ceiling (h / 11)) as F1.
  pose proof (Qceiling_lt (h / 11)) as F2.
  assert (Hdiv : h == 11 * (h / 11)) by field.
  set (c := Qceiling (h / 11)) in *.
  rewrite inject_Z_pred in F2.
  assert (G1 : h <= 11 * inject_Z c)
    by (revert F1 Hdiv; generalize (h / 11); intros; lra).
  assert (G2 : 11 * (inject_Z c - 1) < h)
    by (revert F2 Hdiv; generalize (h / 11); intros; lra).
  clear F1 F2 Hdiv.
  set (n := Z.of_nat (List.length (loop_daily_schedules s))) in *.
  rewrite Hlen in Hlow, Hup, Hrem.
  replace (n + 1 - 1)%Z with n in Hup, Hrem by lia.
  replace (n + 1 - 2)%Z with (n - 1)%Z in Hlow by lia.
  rewrite inject_Z_pred in Hlow.
  unfold schedule_cond in C. apply andb_false_iff in C as [C|C].
  - apply lt_false_iff in C.
    assert (Hz : remaining_hours s == 0) by lra.
    specialize (Hup Hz).
    assert (A1 : (c - 1 < n)%Z).
    { rewrite Zlt_Qlt, inject_Z_pred. lra. }
    assert (A2 : (n < c + 1)%Z).
    { destruct Hlow as [D|D].
      - assert (n = 0%Z) by lia.
        assert (B : (-1 < c)%Z); [|lia].
        rewrite Zlt_Qlt. change (inject_Z (-1)) with (-(1)).
        pose proof (driving_hours_nonneg _ Hh). fold h in H0. lra.
      - rewrite Zlt_Qlt, inject_Z_plus. change (inject_Z 1) with 1. lra. }
    lia.
  - apply Z.ltb_ge in C.
    assert (N29 : n = 29%Z) by lia.
    destruct Hrem as [Hz|[Hr _]].
    + specialize (Hup Hz).
      assert (A1 : (c - 1 < n)%Z).
      { rewrite Zlt_Qlt, inject_Z_pred. lra. }
      assert (A2 : (n < c + 1)%Z).
      { destruct Hlow as [D|D]; [lia|].
        rewrite Zlt_Qlt, inject_Z_plus. change (inject_Z 1) with 1. lra. }
      lia.
    + assert (A2 : (n < c + 1)%Z).
      { destruct Hlow as [D|D]; [lia|].
        rewrite Zlt_Qlt, inject_Z_plus. change (inject_Z 1) with 1. lra. }
      lia.
Qed.

Lemma days_emitted_count_witness :
  exists td,
    TripAPIView.create empty_env 1%N sample_request
      (Route.Build 4023360 90000)
    = Py.Ok (Http.Data Http.HTTP_201_CREATED td)
    /\ Z.of_nat (List.length (daily_schedules td))
       = Z.min 29 (Qceiling (driving_hours (Route.Build 4023360 90000) / 11)).
Proof.
  apply (days_emitted_count empty_env 1%N sample_request
           (Route.Build 4023360 90000)).
  - vm_compute; discriminate.
  - vm_compute; lia.
  - vm_compute; lia.
Defined.

(** X2: day [k] of a plan for [h >= 0] driving hours is numbered [k];
    its [driving_hours] is the chunk [min(11, h - 11 * (k - 1))] and its
    [on_duty_hours] that chunk plus one hour, each to within the
    two-decimal rounding of the stored value; a day with a full chunk
    stores exactly 11 and 12 hours. *)
Theorem day_hours_formula (env : environ) (trip_id : uuid)
        (validated_data : Request.t) (route_data : Route.t) :
  0 <= Route.duration route_data ->
  fuel_stop_miles env <> 0%Z ->
  driving_hours_limit env <> 0%Z ->
  exists td,
    TripAPIView.create env trip_id validated_data route_data
    = Py.Ok (Http.Data Http.HTTP_201_CREATED td)
    /\ forall (k : nat) (d : DailySchedule.t),
         nth_error (daily_schedules td) k = Some d ->
         DailySchedule.day_number d = (Z.of_nat k + 1)%Z
         /\ Py.min 11 (driving_hours route_data
                       - 11 * inject_Z (Z.of_nat k)) - (1 # 100)
            < DailySchedule.driving_hours d
         /\ DailySchedule.driving_hours d
            < Py.min 11 (driving_hours route_data
                         - 11 * inject_Z (Z.of_nat k)) + (1 # 100)
         /\ Py.min 11 (driving_hours route_data
                       - 11 * inject_Z (Z.of_nat k)) + 1 - (1 # 100)
            < DailySchedule.on_duty_hours d
         /\ DailySchedule.on_duty_hours d
            < Py.min 11 (driving_hours route_data
                         - 11 * inject_Z (Z.of_nat k)) + 1 + (1 # 100)
         /\ (11 <= driving_hours route_data - 11 * inject_Z (Z.of_nat k) ->
             DailySchedule.driving_hours d == 11
             /\ DailySchedule.on_duty_hours d == 12).
Proof.
  intros Hh Hf Hl.
  destruct (create_ok env trip_id validated_data route_data Hf Hl)
    as (s & R & E).
  eexists. split; [exact E|]. cbn [daily_schedules].
  destruct (plan_invariant_final trip_id route_data s _ Hh R)
    as ((_ & _ & Hdh) & _).
  intros k d Hk. destruct (Hdh k d Hk) as (H1 & H2 & H3 & _).
  set (x := driving_hours route_data - 11 * inject_Z (Z.of_nat k)) in *.
  destruct (round2_close (Py.min 11 x)) as [Lo Up].
  split; [exact H1|].
  repeat (split; [lra|]).
  intro Full. rewrite (min_le_first _ _ Full) in H2.
  assert (E11 : Py.round2 11 == 11) by exact (round2_int 11).
  split; lra.
Qed.

Lemma day_hours_formula_witness :
  exists td,
    TripAPIView.create empty_env 1%N sample_request
      (Route.Build 4023360 90000)
    = Py.Ok (Http.Data Http.HTTP_201_CREATED td)
    /\ forall (k : nat) (d : DailySchedule.t),
         nth_error (daily_schedules td) k = Some d ->
         DailySchedule.day_number d = (Z.of_nat k + 1)%Z
         /\ Py.min 11 (driving_hours (Route.Build 4023360 90000)
                       - 11 * inject_Z (Z.of_nat k)) - (1 # 100)
            < DailySchedule.driving_hours d
         /\ DailySchedule.driving_hours d
            < Py.min 11 (driving_hours (Route.Build 4023360 90000)
                         - 11 * inject_Z (Z.of_nat k)) + (1 # 100)
         /\ Py.min 11 (driving_hours (Route.Build 4023360 90000)
                       - 11 * inject_Z (Z.of_nat k)) + 1 - (1 # 100)
            < DailySchedule.on_duty_hours d
         /\ DailySchedule.on_duty_hours d
            < Py.min 11 (driving_hours (Route.Build 4023360 90000)
                         - 11 * inject_Z (Z.of_nat k)) + 1 + (1 # 100)
         /\ (11 <= driving_hours (Route.Build 4023360 90000)
                   - 11 * inject_Z (Z.of_nat k) ->
             DailySchedule.driving_hours d == 11
             /\ DailySchedule.on_duty_hours d == 12).
Proof.
  apply (day_hours_formula empty_env 1%N sample_request
           (Route.Build 4023360 90000)).
  - vm_compute; discriminate.
  - vm_compute; lia.
  - vm_compute; lia.
Defined.

(** X3: a drive time above 319 hours is cut: the plan has 29 days of 11
    driving hours each, 319 hours in all, and the hours beyond are in no
    day. *)
Theorem long_drive_truncated (env : environ) (trip_id : uuid)
        (validated_data : Request.t) (route_data : Route.t) :
  29 * 11 < driving_hours route_data ->
  fuel_stop_miles env <> 0%Z ->
  driving_hours_limit env <> 0%Z ->
  exists td,
    TripAPIView.create env trip_id validated_data route_data
    = Py.Ok (Http.Data Http.HTTP_201_CREATED td)
    /\ List.length (daily_schedules td) = 29%nat
    /\ Forall (fun d => DailySchedule.driving_hours d == 11)
         (daily_schedules td)
    /\ sum_driving_hours (daily_schedules td) == 29 * 11
    /\ sum_driving_hours (daily_schedules td) < driving_hours route_data.
Proof.
  intros Hlong Hf Hl.
  assert (Hh : 0 <= Route.duration route_data).
  { destruct (Qlt_le_dec (Route.duration route_data) 0) as [N|P];
      [|exact P].
    exfalso. unfold driving_hours in Hlong.
    assert (Route.duration route_data / 3600 <= 0);
      [apply Qle_shift_div_r; [reflexivity|lra] | lra]. }
  destruct (create_ok env trip_id validated_data route_data Hf Hl)
    as (s & R & E).
  eexists. split; [exact E|]. cbn [daily_schedules].
  destruct (plan_invariant_final trip_id route_data s _ Hh R)
    as ((((Hrpos & _ & Hrem) & (_ & Hup)) & (Hday & Hlen & _) & Hdh) & C).
  set (h := driving_hours route_data) in *.
  set (n := Z.of_nat (List.length (loop_daily_schedules s))) in *.
  assert (Bn : inject_Z n <= 29).
  { change 29 with (inject_Z 29). rewrite <- Zle_Qle. lia. }
  rewrite Hlen in Hup, Hrem. replace (n + 1 - 1)%Z with n in Hup, Hrem by lia.
  destruct Hrem as [Hz|[Hr Hs]]; [specialize (Hup Hz); lra|].
  unfold schedule_cond in C. apply andb_false_iff in C as [C|C];
    [apply lt_false_iff in C; lra|].
  apply Z.ltb_ge in C.
  assert (N29 : n = 29%Z) by lia.
  rewrite N29 in Hs. change (inject_Z 29) with 29 in Hs.
  split; [unfold n in N29; lia|].
  split; [|split; [exact Hs|lra]].
  apply Forall_forall. intros d Hd.
  apply In_nth_error in Hd as [k Hk].
  assert (Kb : (k < 29)%nat).
  { assert (Hk' : nth_error (loop_daily_schedules s) k <> None)
      by (rewrite Hk; discriminate).
    apply nth_error_Some in Hk'. unfold n in N29. lia. }
  destruct (Hdh k d Hk) as (_ & H2 & _). rewrite H2.
  assert (Bk : inject_Z (Z.of_nat k) <= 28).
  { change 28 with (inject_Z 28). rewrite <- Zle_Qle. lia. }
  rewrite min_le_first by lra. exact (round2_int 11).
Qed.

Lemma long_drive_truncated_witness :
  exists td,
    TripAPIView.create empty_env 1%N sample_request
      (Route.Build 4023360 3960000)
    = Py.Ok (Http.Data Http.HTTP_201_CREATED td)
    /\ List.length (daily_schedules td) = 29%nat
    /\ Forall (fun d => DailySchedule.driving_hours d == 11)
         (daily_schedules td)
    /\ sum_driving_hours (daily_schedules td) == 29 * 11
    /\ sum_driving_hours (daily_schedules td)
       < driving_hours (Route.Build 4023360 3960000).
Proof.
  apply (long_drive_truncated empty_env 1%N sample_request
           (Route.Build 4023360 3960000)).
  - vm_compute; reflexivity.
  - vm_compute; lia.
  - vm_compute; lia.
Defined.

(* ------------------------------------------------------------------ *)
(** ** Edge cases of planning *)

(** A loop whose condition fails on entry does nothing. *)
Lemma while_skip {S : Type} (cond : S -> bool) (body : S -> S)
      (fuel : nat) (s : S) :
  cond s = false -> Py.while cond body fuel s = Py.Ok s.
Proof. intro C. destruct fuel; simpl; now rewrite C. Qed.

Lemma int_nonpos (x : Q) : x <= 0 -> (Py.int x <= 0)%Z.
Proof.
  destruct x as [n d]. unfold Qle, Py.int; simpl. intro H.
  assert (Hn : (n <= 0)%Z) by lia.
  rewrite <- (Z.opp_involutive n), Z.quot_opp_l by lia.
  pose proof (Z.quot_pos (- n) (Z.pos d)). lia.
Qed.

(** X4: without drive time there is no day at all, yet the trip still
    reports one estimated day. *)
Theorem no_drive_time_no_days (env : environ) (trip_id : uuid)
        (validated_data : Request.t) (route_data : Route.t) :
  Route.duration route_data <= 0 ->
  fuel_stop_miles env <> 0%Z ->
  driving_hours_limit env <> 0%Z ->
  exists td,
    TripAPIView.create env trip_id validated_data route_data
    = Py.Ok (Http.Data Http.HTTP_201_CREATED td)
    /\ daily_schedules td = []
    /\ Trip.estimated_days (trip td) = 1%Z.
Proof.
  intros Hh Hf Hl.
  destruct (create_ok env trip_id validated_data route_data Hf Hl)
    as (s & R & E).
  eexists. split; [exact E|].
  cbn [daily_schedules trip Trip.estimated_days].
  assert (Hd : driving_hours route_data <= 0).
  { unfold driving_hours. apply Qle_shift_div_r; [reflexivity|lra]. }
  split.
  - assert (L : schedule_cond (schedule_init route_data) = false).
    { unfold schedule_cond, schedule_init; cbn [remaining_hours].
      apply andb_false_iff. left. now apply lt_false_iff. }
    rewrite (while_skip _ _ _ _ L) in R. injection R as <-. reflexivity.
  - assert (B : (Py.int (driving_hours route_data / 11) <= 0)%Z).
    { apply int_nonpos. apply Qle_shift_div_r; [reflexivity|lra]. }
    lia.
Qed.

Lemma no_drive_time_no_days_witness :
  exists td,
    TripAPIView.create empty_env 1%N sample_request (Route.Build 0 0)
    = Py.Ok (Http.Data Http.HTTP_201_CREATED td)
    /\ daily_schedules td = []
    /\ Trip.estimated_days (trip td) = 1%Z.
Proof.
  apply (no_drive_time_no_days empty_env 1%N sample_request
           (Route.Build 0 0)).
  - vm_compute; discriminate.
  - vm_compute; lia.
  - vm_compute; lia.
Defined.

(** X5: the days of a plan and the estimated day count depend on the
    route's duration alone: not on the distance, not on the request, and
    not on the configured intervals as long as these are non-zero. *)
Theorem schedule_depends_on_duration_only
        (env env' : environ) (trip_id : uuid)
        (validated_data validated_data' : Request.t)
        (route_data route_data' : Route.t) :
  Route.duration route_data = Route.duration route_data' ->
  fuel_stop_miles env <> 0%Z -> driving_hours_limit env <> 0%Z ->
  fuel_stop_miles env' <> 0%Z -> driving_hours_limit env' <> 0%Z ->
  exists td td',
    TripAPIView.create env trip_id validated_data route_data
    = Py.Ok (Http.Data Http.HTTP_201_CREATED td)
    /\ TripAPIView.create env' trip_id validated_data' route_data'
       = Py.Ok (Http.Data Http.HTTP_201_CREATED td')
    /\ daily_schedules td = daily_schedules td'
    /\ Trip.estimated_days (trip td) = Trip.estimated_days (trip td')
    /\ Trip.total_drive_hours (trip td) = Trip.total_drive_hours (trip td').
Proof.
  intros Hd Hf Hl Hf' Hl'.
  destruct (create_ok env trip_id validated_data route_data Hf Hl)
    as (s & R & E).
  destruct (create_ok env' trip_id validated_data' route_data' Hf' Hl')
    as (s' & R' & E').
  eexists; eexists. split; [exact E|]. split; [exact E'|].
  cbn [daily_schedules trip Trip.estimated_days Trip.total_drive_hours].
  assert (I : schedule_init route_data = schedule_init route_data')
    by (unfold schedule_init, driving_hours; now rewrite Hd).
  rewrite I, R' in R. injection R as <-.
  unfold driving_hours. rewrite Hd. repeat split.
Qed.

Lemma schedule_depends_on_duration_only_witness :
  exists td td',
    TripAPIView.create empty_env 1%N sample_request
      (Route.Build 4023360 90000)
    = Py.Ok (Http.Data Http.HTTP_201_CREATED td)
    /\ TripAPIView.create env_cap8 1%N sample_request
         (Route.Build 804672 90000)
       = Py.Ok (Http.Data Http.HTTP_201_CREATED td')
    /\ daily_schedules td = daily_schedules td'
    /\ Trip.estimated_days (trip td) = Trip.estimated_days (trip td')
    /\ Trip.total_drive_hours (trip td) = Trip.total_drive_hours (trip td').
Proof.
  apply (schedule_depends_on_duration_only empty_env env_cap8 1%N
           sample_request sample_request
           (Route.Build 4023360 90000) (Route.Build 804672 90000)).
  - reflexivity.
  - vm_compute; lia.
  - vm_compute; lia.
  - vm_compute; lia.
  - vm_compute; lia.
Defined.

Lemma floor_div_small (x : Q) (n : Z) :
  0 <= x -> x < inject_Z n -> Qfloor (x / inject_Z n) = 0%Z.
Proof.
  intros Hx Hn.
  assert (Pn : 0 < inject_Z n) by lra.
  assert (L : 0 <= x / inject_Z n)
    by (apply Qle_shift_div_l; [exact Pn | lra]).
  assert (U : x / inject_Z n < 1)
    by (apply Qlt_shift_div_r; [exact Pn | lra]).
  apply Qfloor_resp_le in L. change (Qfloor 0) with 0%Z in L.
  pose proof (Qfloor_le (x / inject_Z n)) as F.
  assert (B : (Qfloor (x / inject_Z n) < 1)%Z).
  { rewrite Zlt_Qlt. change (inject_Z 1) with 1. lra. }
  lia.
Qed.

(** X6: a route shorter than the fuel interval, driven in less than the
    daily limit, has exactly two stops: the pickup at mile 0 and the
    dropoff at the stored total distance. *)
Theorem short_route_two_stops (env : environ) (trip_id : uuid)
        (validated_data : Request.t) (route_data : Route.t) :
  0 <= distance_miles route_data ->
  distance_miles route_data < inject_Z (fuel_stop_miles env) ->
  0 <= driving_hours route_data ->
  driving_hours route_data < inject_Z (driving_hours_limit env) ->
  exists td,
    TripAPIView.create env trip_id validated_data route_data
    = Py.Ok (Http.Data Http.HTTP_201_CREATED td)
    /\ stops td
       = [Stop.Build trip_id pickup
            (Request.pickup_location validated_data) 0 0;
          Stop.Build trip_id dropoff
            (Request.dropoff_location validated_data)
            (Trip.total_distance_miles (trip td)) 0].
Proof.
  intros Hd Hdf Hh Hhl.
  assert (Hf : fuel_stop_miles env <> 0%Z).
  { intro Z0. rewrite Z0 in Hdf. change (inject_Z 0) with 0 in Hdf. lra. }
  assert (Hl : driving_hours_limit env <> 0%Z).
  { intro Z0. rewrite Z0 in Hhl. change (inject_Z 0) with 0 in Hhl. lra. }
  destruct (create_ok env trip_id validated_data route_data Hf Hl)
    as (s & _ & E).
  eexists. split; [exact E|].
  cbn [stops trip Trip.total_distance_miles].
  unfold fuel_stop_count, rest_stop_count.
  rewrite (floor_div_small _ _ Hd Hdf), (floor_div_small _ _ Hh Hhl).
  reflexivity.
Qed.

Lemma short_route_two_stops_witness :
  exists td,
    TripAPIView.create empty_env 1%N sample_request
      (Route.Build 804672 36000)
    = Py.Ok (Http.Data Http.HTTP_201_CREATED td)
    /\ stops td
       = [Stop.Build 1%N pickup "Austin" 0 0;
          Stop.Build 1%N dropoff "Denver"
            (Trip.total_distance_miles (trip td)) 0].
Proof.
  apply (short_route_two_stops empty_env 1%N sample_request
           (Route.Build 804672 36000)).
  - vm_compute; discriminate.
  - vm_compute; reflexivity.
  - vm_compute; discriminate.
  - vm_compute; reflexivity.
Defined.

Lemma range_in (lo hi i : Z) : In i (Py.range lo hi) -> (lo <= i < hi)%Z.
Proof.
  unfold Py.range. intro H. apply in_map_iff in H as (k & <- & Hk).
  apply in_seq in Hk. lia.
Qed.

(** X7: with positive intervals and a non-negative distance, every stop
    of the plan lies on the route: its mile marker is between 0 and the
    trip's stored total distance. *)
Theorem stops_within_route (env : environ) (trip_id : uuid)
        (validated_data : Request.t) (route_data : Route.t) :
  0 <= Route.distance route_data ->
  (0 < fuel_stop_miles env)%Z ->
  (0 < driving_hours_limit env)%Z ->
  exists td,
    TripAPIView.create env trip_id validated_data route_data
    = Py.Ok (Http.Data Http.HTTP_201_CREATED td)
    /\ Forall (fun s => 0 <= Stop.mile_marker s
                        /\ Stop.mile_marker s
                           <= Trip.total_distance_miles (trip td))
         (stops td).
Proof.
  intros Hd Hf Hl.
  destruct (create_ok env trip_id validated_data route_data) as (s & _ & E);
    [lia | lia |].
  eexists. split; [exact E|].
  cbn [stops trip Trip.total_distance_miles].
  pose proof (round2_nonneg _ (distance_miles_nonneg _ Hd)) as Ht.
  assert (Hmin : forall k : Z,
             (0 <= k)%Z ->
             0 <= Py.round2 (Py.min (inject_Z k) (distance_miles route_data))
             /\ Py.round2 (Py.min (inject_Z k) (distance_miles route_data))
                <= Py.round2 (distance_miles route_data)).
  { intros k Hk. rewrite round2_min_int.
    assert (Pk : 0 <= inject_Z k)
      by (change 0 with (inject_Z 0); now rewrite <- Zle_Qle).
    split; [|apply min_le_r].
    unfold Py.min. destruct (Py.lt _ _); assumption. }
  apply Forall_app. split; [|apply Forall_app; split;
                              [|apply Forall_app; split]].
  - constructor; [|constructor]. cbn [Stop.mile_marker]. split; lra.
  - apply Forall_map, Forall_forall. intros i Hi.
    apply range_in in Hi. unfold fuel_stop; cbn [Stop.mile_marker].
    apply Hmin. apply Z.mul_nonneg_nonneg; lia.
  - apply Forall_map, Forall_forall. intros i Hi.
    apply range_in in Hi. unfold rest_stop; cbn [Stop.mile_marker].
    apply Hmin. repeat apply Z.mul_nonneg_nonneg; lia.
  - constructor; [|constructor]. cbn [Stop.mile_marker]. split; lra.
Qed.

Lemma stops_within_route_witness :
  exists td,
    TripAPIView.create empty_env 1%N sample_request
      (Route.Build 4023360 90000)
    = Py.Ok (Http.Data Http.HTTP_201_CREATED td)
    /\ Forall (fun s => 0 <= Stop.mile_marker s
                        /\ Stop.mile_marker s
                           <= Trip.total_distance_miles (trip td))
         (stops td).
Proof.
  apply (stops_within_route empty_env 1%N sample_request
           (Route.Build 4023360 90000)).
  - vm_compute; discriminate.
  - vm_compute; reflexivity.
  - vm_compute; reflexivity.
Defined.

(** X8: planning answers the 500 response with ZeroDivisionError exactly
    when the configured fuel interval or daily limit is zero; for every
    route and request, and whatever else the environment holds. *)
Theorem zero_interval_server_error (env : environ) (trip_id : uuid)
        (validated_data : Request.t) (route_data : Route.t) :
  TripAPIView.create env trip_id validated_data route_data
  = Py.Ok (Http.Error Http.HTTP_500_INTERNAL_SERVER_ERROR
             (Http.Str Py.ZeroDivisionError))
  <-> fuel_stop_miles env = 0%Z \/ driving_hours_limit env = 0%Z.
Proof.
  split.
  - intro E.
    destruct (Z.eq_dec (fuel_stop_miles env) 0) as [F|F]; [now left|].
    destruct (Z.eq_dec (driving_hours_limit env) 0) as [L|L]; [now right|].
    destruct (create_ok env trip_id validated_data route_data F L)
      as (s & _ & E').
    rewrite E' in E. discriminate.
  - intro H.
    unfold TripAPIView.create, TripAPIView.create_try. cbv zeta.
    fold (fuel_stop_miles env) (driving_hours_limit env).
    unfold Py.floordiv.
    destruct (Z.eqb_spec (fuel_stop_miles env) 0) as [F|F]; [reflexivity|].
    destruct H as [H|H]; [contradiction|].
    rewrite H. reflexivity.
Qed.

(* ------------------------------------------------------------------ *)
(** ** Planning over the stored rows *)

Lemma filter_all {A : Type} (f : A -> bool) (l : list A) :
  Forall (fun x => f x = true) l -> filter f l = l.
Proof.
  induction 1 as [|x l Hx _ IH]; simpl; [reflexivity|].
  now rewrite Hx, IH.
Qed.

Lemma filter_none {A : Type} (f : A -> bool) (l : list A) :
  Forall (fun x => f x = false) l -> filter f l = [].
Proof.
  induction 1 as [|x l Hx _ IH]; simpl; [reflexivity|].
  now rewrite Hx, IH.
Qed.

(** The rows a successful planning writes, and the response it gives:
    the trip serialised from the rows just stored. *)
Lemma stored_create_ok (db : Database.t) (env : environ) (trip_id : uuid)
      (validated_data : Request.t) (route_data : Route.t) :
  fuel_stop_miles env <> 0%Z ->
  driving_hours_limit env <> 0%Z ->
  exists td db',
    TripAPIView.create env trip_id validated_data route_data
    = Py.Ok (Http.Data Http.HTTP_201_CREATED td)
    /\ db' = Database.Build (Database.trips db ++ [trip td])
               (Database.stops db ++ stops td)
               (Database.daily_schedules db ++ daily_schedules td)
    /\ Stored.create db env trip_id validated_data route_data
       = (db', Py.Ok (Http.Data Http.HTTP_201_CREATED
                        (TripSerializer db' (trip td))))
    /\ Trip.id (trip td) = trip_id
    /\ Forall (fun s => Stop.trip s = trip_id) (stops td)
    /\ Forall (fun d => DailySchedule.trip d = trip_id) (daily_schedules td)
    /\ sequential_days (daily_schedules td).
Proof.
  intros Hf Hl.
  destruct (create_ok env trip_id validated_data route_data Hf Hl)
    as (s & R & E).
  pose proof (days_shape_final trip_id _ _ _
                (days_shape_init trip_id route_data) R)
    as (_ & _ & Hseq & Hall).
  eexists; eexists. split; [exact E|]. split; [reflexivity|].
  cbn [trip stops daily_schedules Trip.id].
  split; [|split; [reflexivity|split; [|split; [|exact Hseq]]]].
  - unfold Stored.create. cbv zeta.
    fold (distance_miles route_data) (driving_hours route_data).
    fold (fuel_stop_miles env) (driving_hours_limit env) (off_duty_hours env).
    fold (schedule_init route_data).
    unfold Py.floordiv.
    destruct (Z.eqb_spec (fuel_stop_miles env) 0) as [|_]; [contradiction|].
    destruct (Z.eqb_spec (driving_hours_limit env) 0) as [|_];
      [contradiction|].
    rewrite !int_of_whole, !for_in_append, R.
    fold (fuel_stop_count env route_data) (rest_stop_count env route_data).
    unfold schedule_bulk_create, stop_bulk_create, trip_objects_create.
    cbn [Database.trips Database.stops Database.daily_schedules].
    rewrite <- !app_assoc. reflexivity.
  - apply Forall_app. split; [repeat constructor|].
    apply Forall_app. split;
      [apply Forall_map, Forall_forall; reflexivity|].
    apply Forall_app. split;
      [apply Forall_map, Forall_forall; reflexivity|repeat constructor].
  - eapply Forall_impl; [|exact Hall]. intros d (H & _). exact H.
Qed.

(** Serialising a trip from a store where only the new rows carry its
    identifier gives back those rows. *)
Lemma serializer_reads_new_rows (db : Database.t) (td : TripData) :
  fresh_id db (Trip.id (trip td)) ->
  Forall (fun s => Stop.trip s = Trip.id (trip td)) (stops td) ->
  Forall (fun d => DailySchedule.trip d = Trip.id (trip td))
    (daily_schedules td) ->
  TripSerializer
    (Database.Build (Database.trips db ++ [trip td])
       (Database.stops db ++ stops td)
       (Database.daily_schedules db ++ daily_schedules td))
    (trip td)
  = td.
Proof.
  intros (_ & Fs & Fd) Hs Hd. destruct td as [t ss ds].
  cbn [trip stops daily_schedules] in *.
  unfold TripSerializer; cbn [Database.stops Database.daily_schedules].
  rewrite !filter_app. f_equal.
  - rewrite filter_none, filter_all; [reflexivity| |].
    + eapply Forall_impl; [|exact Hs]. intros s H. now apply N.eqb_eq.
    + eapply Forall_impl; [|exact Fs]. intros s H. now apply N.eqb_neq.
  - rewrite filter_none, filter_all; [reflexivity| |].
    + eapply Forall_impl; [|exact Hd]. intros d H. now apply N.eqb_eq.
    + eapply Forall_impl; [|exact Fd]. intros d H. now apply N.eqb_neq.
Qed.

(** X9: when no stored row carries the new trip's identifier, the
    response computed from the stored rows is the response of the
    planning computation itself, in the success case and in the error
    case alike. *)
Theorem stored_response_agrees (db : Database.t) (env : environ)
        (trip_id : uuid) (validated_data : Request.t)
        (route_data : Route.t) :
  fresh_id db trip_id ->
  snd (Stored.create db env trip_id validated_data route_data)
  = TripAPIView.create env trip_id validated_data route_data.
Proof.
  intro Hfresh.
  destruct (Z.eq_dec (fuel_stop_miles env) 0) as [F|F].
  - unfold Stored.create, TripAPIView.create, TripAPIView.create_try.
    cbv zeta. fold (fuel_stop_miles env). unfold Py.floordiv.
    rewrite F. reflexivity.
  - destruct (Z.eq_dec (driving_hours_limit env) 0) as [L|L].
    + unfold Stored.create, TripAPIView.create, TripAPIView.create_try.
      cbv zeta. fold (fuel_stop_miles env) (driving_hours_limit env).
      unfold Py.floordiv.
      destruct (Z.eqb_spec (fuel_stop_miles env) 0) as [|_];
        [contradiction|].
      rewrite L. reflexivity.
    + destruct (stored_create_ok db env trip_id validated_data route_data
                  F L)
        as (td & db' & E & -> & S & Hid & Hs & Hd & _).
      rewrite S, E. cbn [snd]. do 2 f_equal.
      rewrite <- Hid in Hfresh, Hs, Hd.
      now apply serializer_reads_new_rows.
Qed.

Lemma stored_response_agrees_witness :
  snd (Stored.create sample_db empty_env 1%N sample_request
         (Route.Build 4023360 90000))
  = TripAPIView.create empty_env 1%N sample_request
      (Route.Build 4023360 90000).
Proof.
  apply (stored_response_agrees sample_db empty_env 1%N sample_request
           (Route.Build 4023360 90000)).
  unfold fresh_id, sample_db; simpl.
  repeat split; repeat constructor; discriminate.
Defined.

Lemma trip_get_new_row (db : Database.t) (t : Trip.t) (ss : list Stop.t)
      (ds : list DailySchedule.t) :
  Forall (fun t' => Trip.id t' <> Trip.id t) (Database.trips db) ->
  trip_objects_get
    (Database.Build (Database.trips db ++ [t]) ss ds) (Trip.id t)
  = Py.Ok t.
Proof.
  intro F. unfold trip_objects_get; cbn [Database.trips].
  rewrite filter_app, filter_none.
  - simpl. now rewrite N.eqb_refl.
  - eapply Forall_impl; [|exact F]. intros t' H. now apply N.eqb_neq.
Qed.

(** X10: a zero fuel interval or daily limit leaves an orphan.  The trip
    row is stored, no stop and no day is, the answer is the 500
    response; when the identifier was unused, retrieving the trip
    afterwards succeeds and shows it without stops and without days. *)
Theorem zero_interval_orphan_trip (db : Database.t) (env : environ)
        (trip_id : uuid) (validated_data : Request.t)
        (route_data : Route.t) :
  fresh_id db trip_id ->
  fuel_stop_miles env = 0%Z \/ driving_hours_limit env = 0%Z ->
  exists t db',
    Stored.create db env trip_id validated_data route_data
    = (db', Py.Ok (Http.Error Http.HTTP_500_INTERNAL_SERVER_ERROR
                     (Http.Str Py.ZeroDivisionError)))
    /\ Trip.id t = trip_id
    /\ db' = Database.Build (Database.trips db ++ [t]) (Database.stops db)
               (Database.daily_schedules db)
    /\ TripDetailAPIView.get db' trip_id
       = Py.Ok (Http.Data Http.HTTP_200_OK
                  {| trip := t; stops := []; daily_schedules := [] |}).
Proof.
  intros (Ft & Fs & Fd) H.
  eexists; eexists. split; [|split; [|split; [reflexivity|]]].
  - unfold Stored.create. cbv zeta.
    fold (fuel_stop_miles env) (driving_hours_limit env).
    unfold Py.floordiv, trip_objects_create.
    destruct (Z.eqb_spec (fuel_stop_miles env) 0) as [F|F]; [reflexivity|].
    destruct H as [H|H]; [contradiction|].
    rewrite H. reflexivity.
  - reflexivity.
  - unfold TripDetailAPIView.get.
    match goal with
    | |- context [Database.Build (_ ++ [?t]) _ _] =>
        change trip_id with (Trip.id t) at 1;
        rewrite (trip_get_new_row db t) by exact Ft
    end.
    cbn [Py.bind try_except]. do 2 f_equal.
    unfold TripSerializer; cbn [Database.stops Database.daily_schedules Trip.id].
    f_equal.
    + apply filter_none. eapply Forall_impl; [|exact Fs].
      intros s Hs. now apply N.eqb_neq.
    + apply filter_none. eapply Forall_impl; [|exact Fd].
      intros d Hd. now apply N.eqb_neq.
Qed.

(** An environment with the fuel interval set to zero. *)
Lemma zero_interval_orphan_trip_witness :
  exists t db',
    Stored.create sample_db (fun name =>
                               if (name =? "FUEL_STOP_MILES")%string
                               then Some 0%Z else None)
      1%N sample_request (Route.Build 4023360 90000)
    = (db', Py.Ok (Http.Error Http.HTTP_500_INTERNAL_SERVER_ERROR
                     (Http.Str Py.ZeroDivisionError)))
    /\ Trip.id t = 1%N
    /\ db' = Database.Build (Database.trips sample_db ++ [t])
               (Database.stops sample_db)
               (Database.daily_schedules sample_db)
    /\ TripDetailAPIView.get db' 1%N
       = Py.Ok (Http.Data Http.HTTP_200_OK
                  {| trip := t; stops := []; daily_schedules := [] |}).
Proof.
  apply (zero_interval_orphan_trip sample_db
           (fun name =>
              if (name =? "FUEL_STOP_MILES")%string then Some 0%Z else None)
           1%N sample_request (Route.Build 4023360 90000)).
  - unfold fresh_id, sample_db; simpl.
    repeat split; repeat constructor; discriminate.
  - left. reflexivity.
Defined.

(** X11: planning then retrieving.  With non-zero intervals and an
    unused identifier, the trip, its stops and its days are appended to
    the stored rows, and retrieving the trip by its identifier returns
    exactly the data of the 201 response. *)
Theorem create_then_retrieve (db : Database.t) (env : environ)
        (trip_id : uuid) (validated_data : Request.t)
        (route_data : Route.t) :
  fresh_id db trip_id ->
  fuel_stop_miles env <> 0%Z ->
  driving_hours_limit env <> 0%Z ->
  exists td db',
    Stored.create db env trip_id validated_data route_data
    = (db', Py.Ok (Http.Data Http.HTTP_201_CREATED td))
    /\ db' = Database.Build (Database.trips db ++ [trip td])
               (Database.stops db ++ stops td)
               (Database.daily_schedules db ++ daily_schedules td)
    /\ TripDetailAPIView.get db' trip_id
       = Py.Ok (Http.Data Http.HTTP_200_OK td).
Proof.
  intros Hfresh Hf Hl.
  destruct (stored_create_ok db env trip_id validated_data route_data Hf Hl)
    as (td & db' & _ & -> & S & Hid & Hs & Hd & _).
  rewrite S. clear S. subst trip_id.
  pose proof (serializer_reads_new_rows db td Hfresh Hs Hd) as Ser.
  exists td. eexists. split; [|split; [reflexivity|]].
  - rewrite Ser. reflexivity.
  - unfold TripDetailAPIView.get.
    rewrite trip_get_new_row by exact (proj1 Hfresh).
    cbn [Py.bind try_except]. now rewrite Ser.
Qed.

Lemma create_then_retrieve_witness :
  exists td db',
    Stored.create sample_db empty_env 1%N sample_request
      (Route.Build 4023360 90000)
    = (db', Py.Ok (Http.Data Http.HTTP_201_CREATED td))
    /\ db' = Database.Build (Database.trips sample_db ++ [trip td])
               (Database.stops sample_db ++ stops td)
               (Database.daily_schedules sample_db ++ daily_schedules td)
    /\ TripDetailAPIView.get db' 1%N
       = Py.Ok (Http.Data Http.HTTP_200_OK td).
Proof.
  apply (create_then_retrieve sample_db empty_env 1%N sample_request
           (Route.Build 4023360 90000)).
  - unfold fresh_id, sample_db; simpl.
    repeat split; repeat constructor; discriminate.
  - vm_compute; lia.
  - vm_compute; lia.
Defined.

(** With a zero interval only the trip row is written. *)
Lemma stored_create_zero (db : Database.t) (env : environ) (trip_id : uuid)
      (validated_data : Request.t) (route_data : Route.t) :
  fuel_stop_miles env = 0%Z \/ driving_hours_limit env = 0%Z ->
  exists t,
    Trip.id t = trip_id
    /\ Stored.create db env trip_id validated_data route_data
       = (Database.Build (Database.trips db ++ [t]) (Database.stops db)
            (Database.daily_schedules db),
          Py.Ok (Http.Error Http.HTTP_500_INTERNAL_SERVER_ERROR
                   (Http.Str Py.ZeroDivisionError))).
Proof.
  intro H.
  eexists (Trip.Build trip_id _ _ _ _ _ _ _). split; [reflexivity|].
  unfold Stored.create. cbv zeta.
  fold (fuel_stop_miles env) (driving_hours_limit env).
  unfold Py.floordiv, trip_objects_create.
  destruct (Z.eqb_spec (fuel_stop_miles env) 0) as [F|F]; [reflexivity|].
  destruct H as [H|H]; [contradiction|].
  rewrite H. reflexivity.
Qed.

(** Rows of another trip do not show when a trip is read. *)
Lemma trip_get_frame (db : Database.t) (trip_id id' : uuid) (t : Trip.t)
      (ss : list Stop.t) (ds : list DailySchedule.t) :
  id' <> trip_id ->
  Trip.id t = trip_id ->
  Forall (fun s => Stop.trip s = trip_id) ss ->
  Forall (fun d => DailySchedule.trip d = trip_id) ds ->
  TripDetailAPIView.get
    (Database.Build (Database.trips db ++ [t]) (Database.stops db ++ ss)
       (Database.daily_schedules db ++ ds)) id'
  = TripDetailAPIView.get db id'.
Proof.
  intros N Ht Hs Hd.
  unfold TripDetailAPIView.get, trip_objects_get; cbn [Database.trips].
  rewrite filter_app. cbn [filter]. rewrite Ht.
  assert (E : (trip_id =? id')%N = false) by (apply N.eqb_neq; congruence).
  rewrite E, app_nil_r.
  destruct (filter (fun t0 => (Trip.id t0 =? id')%N) (Database.trips db))
    as [|t0 [|t1 l]] eqn:Fl; try reflexivity.
  cbn [Py.bind try_except]. do 2 f_equal.
  assert (Hin : In t0 (filter (fun t0 => (Trip.id t0 =? id')%N)
                         (Database.trips db)))
    by (rewrite Fl; now left).
  apply filter_In in Hin as [_ Hid]. apply N.eqb_eq in Hid.
  unfold TripSerializer; cbn [Database.stops Database.daily_schedules].
  rewrite !filter_app, Hid. f_equal.
  - rewrite (filter_none _ ss), app_nil_r; [reflexivity|].
    eapply Forall_impl; [|exact Hs]. intros s H.
    apply N.eqb_neq. congruence.
  - rewrite (filter_none _ ds), app_nil_r; [reflexivity|].
    eapply Forall_impl; [|exact Hd]. intros d H.
    apply N.eqb_neq. congruence.
Qed.

Lemma day_logs_frame (l ds : list DailySchedule.t) (trip_id id' : uuid)
      (day_number : Z) :
  id' <> trip_id ->
  Forall (fun d => DailySchedule.trip d = trip_id) ds ->
  DailyLogsAPIView.get (l ++ ds) id' day_number
  = DailyLogsAPIView.get l id' day_number.
Proof.
  intros N Hd. unfold DailyLogsAPIView.get, objects_get.
  rewrite filter_app, (filter_none _ ds), app_nil_r; [reflexivity|].
  eapply Forall_impl; [|exact Hd]. intros d H.
  unfold schedule_matches. apply andb_false_iff. left.
  apply N.eqb_neq. congruence.
Qed.

(** X12: planning a trip never changes what the other trips show:
    retrieving any other identifier, and querying any of its day logs,
    answers after the invocation what it answered before, whether the
    invocation succeeded or failed. *)
Theorem create_leaves_other_trips (db : Database.t) (env : environ)
        (trip_id id' : uuid) (validated_data : Request.t)
        (route_data : Route.t) (day_number : Z) :
  id' <> trip_id ->
  TripDetailAPIView.get
    (fst (Stored.create db env trip_id validated_data route_data)) id'
  = TripDetailAPIView.get db id'
  /\ DailyLogsAPIView.get
       (Database.daily_schedules
          (fst (Stored.create db env trip_id validated_data route_data)))
       id' day_number
     = DailyLogsAPIView.get (Database.daily_schedules db) id' day_number.
Proof.
  intro N.
  destruct (Z.eq_dec (fuel_stop_miles env) 0) as [F|F];
    [|destruct (Z.eq_dec (driving_hours_limit env) 0) as [L|L]].
  3: { destruct (stored_create_ok db env trip_id validated_data route_data
                   F L)
         as (td & db' & _ & -> & S & Hid & Hs & Hd & _).
       rewrite S. cbn [fst Database.daily_schedules]. split.
       - now apply (trip_get_frame db trip_id).
       - now apply (day_logs_frame _ _ trip_id). }
  all: destruct (stored_create_zero db env trip_id validated_data route_data)
         as (t & Hid & ->); [tauto|].
  all: cbn [fst Database.daily_schedules]; split; [|reflexivity].
  all: rewrite <- (app_nil_r (Database.stops db)) at 1.
  all: rewrite <- (app_nil_r (Database.daily_schedules db)) at 1.
  all: apply (trip_get_frame db trip_id); auto.
Qed.

Lemma create_leaves_other_trips_witness :
  TripDetailAPIView.get
    (fst (Stored.create sample_db empty_env 1%N sample_request
            (Route.Build 4023360 90000))) 9%N
  = TripDetailAPIView.get sample_db 9%N
  /\ DailyLogsAPIView.get
       (Database.daily_schedules
          (fst (Stored.create sample_db empty_env 1%N sample_request
                  (Route.Build 4023360 90000))))
       9%N 1
     = DailyLogsAPIView.get (Database.daily_schedules sample_db) 9%N 1.
Proof.
  apply (create_leaves_other_trips sample_db empty_env 1%N 9%N
           sample_request (Route.Build 4023360 90000) 1).
  discriminate.
Defined.

(* ------------------------------------------------------------------ *)
(** ** Day logs of a planned trip *)

Lemma sequential_days_nth (l : list DailySchedule.t) (k : nat)
      (d : DailySchedule.t) :
  sequential_days l -> nth_error l k = Some d ->
  DailySchedule.day_number d = (Z.of_nat k + 1)%Z.
Proof.
  unfold sequential_days. intros Hseq Hk.
  assert (Hlt : (k < List.length l)%nat)
    by (apply nth_error_Some; rewrite Hk; discriminate).
  pose proof (map_nth_error DailySchedule.day_number k l Hk) as E.
  rewrite Hseq, nth_error_map, nth_error_seq in E.
  destruct (Nat.ltb_spec k (List.length l)); [|lia].
  cbn [option_map] in E. injection E as E. lia.
Qed.

Lemma sequential_days_bounds (l : list DailySchedule.t)
      (d : DailySchedule.t) :
  sequential_days l -> In d l ->
  (1 <= DailySchedule.day_number d <= Z.of_nat (List.length l))%Z.
Proof.
  intros Hseq Hin. apply In_nth_error in Hin as [k Hk].
  rewrite (sequential_days_nth l k d Hseq Hk).
  assert (Hlt : (k < List.length l)%nat)
    by (apply nth_error_Some; rewrite Hk; discriminate).
  lia.
Qed.

(** X13: after a successful planning under an unused identifier, the
    day-log query answers 200 for every day of the plan, with the log
    synthesized from that day and its summary fields, and answers 404
    for every day number outside 1..n. *)
Theorem create_then_day_logs (db : Database.t) (env : environ)
        (trip_id : uuid) (validated_data : Request.t)
        (route_data : Route.t) :
  fresh_id db trip_id ->
  fuel_stop_miles env <> 0%Z ->
  driving_hours_limit env <> 0%Z ->
  exists td db',
    Stored.create db env trip_id validated_data route_data
    = (db', Py.Ok (Http.Data Http.HTTP_201_CREATED td))
    /\ (forall (k : nat) (d : DailySchedule.t),
           nth_error (daily_schedules td) k = Some d ->
           DailyLogsAPIView.get (Database.daily_schedules db') trip_id
             (Z.of_nat k + 1)
           = Py.Ok (Http.Data Http.HTTP_200_OK
               {| log_trip_id := trip_id;
                  log_day_number := (Z.of_nat k + 1)%Z;
                  log_entries := log_entries_of d;
                  total_driving_hours := DailySchedule.driving_hours d;
                  total_on_duty_hours := DailySchedule.on_duty_hours d;
                  total_off_duty_hours := DailySchedule.off_duty_hours d;
                  log_notes := DailySchedule.notes d |}))
    /\ (forall day_number : Z,
           (day_number < 1
            \/ Z.of_nat (List.length (daily_schedules td)) < day_number)%Z ->
           DailyLogsAPIView.get (Database.daily_schedules db') trip_id
             day_number
           = Py.Ok (Http.Error Http.HTTP_404_NOT_FOUND
               (Http.Message
                  "Schedule not found for the specified trip and day"))).
Proof.
  intros Hfresh Hf Hl.
  destruct (stored_create_ok db env trip_id validated_data route_data Hf Hl)
    as (td & db' & _ & -> & S & Hid & Hs & Hd & Hseq).
  rewrite S. clear S.
  assert (Ser : TripSerializer
                  (Database.Build (Database.trips db ++ [trip td])
                     (Database.stops db ++ stops td)
                     (Database.daily_schedules db ++ daily_schedules td))
                  (trip td) = td).
  { rewrite <- Hid in Hfresh, Hs, Hd.
    now apply serializer_reads_new_rows. }
  rewrite Ser. exists td. eexists. split; [reflexivity|].
  cbn [Database.daily_schedules].
  destruct Hfresh as (_ & _ & Fd).
  assert (Old : forall day,
             filter (schedule_matches trip_id day)
               (Database.daily_schedules db) = []).
  { intro day. apply filter_none. eapply Forall_impl; [|exact Fd].
    intros d H. unfold schedule_matches. apply andb_false_iff. left.
    now apply N.eqb_neq. }
  split.
  - intros k d Hk.
    assert (Hin : In d (daily_schedules td)) by (eapply nth_error_In; eauto).
    assert (Hm : schedule_matches trip_id (Z.of_nat k + 1) d = true).
    { apply matches_iff. split.
      - rewrite Forall_forall in Hd. now apply Hd.
      - now apply sequential_days_nth with (l := daily_schedules td). }
    unfold DailyLogsAPIView.get, objects_get.
    rewrite filter_app, Old.
    rewrite (filter_unique trip_id (Z.of_nat k + 1) (daily_schedules td) d
               (sequential_days_unique _ Hseq) Hin Hm).
    reflexivity.
  - intros day Hout.
    unfold DailyLogsAPIView.get, objects_get.
    rewrite filter_app, Old, filter_no_match; [reflexivity|].
    intros d Hin. destruct (schedule_matches trip_id day d) eqn:M;
      [|reflexivity].
    apply matches_iff in M as [_ M].
    pose proof (sequential_days_bounds _ d Hseq Hin). lia.
Qed.

Lemma create_then_day_logs_witness :
  exists td db',
    Stored.create sample_db empty_env 1%N sample_request
      (Route.Build 4023360 90000)
    = (db', Py.Ok (Http.Data Http.HTTP_201_CREATED td))
    /\ (forall (k : nat) (d : DailySchedule.t),
           nth_error (daily_schedules td) k = Some d ->
           DailyLogsAPIView.get (Database.daily_schedules db') 1%N
             (Z.of_nat k + 1)
           = Py.Ok (Http.Data Http.HTTP_200_OK
               {| log_trip_id := 1%N;
                  log_day_number := (Z.of_nat k + 1)%Z;
                  log_entries := log_entries_of d;
                  total_driving_hours := DailySchedule.driving_hours d;
                  total_on_duty_hours := DailySchedule.on_duty_hours d;
                  total_off_duty_hours := DailySchedule.off_duty_hours d;
                  log_notes := DailySchedule.notes d |}))
    /\ (forall day_number : Z,
           (day_number < 1
            \/ Z.of_nat (List.length (daily_schedules td)) < day_number)%Z ->
           DailyLogsAPIView.get (Database.daily_schedules db') 1%N
             day_number
           = Py.Ok (Http.Error Http.HTTP_404_NOT_FOUND
               (Http.Message
                  "Schedule not found for the specified trip and day"))).
Proof.
  apply (create_then_day_logs sample_db empty_env 1%N sample_request
           (Route.Build 4023360 90000)).
  - unfold fresh_id, sample_db; simpl.
    repeat split; repeat constructor; discriminate.
  - vm_compute; lia.
  - vm_compute; lia.
Defined.

(** X14: every day of a plan has the same kind of log.  Its stored
    driving hours [dr] lie between 0 and 11; when they are positive the
    log is Driving from 8.0 for [dr] hours, a half-hour Break, then Off
    Duty until 24.0; when they round to zero the log is the Break from
    8.0 and Off Duty until 24.0. *)
Theorem planned_day_log (env : environ) (trip_id : uuid)
        (validated_data : Request.t) (route_data : Route.t) :
  0 <= Route.duration route_data ->
  fuel_stop_miles env <> 0%Z ->
  driving_hours_limit env <> 0%Z ->
  exists td,
    TripAPIView.create env trip_id validated_data route_data
    = Py.Ok (Http.Data Http.HTTP_201_CREATED td)
    /\ forall d,
         In d (daily_schedules td) ->
         let dr := DailySchedule.driving_hours d in
         0 <= dr /\ dr <= 11
         /\ (0 < dr ->
             log_entries_of d
             = [LogEntry.Build 8.0 (8.0 + dr) Driving;
                LogEntry.Build (8.0 + dr) (8.0 + dr + 0.5) Break;
                LogEntry.Build (8.0 + dr + 0.5) 24.0 Off_Duty])
         /\ (dr == 0 ->
             log_entries_of d
             = [LogEntry.Build 8.0 (8.0 + 0.5) Break;
                LogEntry.Build (8.0 + 0.5) 24.0 Off_Duty]).
Proof.
  intros Hh Hf Hl.
  destruct (create_ok env trip_id validated_data route_data Hf Hl)
    as (s & R & E).
  eexists. split; [exact E|]. cbn [daily_schedules].
  destruct (plan_invariant_final trip_id route_data s _ Hh R)
    as ((_ & (_ & _ & _ & Hall) & Hdh) & _).
  intros d Hin. cbv zeta. set (dr := DailySchedule.driving_hours d).
  assert (Hcap : dr <= 11).
  { rewrite Forall_forall in Hall. now destruct (Hall d Hin) as (_ & H & _). }
  apply In_nth_error in Hin as [k Hk].
  destruct (Hdh k d Hk) as (_ & _ & Hon & Hpos & _). fold dr in Hon, Hpos.
  assert (B : Py.lt 0 (DailySchedule.on_duty_hours d - dr) = true)
    by (apply lt_true_iff; lra).
  split; [exact Hpos|]. split; [exact Hcap|].
  unfold log_entries_of, driving_and_break. fold dr. rewrite B.
  split; intro Hd.
  - assert (D : Py.lt 0 dr = true) by now apply lt_true_iff.
    rewrite D. cbn [app].
    assert (L : Py.lt (8.0 + dr + 0.5) 24 = true)
      by (apply lt_true_iff; lra).
    rewrite L. reflexivity.
  - assert (D : Py.lt 0 dr = false) by (apply lt_false_iff; lra).
    rewrite D. cbn [app]. reflexivity.
Qed.

Lemma planned_day_log_witness :
  exists td,
    TripAPIView.create empty_env 1%N sample_request
      (Route.Build 4023360 90000)
    = Py.Ok (Http.Data Http.HTTP_201_CREATED td)
    /\ forall d,
         In d (daily_schedules td) ->
         let dr := DailySchedule.driving_hours d in
         0 <= dr /\ dr <= 11
         /\ (0 < dr ->
             log_entries_of d
             = [LogEntry.Build 8.0 (8.0 + dr) Driving;
                LogEntry.Build (8.0 + dr) (8.0 + dr + 0.5) Break;
                LogEntry.Build (8.0 + dr + 0.5) 24.0 Off_Duty])
         /\ (dr == 0 ->
             log_entries_of d
             = [LogEntry.Build 8.0 (8.0 + 0.5) Break;
                LogEntry.Build (8.0 + 0.5) 24.0 Off_Duty]).
Proof.
  apply (planned_day_log empty_env 1%N sample_request
           (Route.Build 4023360 90000)).
  - vm_compute; discriminate.
  - vm_compute; lia.
  - vm_compute; lia.
Defined.

(* ------------------------------------------------------------------ *)
(** ** Lookups that find too much or nothing *)

Lemma filter_two {A : Type} (f : A -> bool) (l1 l2 l3 : list A) (a b : A) :
  f a = true -> f b = true ->
  exists x y r, filter f (l1 ++ a :: l2 ++ b :: l3) = x :: y :: r.
Proof.
  intros Ha Hb. rewrite filter_app. cbn [filter]. rewrite Ha.
  rewrite filter_app. cbn [filter]. rewrite Hb.
  destruct (filter f l1) as [|x [|y r]]; cbn [app].
  - destruct (filter f l2) as [|y r]; cbn [app]; eauto.
  - eauto.
  - eauto.
Qed.

(** X15: when two stored schedules carry the same trip and day number,
    the day-log query for that trip and day answers the 500 response
    with MultipleObjectsReturned, not a log and not the 404. *)
Theorem day_logs_duplicate_rows (l1 l2 l3 : list DailySchedule.t)
        (a b : DailySchedule.t) (trip_id : uuid) (day_number : Z) :
  DailySchedule.trip a = trip_id ->
  DailySchedule.day_number a = day_number ->
  DailySchedule.trip b = trip_id ->
  DailySchedule.day_number b = day_number ->
  DailyLogsAPIView.get (l1 ++ a :: l2 ++ b :: l3) trip_id day_number
  = Py.Ok (Http.Error Http.HTTP_500_INTERNAL_SERVER_ERROR
             (Http.Str Py.MultipleObjectsReturned)).
Proof.
  intros Ha1 Ha2 Hb1 Hb2.
  assert (Ma : schedule_matches trip_id day_number a = true)
    by (apply matches_iff; now split).
  assert (Mb : schedule_matches trip_id day_number b = true)
    by (apply matches_iff; now split).
  destruct (filter_two _ l1 l2 l3 a b Ma Mb) as (x & y & r & E).
  unfold DailyLogsAPIView.get, objects_get. now rewrite E.
Qed.

Lemma day_logs_duplicate_rows_witness :
  DailyLogsAPIView.get
    ([] ++ DailySchedule.Build 1%N 2 3 4 13 "Day 2 schedule"
        :: two_days ++ DailySchedule.Build 1%N 2 5 6 13 "again" :: [])
    1%N 2
  = Py.Ok (Http.Error Http.HTTP_500_INTERNAL_SERVER_ERROR
             (Http.Str Py.MultipleObjectsReturned)).
Proof.
  apply (day_logs_duplicate_rows [] two_days []
           (DailySchedule.Build 1%N 2 3 4 13 "Day 2 schedule")
           (DailySchedule.Build 1%N 2 5 6 13 "again") 1%N 2);
    reflexivity.
Defined.

Lemma trip_filter_unique (trips : list Trip.t) (t : Trip.t) :
  NoDup (map Trip.id trips) -> In t trips ->
  filter (fun t' => (Trip.id t' =? Trip.id t)%N) trips = [t].
Proof.
  induction trips as [|a r IH]; intros N Hin; [contradiction|].
  simpl in N. inversion N as [|? ? Hnot Hr]; subst.
  cbn [filter]. destruct Hin as [->|Hin].
  - rewrite N.eqb_refl. f_equal. apply filter_none.
    apply Forall_forall. intros t' Ht'. apply N.eqb_neq. intro E.
    apply Hnot. rewrite <- E. now apply in_map.
  - destruct (N.eqb_spec (Trip.id a) (Trip.id t)) as [E|E].
    + exfalso. apply Hnot. rewrite E. now apply in_map.
    + now apply IH.
Qed.

(** X16: over trips with distinct identifiers (the primary key),
    retrieving a stored identifier answers 200 with that trip and the
    stored stops and days that reference it; retrieving an identifier
    that is not stored answers 404 with "Trip not found". *)
Theorem trip_detail_found_or_not_found (db : Database.t) (id : uuid) :
  NoDup (map Trip.id (Database.trips db)) ->
  (forall t,
      In t (Database.trips db) -> Trip.id t = id ->
      TripDetailAPIView.get db id
      = Py.Ok (Http.Data Http.HTTP_200_OK
          {| trip := t;
             stops :=
               filter (fun s => (Stop.trip s =? id)%N) (Database.stops db);
             daily_schedules :=
               filter (fun d => (DailySchedule.trip d =? id)%N)
                 (Database.daily_schedules db) |}))
  /\ ((forall t, In t (Database.trips db) -> Trip.id t <> id) ->
      TripDetailAPIView.get db id
      = Py.Ok (Http.Error Http.HTTP_404_NOT_FOUND
                 (Http.Message "Trip not found"))).
Proof.
  intro N. split.
  - intros t Hin <-. unfold TripDetailAPIView.get, trip_objects_get.
    now rewrite (trip_filter_unique _ t N Hin).
  - intro H. unfold TripDetailAPIView.get, trip_objects_get.
    rewrite filter_none; [reflexivity|].
    apply Forall_forall. intros t Ht. apply N.eqb_neq. now apply H.
Qed.

Lemma trip_detail_found_or_not_found_witness :
  TripDetailAPIView.get sample_db 9%N
  = Py.Ok (Http.Data Http.HTTP_200_OK
      {| trip := Trip.Build 9%N "Reno" "Boise" "Provo" 3 400 8 1;
         stops := [Stop.Build 9%N pickup "Boise" 0 0];
         daily_schedules :=
           [DailySchedule.Build 9%N 1 8 9 13 "Day 1 schedule"] |})
  /\ TripDetailAPIView.get sample_db 4%N
     = Py.Ok (Http.Error Http.HTTP_404_NOT_FOUND
                (Http.Message "Trip not found")).
Proof.
  assert (N : NoDup (map Trip.id (Database.trips sample_db)))
    by (simpl; repeat constructor; simpl; tauto).
  split.
  - apply (proj1 (trip_detail_found_or_not_found sample_db 9%N N)
             (Trip.Build 9%N "Reno" "Boise" "Provo" 3 400 8 1)).
    + simpl. now left.
    + reflexivity.
  - apply (proj2 (trip_detail_found_or_not_found sample_db 4%N N)).
    intros t Hin. simpl in Hin. destruct Hin as [<-|[]]. discriminate.
Defined.

(* ------------------------------------------------------------------ *)
(** ** The directions service and the request path of [create] *)

Lemma lookup_dict_set_ne {A} (d : Json.dict A) k k' v :
  k <> k' -> Json.lookup (Json.dict_set d k v) k' = Json.lookup d k'.
Proof.
  intros N. induction d as [|[k0 v0] d IH]; cbn.
  - destruct (String.eqb_spec k k'); congruence.
  - destruct (String.eqb_spec k0 k) as [->|N0]; cbn.
    + destruct (String.eqb_spec k k'); congruence.
    + rewrite IH. reflexivity.
Qed.

Lemma nve_bind {A B} (m : Json.res A) (k : A -> Json.res B) :
  no_value_error m -> (forall a, no_value_error (k a)) ->
  no_value_error (Json.bind m k).
Proof. destruct m as [a|e]; cbn; auto. Qed.

Lemma nve_getitem v k : no_value_error (Json.getitem v k).
Proof.
  destruct v; cbn; auto. unfold Json.dict_getitem.
  destruct (Json.lookup kv k); cbn; auto.
Qed.

Lemma nve_getitem0 v : no_value_error (Json.getitem0 v).
Proof. destruct v as [| | |[|]|[|]|]; cbn; auto. Qed.

Lemma nve_iter v : no_value_error (Json.iter v).
Proof. destruct v; cbn; auto. Qed.

Lemma nve_contains k v : no_value_error (Json.contains k v).
Proof. destruct v; cbn; auto. Qed.

Lemma nve_parse_step s :
  no_value_error (MapboxDirectionsService.parse_step s).
Proof.
  unfold MapboxDirectionsService.parse_step.
  repeat (apply nve_bind; [apply nve_getitem|intros ?]). exact I.
Qed.

Lemma nve_parse_steps l acc :
  no_value_error (MapboxDirectionsService.parse_steps l acc).
Proof.
  revert acc. induction l as [|s l IH]; intros acc; cbn; [exact I|].
  apply nve_bind; [apply nve_parse_step|intros ?; apply IH].
Qed.

(** Parsing a directions answer never raises a [ValueError]. *)
Lemma nve_parse data :
  no_value_error (MapboxDirectionsService.parse_directions_response data).
Proof.
  unfold MapboxDirectionsService.parse_directions_response.
  apply nve_bind.
  - destruct (negb (Json.truthy data)); [exact I|].
    apply nve_bind; [apply nve_contains|intros ?; exact I].
  - intros [|]; [exact I|].
    repeat (apply nve_bind;
            [first [apply nve_getitem|apply nve_getitem0|apply nve_iter
                   |apply nve_parse_steps]|intros ?]).
    exact I.
Qed.

(** The three dicts the service can return for validated data. *)
Lemma service_outcomes mb vd :
  let result :=
    MapboxDirectionsService.process_directions_request mb
      (validated_dict vd) in
  result = [("error"%string,
             MapboxDirectionsService.Text
               (Json.Lit "Failed to get directions"))]
  \/ exists c cs c' cs' data,
       MapboxDirectionsService.geocode_address mb 0
         (Json.Str (Request.pickup_location vd)) = Some (c :: cs) /\
       MapboxDirectionsService.geocode_address mb 1
         (Json.Str (Request.dropoff_location vd)) = Some (c' :: cs') /\
       directions mb [c :: cs; c' :: cs'] (Json.Str "mapbox/driving")
         = Response 200 (Some data) /\
       ((exists e,
           MapboxDirectionsService.parse_directions_response data
             = Json.Exc e /\
           result = [("error"%string,
                      MapboxDirectionsService.Text
                        (Json.Lit "Internal server error"));
                     ("success"%string,
                      MapboxDirectionsService.Data (Json.Bool false))])
        \/ (exists parsed,
              MapboxDirectionsService.parse_directions_response data
                = Json.Ret parsed /\
              result =
                [("success"%string,
                  MapboxDirectionsService.Data (Json.Bool true));
                 ("data"%string,
                  MapboxDirectionsService.Data
                    (Json.Obj
                       (Json.dict_set parsed "coordinates"
                          (Json.Obj
                             [("pickup_location"%string,
                               Json.Arr (c :: cs));
                              ("dropoff_location"%string,
                               Json.Arr (c' :: cs'))]))));
                 ("metadata"%string,
                  MapboxDirectionsService.Data
                    (Json.Obj
                       [("origin"%string, Json.Null);
                        ("destination"%string, Json.Null);
                        ("pickup_location"%string,
                         Json.Str (Request.pickup_location vd));
                        ("dropoff_location"%string,
                         Json.Str (Request.dropoff_location vd))]))])).
Proof.
  destruct vd as [cl p d h].
  cbn [Request.pickup_location Request.dropoff_location].
  unfold MapboxDirectionsService.process_directions_request,
    MapboxDirectionsService.get_coordinates_from_request,
    MapboxDirectionsService.geocode_required,
    MapboxDirectionsService.geocode_optional, validated_dict.
  cbn.
  destruct (p =? "")%string; cbn;
    [destruct (d =? "")%string; cbn;
     [|destruct (MapboxDirectionsService.geocode_address mb 0 (Json.Str d))
         as [[|? ?]|]; cbn]; auto|].
  destruct (MapboxDirectionsService.geocode_address mb 0 (Json.Str p))
    as [[|c cs]|] eqn:G0; cbn;
    try (destruct (d =? "")%string; cbn;
         [|destruct (MapboxDirectionsService.geocode_address mb 1
                       (Json.Str d)) as [[|? ?]|]; cbn];
         auto; fail).
  destruct (d =? "")%string; cbn; auto.
  destruct (MapboxDirectionsService.geocode_address mb 1 (Json.Str d))
    as [[|c' cs']|] eqn:G1; cbn; auto.
  unfold MapboxDirectionsService.get_directions_with_waypoints. cbn.
  destruct (directions mb _ _) as [|code [data|]] eqn:D; cbn; auto.
  2:{ destruct (code =? 200)%Z; cbn; auto. }
  destruct (Z.eqb_spec code 200) as [->|]; cbn; auto.
  destruct (Json.truthy data) eqn:T; cbn; auto.
  pose proof (nve_parse data) as NV.
  right. exists c, cs, c', cs', data.
  split; [reflexivity|split; [reflexivity|split; [exact D|]]].
  destruct (MapboxDirectionsService.parse_directions_response data)
    as [parsed|e] eqn:P; cbn.
  - right. exists parsed. auto.
  - left. exists e. split; [reflexivity|].
    destruct e; cbn in NV; auto. contradiction.
Qed.

(** What the service returns once both stops are geocoded and the
    directions API answers 200 with a true body. *)
Lemma service_with_directions mb vd c cs c' cs' data :
  Request.pickup_location vd <> ""%string ->
  Request.dropoff_location vd <> ""%string ->
  MapboxDirectionsService.geocode_address mb 0
    (Json.Str (Request.pickup_location vd)) = Some (c :: cs) ->
  MapboxDirectionsService.geocode_address mb 1
    (Json.Str (Request.dropoff_location vd)) = Some (c' :: cs') ->
  directions mb [c :: cs; c' :: cs'] (Json.Str "mapbox/driving")
    = Response 200 (Some data) ->
  Json.truthy data = true ->
  MapboxDirectionsService.process_directions_request mb (validated_dict vd)
  = match MapboxDirectionsService.parse_directions_response data with
    | Json.Ret parsed =>
        [("success"%string, MapboxDirectionsService.Data (Json.Bool true));
         ("data"%string,
          MapboxDirectionsService.Data
            (Json.Obj
               (Json.dict_set parsed "coordinates"
                  (Json.Obj
                     [("pickup_location"%string, Json.Arr (c :: cs));
                      ("dropoff_location"%string, Json.Arr (c' :: cs'))]))));
         ("metadata"%string,
          MapboxDirectionsService.Data
            (Json.Obj
               [("origin"%string, Json.Null);
                ("destination"%string, Json.Null);
                ("pickup_location"%string,
                 Json.Str (Request.pickup_location vd));
                ("dropoff_location"%string,
                 Json.Str (Request.dropoff_location vd))]))]
    | Json.Exc _ =>
        [("error"%string,
          MapboxDirectionsService.Text (Json.Lit "Internal server error"));
         ("success"%string, MapboxDirectionsService.Data (Json.Bool false))]
    end.
Proof.
  destruct vd as [cl p d h].
  cbn [Request.pickup_location Request.dropoff_location].
  intros Np Nd G0 G1 D T.
  apply String.eqb_neq in Np. apply String.eqb_neq in Nd.
  unfold MapboxDirectionsService.process_directions_request,
    MapboxDirectionsService.get_coordinates_from_request,
    MapboxDirectionsService.geocode_required,
    MapboxDirectionsService.geocode_optional, validated_dict.
  cbn. rewrite Np. cbn. rewrite G0. cbn. rewrite Nd. cbn. rewrite G1. cbn.
  unfold MapboxDirectionsService.get_directions_with_waypoints. cbn.
  rewrite D. cbn. rewrite T. cbn.
  pose proof (nve_parse data) as NV.
  destruct (MapboxDirectionsService.parse_directions_response data)
    as [parsed|e]; cbn; [reflexivity|].
  destruct e; cbn in NV; auto. contradiction.
Qed.

(** X17: The service's answer to validated data depends on the pickup
    and dropoff locations only: two requests with the same pickup and
    dropoff get the same answer, whatever their current location and
    cycle hours. *)
Theorem service_ignores_current_location mb vd vd' :
  Request.pickup_location vd = Request.pickup_location vd' ->
  Request.dropoff_location vd = Request.dropoff_location vd' ->
  MapboxDirectionsService.process_directions_request mb (validated_dict vd)
  = MapboxDirectionsService.process_directions_request mb
      (validated_dict vd').
Proof.
  destruct vd as [cl p d h], vd' as [cl' p' d' h'].
  cbn [Request.pickup_location Request.dropoff_location].
  intros <- <-.
  unfold MapboxDirectionsService.process_directions_request,
    MapboxDirectionsService.get_coordinates_from_request,
    MapboxDirectionsService.geocode_required,
    MapboxDirectionsService.geocode_optional, validated_dict.
  cbn. reflexivity.
Qed.

Lemma service_ignores_current_location_witness :
  MapboxDirectionsService.process_directions_request sample_mapbox
    (validated_dict sample_request)
  = MapboxDirectionsService.process_directions_request sample_mapbox
      (validated_dict (Request.Build "Houston" "Austin" "Denver" 60)).
Proof.
  apply service_ignores_current_location; reflexivity.
Defined.

(** X18: When the pickup or the dropoff location cannot be geocoded,
    the view answers 500 with the text of [KeyError('success')]: the
    service's dict has no 'success' key, so the 400 branch is not
    reached. *)
Theorem ungeocoded_stop_key_error vd token mb env trip_id :
  token <> ""%string ->
  MapboxDirectionsService.coords_truthy
    (MapboxDirectionsService.geocode_address mb 0
       (Json.Str (Request.pickup_location vd))) = false
  \/ MapboxDirectionsService.coords_truthy
       (MapboxDirectionsService.geocode_address mb 1
          (Json.Str (Request.dropoff_location vd))) = false ->
  CreateRequest.create (Some vd) (Some token) mb env trip_id
  = CreateRequest.Failed (Json.KeyError "success").
Proof.
  intros Nt H. destruct token as [|a token]; [contradiction|].
  unfold CreateRequest.create.
  destruct (service_outcomes mb vd)
    as [R|(c & cs & c' & cs' & data & G0 & G1 & _)].
  - rewrite R. reflexivity.
  - rewrite G0, G1 in H. cbn in H. destruct H; discriminate.
Qed.

Lemma ungeocoded_stop_key_error_witness :
  CreateRequest.create (Some sample_request) (Some "pk.test"%string)
    mapbox_no_results empty_env 1%N
  = CreateRequest.Failed (Json.KeyError "success").
Proof.
  apply ungeocoded_stop_key_error; [discriminate|left; reflexivity].
Defined.

(** X19: When the directions API raises or answers with a status other
    than 200, the view answers 500 with the text of
    [KeyError('success')], for every valid request. *)
Theorem directions_unavailable_key_error vd token mb env trip_id :
  token <> ""%string ->
  (forall waypoints profile,
      directions mb waypoints profile = Raises
      \/ exists status_code json,
           directions mb waypoints profile = Response status_code json
           /\ status_code <> 200%Z) ->
  CreateRequest.create (Some vd) (Some token) mb env trip_id
  = CreateRequest.Failed (Json.KeyError "success").
Proof.
  intros Nt H. destruct token as [|a token]; [contradiction|].
  unfold CreateRequest.create.
  destruct (service_outcomes mb vd)
    as [R|(c & cs & c' & cs' & data & _ & _ & D & _)].
  - rewrite R. reflexivity.
  - destruct (H [c :: cs; c' :: cs'] (Json.Str "mapbox/driving"))
      as [E|(code & json & E & N)]; rewrite E in D;
      [discriminate|congruence].
Qed.

Lemma directions_unavailable_key_error_witness :
  CreateRequest.create (Some sample_request) (Some "pk.test"%string)
    mapbox_down empty_env 1%N
  = CreateRequest.Failed (Json.KeyError "success").
Proof.
  apply directions_unavailable_key_error; [discriminate|].
  intros waypoints profile. right. exists 503%Z, None.
  split; [reflexivity|lia].
Defined.

(** X20: The only error a valid request with a configured token can
    get with status 400 is 'Internal server error': neither the default
    'Failed to process directions' nor a geocoding message is ever
    sent. *)
Theorem bad_request_only_internal_error serializer token mb env trip_id err :
  CreateRequest.create serializer token mb env trip_id
  = CreateRequest.DirectionsFailed err ->
  err = MapboxDirectionsService.Text (Json.Lit "Internal server error").
Proof.
  destruct serializer as [vd|]; [|discriminate].
  destruct token as [[|a token]|]; try discriminate.
  unfold CreateRequest.create.
  destruct (service_outcomes mb vd)
    as [R|(c & cs & c' & cs' & data & _ & _ & _
           & [(e & _ & R)|(parsed & _ & R)])];
    rewrite R; clear R; cbn -[TripAPIView.create].
  - discriminate.
  - intros [= <-]. reflexivity.
  - unfold Json.dict_getitem.
    destruct (Json.lookup _ "distance") as [dv|];
      cbn -[TripAPIView.create]; [|discriminate].
    destruct (Json.as_number dv); cbn -[TripAPIView.create]; [|discriminate].
    destruct (Json.lookup _ "duration") as [tv|];
      cbn -[TripAPIView.create]; [|discriminate].
    destruct (Json.as_number tv); cbn -[TripAPIView.create]; discriminate.
Qed.

Lemma bad_request_only_internal_error_witness :
  MapboxDirectionsService.Text (Json.Lit "Internal server error")
  = MapboxDirectionsService.Text (Json.Lit "Internal server error").
Proof.
  apply (bad_request_only_internal_error (Some sample_request)
           (Some "pk.test"%string) mapbox_no_route empty_env 1%N).
  reflexivity.
Defined.

(** X21: When Mapbox geocodes the pickup and the dropoff location and
    the directions API answers 200 for the two points, in that order and
    with the profile 'mapbox/driving', the view plans the trip from the
    parsed distance and duration: its answer is that of the planning
    part for that route. *)
Theorem planned_from_route vd token mb env trip_id c cs c' cs' data parsed
        d t :
  token <> ""%string ->
  Request.pickup_location vd <> ""%string ->
  Request.dropoff_location vd <> ""%string ->
  MapboxDirectionsService.geocode_address mb 0
    (Json.Str (Request.pickup_location vd)) = Some (c :: cs) ->
  MapboxDirectionsService.geocode_address mb 1
    (Json.Str (Request.dropoff_location vd)) = Some (c' :: cs') ->
  directions mb [c :: cs; c' :: cs'] (Json.Str "mapbox/driving")
    = Response 200 (Some data) ->
  MapboxDirectionsService.parse_directions_response data
    = Json.Ret parsed ->
  Json.lookup parsed "distance" = Some (Json.Num d) ->
  Json.lookup parsed "duration" = Some (Json.Num t) ->
  CreateRequest.create (Some vd) (Some token) mb env trip_id
  = CreateRequest.Planned
      (TripAPIView.create env trip_id vd (Route.Build d t)).
Proof.
  intros Nt Np Nd G0 G1 D P Ld Lt.
  destruct token as [|a token]; [contradiction|].
  assert (T : Json.truthy data = true).
  { destruct (Json.truthy data) eqn:T; [reflexivity|].
    unfold MapboxDirectionsService.parse_directions_response in P.
    rewrite T in P. cbn in P. injection P as <-. discriminate. }
  unfold CreateRequest.create.
  rewrite (service_with_directions mb vd c cs c' cs' data Np Nd G0 G1 D T).
  rewrite P. cbn -[TripAPIView.create]. unfold Json.dict_getitem.
  rewrite !lookup_dict_set_ne by discriminate. rewrite Ld, Lt.
  reflexivity.
Qed.

Lemma planned_from_route_witness :
  CreateRequest.create (Some sample_request) (Some "pk.test"%string)
    sample_mapbox empty_env 1%N
  = CreateRequest.Planned
      (TripAPIView.create empty_env 1%N sample_request
         (Route.Build 4023360 90000)).
Proof.
  eapply planned_from_route;
    first [reflexivity | discriminate].
Defined.

Lemma parse_steps_forall2 l : forall acc r,
  MapboxDirectionsService.parse_steps l acc = Json.Ret r ->
  exists outs, r = acc ++ outs /\ Forall2 step_parsed l outs.
Proof.
  induction l as [|s l IH]; intros acc r H; cbn in H.
  - injection H as <-. exists []. rewrite app_nil_r. split; constructor.
  - destruct (MapboxDirectionsService.parse_step s) as [o|] eqn:S;
      cbn in H; [|discriminate].
    destruct (IH _ _ H) as (outs & -> & F).
    exists (o :: outs). rewrite <- app_assoc. split; [reflexivity|].
    constructor; assumption.
Qed.

(** X22: A non-empty parse result describes the first leg of the first
    route: its distance and duration are the first route's, and its
    steps are the parsed steps of that leg, one for each and in the
    same order. *)
Theorem parse_first_route_first_leg data parsed :
  MapboxDirectionsService.parse_directions_response data
    = Json.Ret parsed ->
  parsed <> [] ->
  exists routes route legs leg steps items outs distance duration,
    Json.getitem data "routes" = Json.Ret routes /\
    Json.getitem0 routes = Json.Ret route /\
    Json.getitem route "legs" = Json.Ret legs /\
    Json.getitem0 legs = Json.Ret leg /\
    Json.getitem leg "steps" = Json.Ret steps /\
    Json.iter steps = Json.Ret items /\
    Forall2 step_parsed items outs /\
    Json.lookup parsed "steps" = Some (Json.Arr outs) /\
    Json.getitem route "distance" = Json.Ret distance /\
    Json.lookup parsed "distance" = Some distance /\
    Json.getitem route "duration" = Json.Ret duration /\
    Json.lookup parsed "duration" = Some duration.
Proof.
  intros P N.
  unfold MapboxDirectionsService.parse_directions_response in P.
  destruct (Json.truthy data); cbn in P; [|congruence].
  destruct (Json.contains "routes" data) as [[|]|]; cbn in P;
    [|congruence|discriminate].
  destruct (Json.getitem data "routes") as [routes|] eqn:?; cbn in P;
    [|discriminate].
  destruct (Json.getitem0 routes) as [route|] eqn:?; cbn in P;
    [|discriminate].
  destruct (Json.getitem route "legs") as [legs|] eqn:?; cbn in P;
    [|discriminate].
  destruct (Json.getitem0 legs) as [leg|] eqn:?; cbn in P;
    [|discriminate].
  destruct (Json.getitem route "distance") as [distance|] eqn:?; cbn in P;
    [|discriminate].
  destruct (Json.getitem route "duration") as [duration|] eqn:?; cbn in P;
    [|discriminate].
  destruct (Json.getitem route "geometry") as [geometry|] eqn:?; cbn in P;
    [|discriminate].
  destruct (Json.getitem data "waypoints") as [waypoints|] eqn:?; cbn in P;
    [|discriminate].
  destruct (Json.getitem leg "steps") as [steps|] eqn:?; cbn in P;
    [|discriminate].
  destruct (Json.iter steps) as [items|] eqn:?; cbn in P; [|discriminate].
  destruct (MapboxDirectionsService.parse_steps items []) as [outs|] eqn:S;
    cbn in P; [|discriminate].
  injection P as <-.
  destruct (parse_steps_forall2 _ _ _ S) as (outs' & -> & F).
  exists routes, route, legs, leg, steps, items, outs', distance, duration.
  cbn. repeat split; first [assumption|reflexivity].
Qed.

Lemma parse_first_route_first_leg_witness :
  exists routes route legs leg steps items outs distance duration,
    Json.getitem sample_directions "routes" = Json.Ret routes /\
    Json.getitem0 routes = Json.Ret route /\
    Json.getitem route "legs" = Json.Ret legs /\
    Json.getitem0 legs = Json.Ret leg /\
    Json.getitem leg "steps" = Json.Ret steps /\
    Json.iter steps = Json.Ret items /\
    Forall2 step_parsed items outs /\
    Json.lookup
      [("distance"%string, Json.Num 4023360);
       ("duration"%string, Json.Num 90000);
       ("geometry"%string, Json.Null);
       ("waypoints"%string, Json.Arr []);
       ("steps"%string,
        Json.Arr
          [Json.Obj
             [("instruction"%string, Json.Str "Head north");
              ("distance"%string, Json.Num 4023360);
              ("duration"%string, Json.Num 90000);
              ("maneuver_type"%string, Json.Str "depart");
              ("waypoints"%string, Json.Arr [])]])] "steps"
    = Some (Json.Arr outs) /\
    Json.getitem route "distance" = Json.Ret distance /\
    Json.lookup
      [("distance"%string, Json.Num 4023360);
       ("duration"%string, Json.Num 90000);
       ("geometry"%string, Json.Null);
       ("waypoints"%string, Json.Arr []);
       ("steps"%string,
        Json.Arr
          [Json.Obj
             [("instruction"%string, Json.Str "Head north");
              ("distance"%string, Json.Num 4023360);
              ("duration"%string, Json.Num 90000);
              ("maneuver_type"%string, Json.Str "depart");
              ("waypoints"%string, Json.Arr [])]])] "distance"
    = Some distance /\
    Json.getitem route "duration" = Json.Ret duration /\
    Json.lookup
      [("distance"%string, Json.Num 4023360);
       ("duration"%string, Json.Num 90000);
       ("geometry"%string, Json.Null);
       ("waypoints"%string, Json.Arr []);
       ("steps"%string,
        Json.Arr
          [Json.Obj
             [("instruction"%string, Json.Str "Head north");
              ("distance"%string, Json.Num 4023360);
              ("duration"%string, Json.Num 90000);
              ("maneuver_type"%string, Json.Str "depart");
              ("waypoints"%string, Json.Arr [])]])] "duration"
    = Some duration.
Proof.
  apply (parse_first_route_first_leg sample_directions);
    [reflexivity|discriminate].
Defined.

(** X23: When the directions API answers 200 with an empty list of
    routes, the view answers 400 with 'Internal server error'. *)
Theorem no_route_bad_request vd token mb env trip_id c cs c' cs' kv :
  token <> ""%string ->
  Request.pickup_location vd <> ""%string ->
  Request.dropoff_location vd <> ""%string ->
  MapboxDirectionsService.geocode_address mb 0
    (Json.Str (Request.pickup_location vd)) = Some (c :: cs) ->
  MapboxDirectionsService.geocode_address mb 1
    (Json.Str (Request.dropoff_location vd)) = Some (c' :: cs') ->
  directions mb [c :: cs; c' :: cs'] (Json.Str "mapbox/driving")
    = Response 200 (Some (Json.Obj kv)) ->
  Json.lookup kv "routes" = Some (Json.Arr []) ->
  CreateRequest.create (Some vd) (Some token) mb env trip_id
  = CreateRequest.DirectionsFailed
      (MapboxDirectionsService.Text (Json.Lit "Internal server error")).
Proof.
  intros Nt Np Nd G0 G1 D L.
  destruct token as [|a token]; [contradiction|].
  assert (T : Json.truthy (Json.Obj kv) = true).
  { destruct kv; [discriminate|reflexivity]. }
  unfold CreateRequest.create.
  rewrite (service_with_directions mb vd c cs c' cs' _ Np Nd G0 G1 D T).
  unfold MapboxDirectionsService.parse_directions_response.
  rewrite T. cbn. unfold Json.has_key, Json.dict_getitem. rewrite L.
  reflexivity.
Qed.

Lemma no_route_bad_request_witness :
  CreateRequest.create (Some sample_request) (Some "pk.test"%string)
    mapbox_no_route empty_env 1%N
  = CreateRequest.DirectionsFailed
      (MapboxDirectionsService.Text (Json.Lit "Internal server error")).
Proof.
  eapply no_route_bad_request; first [reflexivity | discriminate].
Defined.

(** X24: When the directions API answers 200 with a non-empty object
    that has no 'routes' key, the service still reports success and the
    view answers 500 with the text of [KeyError('distance')]. *)
Theorem routes_key_missing_key_error vd token mb env trip_id c cs c' cs' kv :
  token <> ""%string ->
  Request.pickup_location vd <> ""%string ->
  Request.dropoff_location vd <> ""%string ->
  MapboxDirectionsService.geocode_address mb 0
    (Json.Str (Request.pickup_location vd)) = Some (c :: cs) ->
  MapboxDirectionsService.geocode_address mb 1
    (Json.Str (Request.dropoff_location vd)) = Some (c' :: cs') ->
  directions mb [c :: cs; c' :: cs'] (Json.Str "mapbox/driving")
    = Response 200 (Some (Json.Obj kv)) ->
  kv <> [] ->
  Json.lookup kv "routes" = None ->
  CreateRequest.create (Some vd) (Some token) mb env trip_id
  = CreateRequest.Failed (Json.KeyError "distance").
Proof.
  intros Nt Np Nd G0 G1 D N L.
  destruct token as [|a token]; [contradiction|].
  assert (T : Json.truthy (Json.Obj kv) = true).
  { destruct kv; [contradiction|reflexivity]. }
  unfold CreateRequest.create.
  rewrite (service_with_directions mb vd c cs c' cs' _ Np Nd G0 G1 D T).
  unfold MapboxDirectionsService.parse_directions_response.
  rewrite T. cbn. unfold Json.has_key. rewrite L.
  reflexivity.
Qed.

Lemma routes_key_missing_key_error_witness :
  CreateRequest.create (Some sample_request) (Some "pk.test"%string)
    mapbox_no_body empty_env 1%N
  = CreateRequest.Failed (Json.KeyError "distance").
Proof.
  eapply routes_key_missing_key_error; first [reflexivity | discriminate].
Defined.

(** X25: A request dict with an 'origin' that cannot be geocoded gets
    the error 'Could not geocode origin: <address>' with 'success'
    false, whatever else it holds and without any directions call. *)
Theorem origin_not_geocoded mb request_data address :
  Json.lookup request_data "origin" = Some address ->
  MapboxDirectionsService.coords_truthy
    (MapboxDirectionsService.geocode_address mb 0 address) = false ->
  MapboxDirectionsService.process_directions_request mb request_data
  = [("error"%string,
      MapboxDirectionsService.Text
        (Json.Fmt "Could not geocode origin: " address));
     ("success"%string, MapboxDirectionsService.Data (Json.Bool false))].
Proof.
  intros L G.
  unfold MapboxDirectionsService.process_directions_request,
    MapboxDirectionsService.get_coordinates_from_request,
    MapboxDirectionsService.geocode_required.
  unfold Json.has_key, Json.dict_getitem. rewrite L.
  cbn [Json.bind].
  destruct (MapboxDirectionsService.geocode_address mb 0 address)
    as [[|? ?]|]; try discriminate; reflexivity.
Qed.

Lemma origin_not_geocoded_witness :
  MapboxDirectionsService.process_directions_request mapbox_no_results
    [("origin"%string, Json.Str "Nowhere");
     ("destination"%string, Json.Str "Austin")]
  = [("error"%string,
      MapboxDirectionsService.Text
        (Json.Fmt "Could not geocode origin: " (Json.Str "Nowhere")));
     ("success"%string, MapboxDirectionsService.Data (Json.Bool false))].
Proof.
  apply origin_not_geocoded; reflexivity.
Defined.

(** X26: A trip is planned only from a route Mapbox returned: when the
    view reaches the planning part, the request was valid, both stops
    were geocoded, the directions API answered 200 for [pickup, dropoff]
    with the profile 'mapbox/driving', and the planned route is the
    parsed distance and duration of that answer. *)
Theorem planned_only_from_route serializer token mb env trip_id response :
  CreateRequest.create serializer token mb env trip_id
  = CreateRequest.Planned response ->
  exists vd c cs c' cs' data parsed dv tv d t,
    serializer = Some vd /\
    MapboxDirectionsService.geocode_address mb 0
      (Json.Str (Request.pickup_location vd)) = Some (c :: cs) /\
    MapboxDirectionsService.geocode_address mb 1
      (Json.Str (Request.dropoff_location vd)) = Some (c' :: cs') /\
    directions mb [c :: cs; c' :: cs'] (Json.Str "mapbox/driving")
      = Response 200 (Some data) /\
    MapboxDirectionsService.parse_directions_response data
      = Json.Ret parsed /\
    Json.lookup parsed "distance" = Some dv /\
    Json.as_number dv = Json.Ret d /\
    Json.lookup parsed "duration" = Some tv /\
    Json.as_number tv = Json.Ret t /\
    response = TripAPIView.create env trip_id vd (Route.Build d t).
Proof.
  destruct serializer as [vd|]; [|discriminate].
  destruct token as [[|a token]|]; try discriminate.
  unfold CreateRequest.create.
  destruct (service_outcomes mb vd)
    as [R|(c & cs & c' & cs' & data & G0 & G1 & D
           & [(e & _ & R)|(parsed & P & R)])];
    rewrite R; clear R; cbn -[TripAPIView.create]; try discriminate.
  unfold Json.dict_getitem.
  rewrite !lookup_dict_set_ne by discriminate.
  destruct (Json.lookup parsed "distance") as [dv|] eqn:Ld;
    cbn -[TripAPIView.create]; [|discriminate].
  destruct (Json.as_number dv) as [d|] eqn:Ad;
    cbn -[TripAPIView.create]; [|discriminate].
  destruct (Json.lookup parsed "duration") as [tv|] eqn:Lt;
    cbn -[TripAPIView.create]; [|discriminate].
  destruct (Json.as_number tv) as [t|] eqn:At;
    cbn -[TripAPIView.create]; [|discriminate].
  intros [= <-].
  exists vd, c, cs, c', cs', data, parsed, dv, tv, d, t.
  repeat (split; [first [reflexivity|assumption]|]). reflexivity.
Qed.

Lemma planned_only_from_route_witness :
  exists vd c cs c' cs' data parsed dv tv d t,
    Some sample_request = Some vd /\
    MapboxDirectionsService.geocode_address sample_mapbox 0
      (Json.Str (Request.pickup_location vd)) = Some (c :: cs) /\
    MapboxDirectionsService.geocode_address sample_mapbox 1
      (Json.Str (Request.dropoff_location vd)) = Some (c' :: cs') /\
    directions sample_mapbox [c :: cs; c' :: cs'] (Json.Str "mapbox/driving")
      = Response 200 (Some data) /\
    MapboxDirectionsService.parse_directions_response data
      = Json.Ret parsed /\
    Json.lookup parsed "distance" = Some dv /\
    Json.as_number dv = Json.Ret d /\
    Json.lookup parsed "duration" = Some tv /\
    Json.as_number tv = Json.Ret t /\
    TripAPIView.create empty_env 1%N sample_request
      (Route.Build 4023360 90000)
    = TripAPIView.create empty_env 1%N vd (Route.Build d t).
Proof.
  apply (planned_only_from_route (Some sample_request)
           (Some "pk.test"%string) sample_mapbox empty_env 1%N).
  reflexivity.
Defined.
